(** * ContributorAutomation: registry scripts, embedded and verified

    A shallow embedding of [scripts/utils.py], [scripts/contributor_manager.py]
    and [scripts/contributor_checker.py].

    Text.  A Python [str] is modelled as a list of 8-bit characters read as
    the code points U+0000..U+00FF (Latin-1).  On that range the tables of
    [str.isalnum], [str.isdigit], [str.isspace] and [str.lower] below are the
    exact ones of CPython's Unicode database; code points above U+00FF are
    outside the model.

    Documents.  A TOML document, a JSON result and a Python [dict] are finite
    maps from keys to values ([gmap string value]).

    Effects.  The file system of a checkout is a finite map from file names to
    files, the [git] subprocess is an oracle giving the outcome of each call,
    and exceptions are the [Raise] results of a small error monad. *)

From Stdlib Require Import ZArith NArith Ascii String List Bool Lia.
From Stdlib Require QArith.
From stdpp Require Import gmap strings list fin_maps.

Set Warnings "-register-all".

(* ===================================================================== *)
(** * Part I: definitions                                                 *)
(* ===================================================================== *)

(** ** Python text *)

Module Py.

Abbreviation str := (list ascii).

(** A string literal of the source. *)
Definition lit (s : string) : str := list_ascii_of_string s.

(** The double and the single quote character. *)
Definition dquote : ascii := "034"%char.
Definition squote : ascii := "039"%char.

Definition code (c : ascii) : N := N_of_ascii c.

Definition in_range (lo hi : N) (c : ascii) : bool :=
  ((lo <=? code c) && (code c <=? hi))%N.

Definition is_code (n : N) (c : ascii) : bool := (code c =? n)%N.

(** [c in chars] for a one-character [c]. *)
Definition in_chars (chars : str) (c : ascii) : bool :=
  existsb (Ascii.eqb c) chars.

(** Characters below U+0080. *)
Definition is_ascii (c : ascii) : bool := (code c <? 128)%N.

(** [str.isspace]: TAB..CR, FS..US, space, NEL (U+0085), NBSP (U+00A0). *)
Definition isspace (c : ascii) : bool :=
  in_range 9 13 c || in_range 28 32 c || is_code 133 c || is_code 160 c.

(** [str.isdecimal]: category Nd, which is 0..9 on this range. *)
Definition isdecimal (c : ascii) : bool := in_range 48 57 c.

(** [str.isdigit]: the decimal digits and the superscripts U+00B2, U+00B3,
    U+00B9. *)
Definition isdigit (c : ascii) : bool :=
  isdecimal c || is_code 178 c || is_code 179 c || is_code 185 c.

(** [str.isnumeric]: the digits and the vulgar fractions U+00BC..U+00BE. *)
Definition isnumeric (c : ascii) : bool := isdigit c || in_range 188 190 c.

(** [str.isalpha]: A..Z, a..z, U+00AA, U+00B5, U+00BA, U+00C0..U+00D6,
    U+00D8..U+00F6, U+00F8..U+00FF. *)
Definition isalpha (c : ascii) : bool :=
  in_range 65 90 c || in_range 97 122 c
  || is_code 170 c || is_code 181 c || is_code 186 c
  || in_range 192 214 c || in_range 216 246 c || in_range 248 255 c.

(** [str.isalnum] is the disjunction of the four predicates above. *)
Definition isalnum (c : ascii) : bool :=
  isalpha c || isdecimal c || isdigit c || isnumeric c.

(** [str.lower] on one character: A..Z, U+00C0..U+00D6 and U+00D8..U+00DE
    move up by 32, every other character of the range is unchanged. *)
Definition lower_char (c : ascii) : ascii :=
  if in_range 65 90 c || in_range 192 214 c || in_range 216 222 c
  then ascii_of_N (code c + 32) else c.

Definition lower (s : str) : str := map lower_char s.

(** [s.isdigit()]: non-empty and every character a digit. *)
Definition str_isdigit (s : str) : bool :=
  match s with [] => false | _ => forallb isdigit s end.

Fixpoint drop_while (p : ascii -> bool) (s : str) : str :=
  match s with
  | [] => []
  | c :: s' => if p c then drop_while p s' else s
  end.

(** [str.strip]: characters satisfying [p] are removed from the left end,
    then from the right end. *)
Definition strip_with (p : ascii -> bool) (s : str) : str :=
  rev (drop_while p (rev (drop_while p s))).

(** [s.strip()] *)
Definition strip (s : str) : str := strip_with isspace s.

(** [s.strip(chars)] *)
Definition strip_chars (chars : str) (s : str) : str :=
  strip_with (in_chars chars) s.

Fixpoint startswith (s p : str) {struct p} : bool :=
  match p, s with
  | [], _ => true
  | a :: p', b :: s' => Ascii.eqb a b && startswith s' p'
  | _ :: _, [] => false
  end.

(** [needle in hay] *)
Fixpoint contains (hay needle : str) : bool :=
  startswith hay needle ||
  match hay with
  | [] => false
  | _ :: hay' => contains hay' needle
  end.

(** [s.replace(old, new)]: the non-overlapping occurrences of [old] are
    replaced from left to right.  [skip] counts the characters of an
    occurrence that are still to be passed over. *)
Fixpoint replace_from (old new : str) (skip : nat) (s : str) : str :=
  match s with
  | [] => []
  | c :: s' =>
      match skip with
      | S k => replace_from old new k s'
      | O =>
          if startswith s old
          then new ++ replace_from old new (length old - 1) s'
          else c :: replace_from old new 0 s'
      end
  end.

Definition replace (s old new : str) : str :=
  match old with
  | [] => new ++ flat_map (fun c => c :: new) s
  | _ => replace_from old new 0 s
  end.

(** *** [int(s, 16)]

    The acceptance test of CPython's [PyLong_FromUnicodeObject] followed by
    [PyLong_FromString] in base 16: non-ASCII white space becomes a blank and
    any other non-ASCII character is invalid; then optional blanks, an
    optional sign, an optional [0x] with at most one underscore after it,
    hexadecimal digits separated by single underscores, and optional blanks
    up to the end. *)

Definition c_isspace (c : ascii) : bool := in_range 9 13 c || is_code 32 c.

Definition to_ascii_space (c : ascii) : ascii :=
  if is_ascii c && negb (is_code 127 c) then c
  else if isspace c then " "%char else "?"%char.

Definition ishex (c : ascii) : bool :=
  in_range 48 57 c || in_range 97 102 c || in_range 65 70 c.

Definition is_underscore (c : ascii) : bool := is_code 95 c.

Definition skip_sign (s : str) : str :=
  match s with
  | c :: r => if is_code 43 c || is_code 45 c then r else s
  | [] => []
  end.

Definition skip_hex_prefix (s : str) : str :=
  match s with
  | z :: x :: r =>
      if is_code 48 z && (is_code 120 x || is_code 88 x)
      then match r with
           | u :: r' => if is_underscore u then r' else r
           | [] => r
           end
      else s
  | _ => s
  end.

(** The digit scan: [prev_us] says that the previous character was an
    underscore, [n] counts the digits.  [None] is the syntax error of a
    doubled or a trailing underscore. *)
Fixpoint scan_hex (prev_us : bool) (n : nat) (s : str) : option (nat * str) :=
  match s with
  | c :: r =>
      if is_underscore c then
        if prev_us then None else scan_hex true n r
      else if ishex c then scan_hex false (S n) r
      else if prev_us then None else Some (n, s)
  | [] => if prev_us then None else Some (n, [])
  end.

Definition int16_ok (s : str) : bool :=
  let t := skip_hex_prefix (skip_sign (drop_while c_isspace (map to_ascii_space s))) in
  match t with
  | c :: _ => if is_underscore c then false else
      match scan_hex false 0 t with
      | Some (n, rest) =>
          (0 <? n) && match drop_while c_isspace rest with [] => true | _ => false end
      | None => false
      end
  | [] => false
  end.

End Py.

(** ** Python values, exceptions and configuration *)

Module Data.
Import Py.

(** A TOML float: a finite double is a rational number, and TOML also has
    the infinities and [nan]. *)
Inductive pyfloat :=
| FFin (q : QArith_base.Q)
| FInf (negative : bool)
| FNan.

(** The values of a loaded TOML document, of a JSON result and of the
    command line ([None] for an option that was not given).  A TOML date or
    time is kept as its text. *)
Inductive value :=
| VNone
| VBool (b : bool)
| VInt (n : Z)
| VFloat (f : pyfloat)
| VStr (s : str)
| VList (l : list value)
| VDict (d : gmap string value)
| VDatetime (text : str).

Inductive exn :=
| KeyError (key : string)
| AttributeError (msg : string)
| TypeError (msg : string)
| RuntimeError (msg : str)
| OtherError (msg : str).

(** The outcome of a call: a result or a raised exception. *)
Inductive res (A : Type) :=
| Ok (a : A)
| Raise (e : exn).
Arguments Ok {A} a.
Arguments Raise {A} e.

#[global] Instance res_ret : MRet res := fun A a => Ok a.

#[global] Instance res_bind : MBind res := fun A B k m =>
  match m with
  | Ok a => k a
  | Raise e => Raise e
  end.

(** [str(e)] as far as the scripts print it: the message of the errors they
    raise themselves. *)
Definition exn_message (e : exn) : str :=
  match e with
  | KeyError k => lit "'" ++ lit k ++ lit "'"
  | AttributeError m => lit m
  | TypeError m => lit m
  | RuntimeError m => m
  | OtherError m => m
  end.

(** Truth value of a Python object. *)
Definition truthy (v : value) : bool :=
  match v with
  | VNone => false
  | VBool b => b
  | VInt n => negb (n =? 0)%Z
  | VFloat (FFin q) => negb (QArith_base.Qeq_bool q (QArith_base.Qmake 0 1))
  | VFloat _ => true
  | VStr s => match s with [] => false | _ => true end
  | VList l => match l with [] => false | _ => true end
  | VDict d => negb (bool_decide (d = ∅))
  | VDatetime _ => true
  end.

(** [d[key]] *)
Definition getitem (d : gmap string value) (key : string) : res value :=
  match d !! key with
  | Some v => Ok v
  | None => Raise (KeyError key)
  end.

(** [d.get(key, default)] on a dict. *)
Definition dict_get (d : gmap string value) (key : string) (dflt : value) : value :=
  default dflt (d !! key).

(** [v.get(key, default)] on any value: only a dict has the method. *)
Definition value_get (v : value) (key : string) (dflt : value) : res value :=
  match v with
  | VDict d => Ok (dict_get d key dflt)
  | _ => Raise (AttributeError "object has no attribute 'get'")
  end.

(** A number of the configuration: a TOML integer or float. *)
Inductive number :=
| NInt (n : Z)
| NFloat (f : pyfloat).

Definition of_number (n : number) : value :=
  match n with
  | NInt z => VInt z
  | NFloat f => VFloat f
  end.

(** Numbers as Python orders them.  [True] and [False] count as 1 and 0;
    an integer and a float are compared by their exact values; every
    comparison with [nan] is false. *)
Definition as_float (v : value) : option pyfloat :=
  match v with
  | VBool b => Some (FFin (QArith_base.inject_Z (if b then 1 else 0)))
  | VInt n => Some (FFin (QArith_base.inject_Z n))
  | VFloat f => Some f
  | _ => None
  end.

Definition float_ge (a b : pyfloat) : bool :=
  match a, b with
  | FNan, _ | _, FNan => false
  | FInf false, _ => true
  | _, FInf true => true
  | FInf true, _ => false
  | _, FInf false => false
  | FFin x, FFin y => QArith_base.Qle_bool y x
  end.

(** [a >= b] for a number [b]: a [TypeError] unless [a] is a number too. *)
Definition ge (a : value) (b : number) : res bool :=
  match as_float a, as_float (of_number b) with
  | Some x, Some y => Ok (float_ge x y)
  | _, _ => Raise (TypeError "'>=' not supported between these instances")
  end.

(** [a and b], where [b] is evaluated only when [a] is true. *)
Definition and_then (a : bool) (b : res bool) : res bool :=
  if a then b else Ok false.

(** [v == 'text'] *)
Definition eq_str (v : value) (s : str) : bool :=
  match v with
  | VStr t => bool_decide (t = s)
  | _ => false
  end.

(** The tables of [config.toml] that the scripts read. *)
Record gist_config := {
  registry_url : str;
  contributor_file_pattern : str;
  schema_version : value
}.

Record onboarding_config := {
  discord_id_min_length : Z;
  discord_id_max_length : Z;
  wallet_prefix : str;
  wallet_length : Z
}.

Record promotion_config := {
  threshold : number;
  min_avg_lines : number
}.

Record config := {
  gist : gist_config;
  onboarding : onboarding_config;
  promotion : promotion_config
}.

End Data.

(** ** Regular expressions of the shape the scripts use

    Both patterns of [parse_contributor_comment] are sequences of quantified
    character classes with one capturing group.  [match_here] is the
    backtracking matcher of such a sequence: every item is greedy, it first
    takes the longest run its class and upper bound allow and gives
    characters back one at a time, down to its lower bound, until the rest of
    the sequence matches.  It returns the text taken by each item. *)

Module Regex.
Import Py.

Record item := {
  cls : ascii -> bool;
  lo : nat;
  hi : option nat
}.

Record pattern := {
  items : list item;
  group_start : nat;   (* the items before the group *)
  group_len : nat      (* the items inside the group *)
}.

(** One literal character under [re.IGNORECASE]. *)
Definition char_ci (c : ascii) : item :=
  {| cls := fun x => Ascii.eqb (lower_char x) (lower_char c); lo := 1; hi := Some 1 |}.

Definition lit_ci (s : string) : list item := map char_ci (lit s).

(** [p*], [p?] and [p{m,n}] *)
Definition star (p : ascii -> bool) : item := {| cls := p; lo := 0; hi := None |}.
Definition opt (p : ascii -> bool) : item := {| cls := p; lo := 0; hi := Some 1 |}.
Definition rep (p : ascii -> bool) (m n : nat) : item := {| cls := p; lo := m; hi := Some n |}.

(** The length of the longest run of [p] at the head of [s], at most [cap]. *)
Fixpoint run_length (p : ascii -> bool) (cap : option nat) (s : str) : nat :=
  match s with
  | [] => 0
  | c :: s' =>
      match cap with
      | Some O => 0
      | _ => if p c then S (run_length p (pred <$> cap) s') else 0
      end
  end.

(** Try [k], [k-1], ..., [low] and keep the first count for which [f]
    succeeds. *)
Fixpoint backtrack {A} (f : nat -> option A) (low : nat) (k : nat) : option (nat * A) :=
  if k <? low then None else
  match f k with
  | Some r => Some (k, r)
  | None => match k with
            | O => None
            | S k' => backtrack f low k'
            end
  end.

Fixpoint match_here (its : list item) (s : str) : option (list str) :=
  match its with
  | [] => Some []
  | it :: rest =>
      match backtrack (fun k => match_here rest (skipn k s)) (lo it)
                      (run_length (cls it) (hi it) s) with
      | Some (k, pieces) => Some (firstn k s :: pieces)
      | None => None
      end
  end.

(** [re.search]: the match at the leftmost position that has one. *)
Fixpoint search_items (its : list item) (s : str) : option (list str) :=
  match match_here its s with
  | Some pieces => Some pieces
  | None => match s with
            | [] => None
            | _ :: s' => search_items its s'
            end
  end.

(** [m.group(1)] *)
Definition group1 (p : pattern) (pieces : list str) : str :=
  concat (firstn (group_len p) (skipn (group_start p) pieces)).

(** [re.search(p, s, re.IGNORECASE)], giving [group(1)] of the match. *)
Definition search (p : pattern) (s : str) : option str :=
  group1 p <$> search_items (items p) s.

End Regex.

(** ** scripts/utils.py *)

Module Utils.
Import Py Data Regex.

(** [sanitize_filename] *)
Definition sanitize_filename (username : str) : str :=
  let sanitized := List.filter (fun c => isalnum c || in_chars (lit "-_") c) username in
  lower sanitized.

(** The chain of both validators: [strip()], then [strip] of the double
    quote, then [strip] of the single quote. *)
Definition unquote (s : str) : str :=
  strip_chars [squote] (strip_chars [dquote] (strip s)).

(** [validate_discord_id].  The argument is any Python value: the first
    test returns [False] for a false or a non-string one. *)
Definition validate_discord_id (cfg : config) (discord_id : value) : bool :=
  match discord_id with
  | VStr s =>
      if negb (truthy (VStr s)) then false else
      let discord_id := unquote s in
      if negb (str_isdigit discord_id) then false else
      let min_len := discord_id_min_length (onboarding cfg) in
      let max_len := discord_id_max_length (onboarding cfg) in
      ((min_len <=? Z.of_nat (length discord_id))
       && (Z.of_nat (length discord_id) <=? max_len))%Z
  | _ => false
  end.

(** [validate_wallet_address] *)
Definition validate_wallet_address (cfg : config) (wallet : value) : bool :=
  match wallet with
  | VStr s =>
      if negb (truthy (VStr s)) then false else
      let wallet := unquote s in
      let prefix := wallet_prefix (onboarding cfg) in
      let length_ := wallet_length (onboarding cfg) in
      if negb (startswith (lower wallet) prefix) then false else
      if negb (Z.of_nat (length wallet) =? length_)%Z then false else
      int16_ok (skipn 2 wallet)
  | _ => false
  end.

(** The class of the two quote characters. *)
Definition is_quote (c : ascii) : bool := in_chars [dquote; squote] c.

(** [discord:], [\s*], an optional quote, the group [(\d{17,20})], an
    optional quote. *)
Definition discord_pattern : pattern :=
  {| items := lit_ci "discord:" ++
              [star isspace; opt is_quote; rep isdecimal 17 20; opt is_quote];
     group_start := 10;
     group_len := 1 |}.

(** [wallet:], [\s*], an optional quote, the group [(0x[a-fA-F0-9]{40})],
    an optional quote. *)
Definition wallet_pattern : pattern :=
  {| items := lit_ci "wallet:" ++
              [star isspace; opt is_quote] ++
              lit_ci "0x" ++ [rep ishex 40 40] ++
              [opt is_quote];
     group_start := 9;
     group_len := 3 |}.

(** [parse_contributor_comment] *)
Definition parse_contributor_comment (comment_body : str) : option (gmap string value) :=
  let discord_match := search discord_pattern comment_body in
  let wallet_match := search wallet_pattern comment_body in
  match discord_match, wallet_match with
  | Some d, Some w => Some (<["discord_id" := VStr d]> (<["wallet" := VStr w]> ∅))
  | _, _ => None
  end.

End Utils.

(** ** The outside world: the git subprocess and a checkout

    A checkout is the finite map of its files, keyed by the file name
    relative to the clone directory; every path the scripts open is
    [os.path.join(clone_dir, filename)].  Writing a document with
    [toml.dump] and reading it with [toml.load] is taken to give the
    document back. *)

Module World.
Import Py Data.

Inductive file :=
| Toml (doc : gmap string value)   (* a well-formed record document *)
| Malformed.                       (* [toml.load] raises on it *)

(** The commit messages of the manager, by their holes. *)
Inductive commit_message :=
| AddContributor (username : str)
| UpdateContributor (username : str) (pr_number : value).

(** The [git] command lines the scripts run. *)
Inductive git_cmd :=
| GitClone (auth_url dir : str)
| GitAdd (dir filename : str)
| GitCommit (dir : str) (message : commit_message)
| GitPush (dir : str).

(** How [subprocess.run(..., check=True)] can end. *)
Inductive run_outcome :=
| Completed
| CalledProcessError (stderr : str)
| TimeoutExpired
| OSError (msg : str).

Record env := {
  run_git : git_cmd -> run_outcome;
  registry : gmap str file;   (* the files a successful clone checks out *)
  tempdir : str               (* [tempfile.gettempdir()] *)
}.

(** [os.path.join(dir, name)] *)
Definition path_join (dir name : str) : str :=
  if startswith name (lit "/") then name
  else match rev dir with
       | [] => name
       | c :: _ => if Ascii.eqb c "/" then dir ++ name else dir ++ lit "/" ++ name
       end.

(** [gist_url.replace('https://', f'https://{gist_pat}@')], in both scripts. *)
Definition auth_url (gist_url gist_pat : str) : str :=
  replace gist_url (lit "https://") (lit "https://" ++ gist_pat ++ lit "@").

End World.

(** ** scripts/contributor_manager.py *)

Module Manager.
Import Py Data World Utils.

(** What [main] prints for an exception of a method: [print(f"Error: {e}")]. *)
Definition error_line (e : exn) : str := lit "Error: " ++ exn_message e.

(** The fields of a [ContributorManager] and the checkout at [repo_dir]. *)
Record manager := {
  gist_pat : str;
  mconfig : config;
  repo_dir : option str;
  checkout : gmap str file
}.

(** A method reads and updates the manager and the checkout, and returns
    or raises; what it wrote before raising stays written. *)
Definition method (A : Type) : Type := manager -> manager * res A.

#[global] Instance method_ret : MRet method := fun A a m => (m, Ok a).

#[global] Instance method_bind : MBind method := fun A B k c m =>
  match c m with
  | (m', Ok a) => k a m'
  | (m', Raise e) => (m', Raise e)
  end.

Definition lift {A} (r : res A) : method A := fun m => (m, r).

Definition gets {A} (f : manager -> A) : method A := fun m => (m, Ok (f m)).

Definition set_checkout (dir : option str) (files : gmap str file) : method unit :=
  fun m => ({| gist_pat := gist_pat m; mconfig := mconfig m;
               repo_dir := dir; checkout := files |}, Ok tt).

(** [str.format(username=...)] on the file name pattern is a library
    function; it is a parameter [fmt] of the methods that use it. *)
Abbreviation formatter := (str -> str -> res str).

(** [ContributorManager.clone_gist]: the directory is set and emptied,
    then the registry is cloned into it. *)
Definition clone_gist (w : env) : method unit :=
  let repo_dir := path_join (tempdir w) (lit "contributor_gist_repo") in
  _ ← set_checkout (Some repo_dir) ∅;
  gist_url ← gets (fun m => registry_url (gist (mconfig m)));
  gist_pat ← gets gist_pat;
  let auth_url := auth_url gist_url gist_pat in
  match run_git w (GitClone auth_url repo_dir) with
  | Completed => set_checkout (Some repo_dir) (registry w)
  | CalledProcessError stderr =>
      lift (Raise (RuntimeError (lit "Failed to clone Gist: " ++ stderr)))
  | TimeoutExpired => lift (Raise (OtherError (lit "TimeoutExpired")))
  | OSError msg => lift (Raise (OtherError msg))
  end.

(** [if not self.repo_dir: self.clone_gist()] *)
Definition ensure_cloned (w : env) : method unit :=
  dir ← gets repo_dir;
  match dir with
  | Some d => if truthy (VStr d) then mret tt else clone_gist w
  | None => clone_gist w
  end.

Definition record_filename (fmt : formatter) (username : str) : method str :=
  pattern ← gets (fun m => contributor_file_pattern (gist (mconfig m)));
  lift (fmt pattern (sanitize_filename username)).

(** The entry built from [pr_data], the same in both mutations. *)
Definition pr_entry (pr_data : gmap string value) : res (gmap string value) :=
  pr_number ← getitem pr_data "pr_number";
  repository ← getitem pr_data "repo_name";
  mret (<["pr_number" := pr_number]>
       (<["repository" := repository]>
       (<["title" := dict_get pr_data "pr_title" (VStr [])]>
       (<["lines_changed" := dict_get pr_data "lines_changed" (VInt 0)]>
       (<["labels" := dict_get pr_data "labels" (VList [])]> ∅))))).

(** The [contributor_data] that [create_contributor] writes. *)
Definition new_contributor_data (cfg : config) (username : str)
    (discord_id wallet : value) (pr_data : gmap string value)
  : res (gmap string value) :=
  entry ← pr_entry pr_data;
  mret (<["schema_version" := schema_version (gist cfg)]>
       (<["contributor" :=
            VDict (<["github_username" := VStr username]>
                  (<["discord_id" := discord_id]>
                  (<["wallet_address" := wallet]>
                  (<["total_prs" := VInt 1]> ∅))))]>
       (<["pull_requests" := VList [VDict entry]]> ∅))).

(** [contributor_data['pull_requests'].append(new_pr)] followed by
    [contributor_data['contributor']['total_prs'] = len(...)]. *)
Definition append_pr (contributor_data : gmap string value) (new_pr : gmap string value)
  : res (gmap string value) :=
  prs ← getitem contributor_data "pull_requests";
  match prs with
  | VList l =>
      let l' := l ++ [VDict new_pr] in
      let data := <["pull_requests" := VList l']> contributor_data in
      contributor ← getitem data "contributor";
      match contributor with
      | VDict c =>
          mret (<["contributor" :=
                    VDict (<["total_prs" := VInt (Z.of_nat (length l'))]> c)]> data)
      | _ => Raise (TypeError "object does not support item assignment")
      end
  | _ => Raise (AttributeError "object has no attribute 'append'")
  end.

(** [toml.dump(contributor_data, f)] on the record file. *)
Definition write_file (filename : str) (doc : gmap string value) : method unit :=
  fun m => ({| gist_pat := gist_pat m; mconfig := mconfig m; repo_dir := repo_dir m;
               checkout := <[filename := Toml doc]> (checkout m) |}, Ok tt).

(** The three [git] calls after a write; a [CalledProcessError] of any of
    them is caught and makes the method return [False]. *)
Definition commit_and_push (w : env) (filename : str) (message : commit_message)
  : method bool :=
  dir ← gets (fun m => default [] (repo_dir m));
  let step (c : git_cmd) (k : res bool) : res bool :=
    match run_git w c with
    | Completed => k
    | CalledProcessError _ => Ok false
    | TimeoutExpired => Raise (OtherError (lit "TimeoutExpired"))
    | OSError msg => Raise (OtherError msg)
    end in
  lift (step (GitAdd dir filename)
         (step (GitCommit dir message)
           (step (GitPush dir) (Ok true)))).

(** [ContributorManager.contributor_exists] *)
Definition contributor_exists (w : env) (fmt : formatter) (username : str)
  : method bool :=
  _ ← ensure_cloned w;
  filename ← record_filename fmt username;
  files ← gets checkout;
  mret (bool_decide (is_Some (files !! filename))).

(** [ContributorManager.create_contributor] *)
Definition create_contributor (w : env) (fmt : formatter)
    (username : str) (discord_id wallet : value) (pr_data : gmap string value)
  : method bool :=
  _ ← ensure_cloned w;
  filename ← record_filename fmt username;
  cfg ← gets mconfig;
  contributor_data ← lift (new_contributor_data cfg username discord_id wallet pr_data);
  _ ← write_file filename contributor_data;
  commit_and_push w filename (AddContributor username).

(** [ContributorManager.add_pr_to_contributor] *)
Definition add_pr_to_contributor (w : env) (fmt : formatter)
    (username : str) (pr_data : gmap string value)
  : method bool :=
  _ ← ensure_cloned w;
  filename ← record_filename fmt username;
  files ← gets checkout;
  match files !! filename with
  | None => mret false
  | Some Malformed => lift (Raise (OtherError (lit "TomlDecodeError")))
  | Some (Toml contributor_data) =>
      new_pr ← lift (pr_entry pr_data);
      contributor_data ← lift (append_pr contributor_data new_pr);
      _ ← write_file filename contributor_data;
      commit_and_push w filename
        (UpdateContributor username (dict_get pr_data "pr_number" VNone))
  end.

End Manager.

(** ** scripts/contributor_checker.py *)

Module Checker.
Import Py Data World Utils.

(** [clone_gist_repo]: the files of the checkout, or the error raised. *)
Definition clone_gist_repo (w : env) (cfg : config) (gist_pat temp_dir : str)
  : res (gmap str file) :=
  let gist_url := registry_url (gist cfg) in
  let auth_url := auth_url gist_url gist_pat in
  match run_git w (GitClone auth_url temp_dir) with
  | Completed => Ok (registry w)
  | CalledProcessError _ => Raise (RuntimeError (lit "Failed to clone gist repository"))
  | TimeoutExpired => Raise (RuntimeError (lit "Git clone operation timed out"))
  | OSError msg => Raise (OtherError msg)
  end.

Definition record_filename (cfg : config) (pr_author : str) : str :=
  let filename_pattern := contributor_file_pattern (gist cfg) in
  let sanitized_username := sanitize_filename pr_author in
  replace filename_pattern (lit "{username}") sanitized_username.

(** [check_contributor_exists].  [gist_dir] is the directory that
    [tempfile.TemporaryDirectory] made.  Every exception of the body is
    caught and reported under ['error']. *)
Definition check_contributor_exists (w : env) (cfg : config)
    (pr_author gist_pat gist_dir : str) : gmap string value :=
  let body : res (gmap string value) :=
    files ← clone_gist_repo w cfg gist_pat gist_dir;
    let filename := record_filename cfg pr_author in
    let filepath := path_join gist_dir filename in
    match files !! filename with
    | Some (Toml toml_data) =>
        mret (<["exists" := VBool true]>
             (<["toml_data" := VDict toml_data]>
             (<["filepath" := VStr filepath]> ∅)))
    | Some Malformed => Raise (OtherError (lit "TomlDecodeError"))
    | None =>
        mret (<["exists" := VBool false]>
             (<["filepath" := VStr filepath]> ∅))
    end in
  match body with
  | Ok result => result
  | Raise e =>
      <["exists" := VBool false]> (<["error" := VStr (exn_message e)]> ∅)
  end.

(** One comment of the thread, as the API client gives it. *)
Record comment := {
  comment_id : Z;
  user_login : str;
  body : str
}.

(** The parser the scanner calls, [parse_discord_wallet_comment], is
    imported from [utils] but not defined there; it is a parameter of the
    scanner, with the type of [parse_contributor_comment]. *)
Abbreviation parser := (str -> option (gmap string value)).

(** The result returned for a comment whose claim [parsed] is not empty:
    the two fields are validated and reported as they were parsed. *)
Definition found_response (cfg : config) (parsed : gmap string value) (c : comment)
  : gmap string value :=
  let discord_valid :=
    Utils.validate_discord_id cfg (dict_get parsed "discord_id" (VStr [])) in
  let wallet_valid :=
    Utils.validate_wallet_address cfg (dict_get parsed "wallet_address" (VStr [])) in
  <["has_response" := VBool true]>
  (<["discord_id" := dict_get parsed "discord_id" (VStr [])]>
  (<["wallet_address" := dict_get parsed "wallet_address" (VStr [])]>
  (<["valid" := VBool (discord_valid && wallet_valid)]>
  (<["discord_valid" := VBool discord_valid]>
  (<["wallet_valid" := VBool wallet_valid]>
  (<["comment_id" := VInt (comment_id c)]> ∅)))))).

(** The body of the loop of [check_for_response_in_pr] for one comment:
    the result it returns, or [None] when the loop goes on. *)
Definition response_of (cfg : config) (parse : parser) (pr_author : str) (c : comment)
  : option (gmap string value) :=
  if bool_decide (lower (user_login c) = lower pr_author) then
    match parse (body c) with
    | Some parsed =>
        if truthy (VDict parsed) then Some (found_response cfg parsed c) else None
    | None => None
    end
  else None.

(** The [for] loop: the first comment of the sequence that returns. *)
Fixpoint first_response (cfg : config) (parse : parser) (pr_author : str)
    (cs : list comment) : option (gmap string value) :=
  match cs with
  | [] => None
  | c :: cs' =>
      match response_of cfg parse pr_author c with
      | Some r => Some r
      | None => first_response cfg parse pr_author cs'
      end
  end.

(** [check_for_response_in_pr].  [fetched] is what
    [pr.get_issue_comments()] of the API client gives for the repository
    and the pull request: the thread in the order of the API, oldest first,
    or the exception of the client. *)
Definition check_for_response_in_pr (cfg : config) (parse : parser)
    (fetched : res (list comment)) (pr_author : str) : gmap string value :=
  match fetched with
  | Ok comments =>
      match first_response cfg parse pr_author (rev comments) with
      | Some result => result
      | None => <["has_response" := VBool false]> ∅
      end
  | Raise e =>
      <["has_response" := VBool false]> (<["error" := VStr (exn_message e)]> ∅)
  end.

(** Lines 182 to 210 of [check_promotion_eligibility]: the verdict on a
    loaded document. *)
Definition promotion_verdict (cfg : config) (toml_data : value) : res (gmap string value) :=
  let threshold := threshold (promotion cfg) in
  let min_avg_lines := min_avg_lines (promotion cfg) in
  status ← value_get toml_data "status" (VDict ∅);
  current_role ← value_get status "current_role" (VStr (lit "Apprentice"));
  status ← value_get toml_data "status" (VDict ∅);
  is_blocked ← value_get status "blocked" (VBool false);
  stats ← value_get toml_data "stats" (VDict ∅);
  total_prs ← value_get stats "total_prs" (VInt 0);
  stats ← value_get toml_data "stats" (VDict ∅);
  avg_lines ← value_get stats "avg_lines_changed" (VInt 0);
  discord ← value_get toml_data "discord" (VDict ∅);
  discord_id ← value_get discord "user_id" (VStr []);
  eligible ←
    and_then (eq_str current_role (lit "Apprentice"))
      (and_then (negb (truthy is_blocked))
        (enough_prs ← ge total_prs threshold;
         and_then enough_prs (ge avg_lines min_avg_lines)));
  mret (<["exists" := VBool true]>
       (<["eligible_for_promotion" := VBool eligible]>
       (<["current_role" := current_role]>
       (<["total_prs" := total_prs]>
       (<["avg_lines" := avg_lines]>
       (<["discord_id" := discord_id]>
       (<["is_blocked" := is_blocked]> ∅))))))).

(** [check_promotion_eligibility] *)
Definition check_promotion_eligibility (w : env) (cfg : config)
    (pr_author gist_pat gist_dir : str) : res (gmap string value) :=
  let result := check_contributor_exists w cfg pr_author gist_pat gist_dir in
  exists_ ← getitem result "exists";
  if negb (truthy exists_) then
    mret (<["exists" := VBool false]>
         (<["eligible_for_promotion" := VBool false]> ∅))
  else
    toml_data ← getitem result "toml_data";
    promotion_verdict cfg toml_data.

End Checker.

(** ** Examples *)

Module Example.
Import Py Data.

(** Modelled from the spec: [config/config.toml] is not among the sources.
    The bounds of the chat id are the default [17, 20], the wallet shape is
    the prefix [0x] and the total length 42, and the promotion thresholds are
    those of the eligibility example (5 pull requests, 30 lines on average).
    The registry address and the file name pattern are examples. *)
Definition example_config : config :=
  {| gist := {| registry_url := lit "https://gist.github.com/registry.git";
                contributor_file_pattern := lit "{username}.toml";
                schema_version := VInt 1 |};
     onboarding := {| discord_id_min_length := 17;
                      discord_id_max_length := 20;
                      wallet_prefix := lit "0x";
                      wallet_length := 42 |};
     promotion := {| threshold := NInt 5; min_avg_lines := NInt 30 |} |}.

(** A [git] whose [clone] fails the way it does for a rejected token: the
    message on its standard error quotes the address it was given. *)
Definition rejecting_git (c : World.git_cmd) : World.run_outcome :=
  match c with
  | World.GitClone url _ =>
      World.CalledProcessError
        (lit "fatal: unable to access '" ++ url
           ++ lit "/': The requested URL returned error: 403")
  | _ => World.Completed
  end.

Definition rejecting_world : World.env :=
  {| World.run_git := rejecting_git; World.registry := ∅; World.tempdir := lit "/tmp" |}.

(** A world in which every [git] call succeeds, over a given registry. *)
Definition working_world (files : gmap str World.file) : World.env :=
  {| World.run_git := fun _ => World.Completed;
     World.registry := files; World.tempdir := lit "/tmp" |}.

Definition secret : str := lit "ghp_SECRET".

(** A manager just constructed with the token [secret]. *)
Definition fresh_manager : Manager.manager :=
  {| Manager.gist_pat := secret; Manager.mconfig := example_config;
     Manager.repo_dir := None; Manager.checkout := ∅ |}.

(** [str.format] on a pattern whose only field is the placeholder. *)
Definition simple_format : Manager.formatter :=
  fun pattern username => Ok (replace pattern (lit "{username}") username).

(** The [pr_data] that [main] builds from the command line. *)
Definition example_pr (number : Z) : gmap string value :=
  <["pr_number" := VInt number]>
  (<["repo_name" := VStr (lit "org/repo")]>
  (<["pr_title" := VStr (lit "Fix")]>
  (<["lines_changed" := VInt 12]>
  (<["labels" := VList []]> ∅)))).

(** The entry of the record for that pull request. *)
Definition example_entry (number : Z) : gmap string value :=
  <["pr_number" := VInt number]>
  (<["repository" := VStr (lit "org/repo")]>
  (<["title" := VStr (lit "Fix")]>
  (<["lines_changed" := VInt 12]>
  (<["labels" := VList []]> ∅)))).

(** A record whose counter has drifted: it says 7 and the list has one
    entry. *)
Definition drifted_record : gmap string value :=
  <["schema_version" := VInt 1]>
  (<["contributor" :=
       VDict (<["github_username" := VStr (lit "Alice")]>
             (<["total_prs" := VInt 7]> ∅))]>
  (<["pull_requests" := VList [VDict (example_entry 3)]]> ∅)).

(** The record of the eligibility example: 5 pull requests, 40 lines on
    average, with a given role and blocked flag. *)
Definition example_record (role : string) (blocked : bool) : gmap string value :=
  <["status" := VDict (<["current_role" := VStr (lit role)]>
                      (<["blocked" := VBool blocked]> ∅))]>
  (<["stats" := VDict (<["total_prs" := VInt 5]>
                     (<["avg_lines_changed" := VInt 40]> ∅))]> ∅).

(** The record that [create_contributor] writes for Alice. *)
Definition created_record : gmap string value :=
  <["schema_version" := VInt 1]>
  (<["contributor" :=
       VDict (<["github_username" := VStr (lit "Alice")]>
             (<["discord_id" := VStr (lit "123456789012345678")]>
             (<["wallet_address" := VStr (lit "0x1234567890abcdef1234567890abcdef12345678")]>
             (<["total_prs" := VInt 1]> ∅))))]>
  (<["pull_requests" := VList [VDict (example_entry 3)]]> ∅)).

(** A thread of three comments, oldest first: an answer of the author, a
    later answer of the author with other values, and a last comment by
    somebody else that also holds a claim. *)
Definition example_thread : list Checker.comment :=
  [ {| Checker.comment_id := 101; Checker.user_login := lit "alice";
       Checker.body := lit "first" |};
    {| Checker.comment_id := 102; Checker.user_login := lit "Alice";
       Checker.body := lit "second" |};
    {| Checker.comment_id := 103; Checker.user_login := lit "mallory";
       Checker.body := lit "second" |} ].

(** A parser for the example thread: it finds a claim in the two texts
    of the thread. *)
Definition example_parser : Checker.parser := fun text =>
  if bool_decide (text = lit "first") then
    Some (<["discord_id" := VStr (lit "12345")]>
         (<["wallet_address" := VStr (lit "0x12")]> ∅))
  else if bool_decide (text = lit "second") then
    Some (<["discord_id" := VStr (lit "123456789012345678")]>
         (<["wallet_address" := VStr (lit "0x1234567890abcdef1234567890abcdef12345678")]> ∅))
  else None.

(** A thread of answers in the form the onboarding asks for, oldest
    first: two answers of the author, the later one with other values, and
    a last answer by somebody else. *)
Definition answer_thread : list Checker.comment :=
  [ {| Checker.comment_id := 101; Checker.user_login := lit "alice";
       Checker.body :=
         lit "discord: 111111111111111111 wallet: 0x1111111111111111111111111111111111111111" |};
    {| Checker.comment_id := 102; Checker.user_login := lit "Alice";
       Checker.body :=
         lit "discord: 123456789012345678 wallet: 0x1234567890abcdef1234567890abcdef12345678" |};
    {| Checker.comment_id := 103; Checker.user_login := lit "mallory";
       Checker.body :=
         lit "discord: 999999999999999999 wallet: 0x9999999999999999999999999999999999999999" |} ].

End Example.

(** ** What the specification says, where it is compared with the code *)

Module Spec.
Import Py Data.

(** The characters [a-z0-9_-]. *)
Definition is_slug_char (c : ascii) : bool :=
  in_range 97 122 c || in_range 48 57 c || is_code 95 c || is_code 45 c.





(** An optional quote of the comment patterns. *)
Definition optional_quote (q : str) : Prop :=
  q = [] \/ q = [dquote] \/ q = [squote].

(** "a label [discord:] followed by an optional quote, 17-20 decimal
    digits, optional matching quote", somewhere in [body]; [d] is the run of
    digits.  The label is read without regard to case. *)
Definition has_discord_claim (body d : str) : Prop :=
  exists pre lab ws q q' rest,
    body = pre ++ lab ++ ws ++ q ++ d ++ q' ++ rest
    /\ lower lab = lit "discord:"
    /\ forallb isspace ws = true
    /\ optional_quote q /\ optional_quote q'
    /\ forallb isdecimal d = true
    /\ 17 <= length d <= 20.

(** "a label [wallet:] followed by an optional quote, the hex-address
    shape, optional matching quote", somewhere in [body]; [w] is the
    address, [0x] in either case and 40 hexadecimal digits. *)
Definition has_wallet_claim (body w : str) : Prop :=
  exists pre lab ws q q' rest,
    body = pre ++ lab ++ ws ++ q ++ w ++ q' ++ rest
    /\ lower lab = lit "wallet:"
    /\ forallb isspace ws = true
    /\ optional_quote q /\ optional_quote q'
    /\ exists zx hs, w = zx ++ hs /\ lower zx = lit "0x"
                     /\ forallb ishex hs = true /\ length hs = 40.

(** The characters [sanitize_filename] keeps. *)
Definition kept (c : ascii) : bool := isalnum c || in_chars (lit "-_") c.

(** No character of [s] satisfies [p]. *)
Definition none_of (p : ascii -> bool) (s : str) : bool :=
  forallb (fun c => negb (p c)) s.


(** The text an item of a pattern may take: characters of its class, as
    many as its bounds allow. *)
Definition piece_ok (it : Regex.item) (p : str) : Prop :=
  forallb (Regex.cls it) p = true
  /\ Regex.lo it <= length p
  /\ (forall n, Regex.hi it = Some n -> length p <= n).

(** The counter of a record document agrees with its list of pull
    requests. *)
Definition counter_matches (doc : gmap string value) : Prop :=
  exists l c,
    doc !! "pull_requests" = Some (VList l)
    /\ doc !! "contributor" = Some (VDict c)
    /\ c !! "total_prs" = Some (VInt (Z.of_nat (length l))).

(** The record documents that come from the manager alone: one written
    by [create_contributor], then extended by [add_pr_to_contributor] any
    number of times. *)
Inductive produced (cfg : config) : gmap string value -> Prop :=
| produced_create username discord_id wallet pr_data doc :
    Manager.new_contributor_data cfg username discord_id wallet pr_data = Ok doc ->
    produced cfg doc
| produced_append doc pr_data new_pr doc' :
    produced cfg doc ->
    Manager.pr_entry pr_data = Ok new_pr ->
    Manager.append_pr doc new_pr = Ok doc' ->
    produced cfg doc'.

(** A number above zero. *)
Definition positive (n : number) : Prop :=
  match n with
  | NInt z => (0 < z)%Z
  | NFloat (FFin q) => QArith_base.Qlt (QArith_base.inject_Z 0) q
  | NFloat (FInf negative) => negative = false
  | NFloat FNan => False
  end.

(** The shape of a record document that the promotion check relies on:
    the tables it reads are tables, [blocked] is a boolean and the two
    statistics are numbers, wherever they are present. *)
Definition is_number (v : value) : Prop :=
  match v with
  | VInt _ | VFloat _ => True
  | _ => False
  end.

Definition table_or_absent (doc : gmap string value) (key : string)
    (fields_ok : gmap string value -> Prop) : Prop :=
  match doc !! key with
  | None => True
  | Some (VDict d) => fields_ok d
  | Some _ => False
  end.

Definition field_ok (d : gmap string value) (key : string) (ok : value -> Prop) : Prop :=
  match d !! key with
  | None => True
  | Some v => ok v
  end.

Definition record_shaped (doc : gmap string value) : Prop :=
  table_or_absent doc "status"
    (fun d => field_ok d "blocked" (fun v => exists b, v = VBool b))
  /\ table_or_absent doc "stats"
    (fun d => field_ok d "total_prs" is_number
              /\ field_ok d "avg_lines_changed" is_number)
  /\ table_or_absent doc "discord" (fun _ => True).

(** [doc[table][key]] with a default for an absent table or field. *)
Definition field (doc : gmap string value) (table key : string) (dflt : value) : value :=
  match doc !! table with
  | Some (VDict d) => default dflt (d !! key)
  | _ => dflt
  end.

(** [a >= b] holds, between numbers. *)
Definition at_least (a : value) (b : number) : Prop := ge a b = Ok true.

(** Every record file a method leaves in the checkout was there from the
    start, came with the clone, or satisfies [written]. *)
Definition only_written (w : World.env) (m m' : Manager.manager)
    (written : gmap string value -> Prop) : Prop :=
  forall f doc,
    Manager.checkout m' !! f = Some (World.Toml doc) ->
    written doc
    \/ Manager.checkout m !! f = Some (World.Toml doc)
    \/ World.registry w !! f = Some (World.Toml doc).

(** The "not onboarded" outcome of the promotion check. *)
Definition not_onboarded : gmap string value :=
  <["exists" := VBool false]> (<["eligible_for_promotion" := VBool false]> ∅).

(** A comment that answers for the author: it is by the author of the
    pull request, whatever the case of the login, and the parser finds a
    non-empty claim [parsed] in it. *)
Definition answers (parse : Checker.parser) (pr_author : str)
    (c : Checker.comment) (parsed : gmap string value) : Prop :=
  lower (Checker.user_login c) = lower pr_author
  /\ parse (Checker.body c) = Some parsed
  /\ parsed <> ∅.

Definition no_answer (parse : Checker.parser) (pr_author : str)
    (c : Checker.comment) : Prop :=
  forall parsed, ~ answers parse pr_author c parsed.

(** The test of the scanner's loop on the author of a comment. *)
Definition by_author (pr_author : str) (c : Checker.comment) : bool :=
  bool_decide (lower (Checker.user_login c) = lower pr_author).

(** The table of a document under a key, empty when absent. *)
Definition table (doc : gmap string value) (key : string) : gmap string value :=
  match doc !! key with
  | Some (VDict d) => d
  | _ => ∅
  end.

End Spec.

(** ** The command lines of the two scripts *)

Module Output.
Import Py Data.

(** [utils.write_output_file(data, output_file)].  [files] holds, by path,
    the value dumped into every output file; the path is taken to be
    writable and the data to be what [json.dump] accepts, as the results of
    the scripts are.  [open] takes a text for a path: a dict, a list, a float
    or [None] is a [TypeError]; an integer would be a file descriptor, which
    the scripts never pass. *)
Definition write_output_file (data output_file : value) (files : gmap str value)
  : res (gmap str value) :=
  match output_file with
  | VStr path => Ok (<[path := data]> files)
  | VInt _ | VBool _ => Raise (OtherError (lit "OSError"))
  | _ => Raise (TypeError "expected str, bytes or os.PathLike object")
  end.

(** An optional argument of the command line: [None] when it is not given. *)
Definition opt_str (o : option str) : value :=
  match o with
  | Some s => VStr s
  | None => VNone
  end.

Definition opt_int (o : option Z) : value :=
  match o with
  | Some n => VInt n
  | None => VNone
  end.

End Output.

(** *** [contributor_manager.py]: the constructor and [main] *)

Module ManagerMain.
Import Py Data World Utils Manager Output.

(** [ContributorManager.__init__]: the token must have a character that is
    not white space; no checkout exists yet. *)
Definition init (cfg : config) (token : str) : res manager :=
  if negb (truthy (VStr token)) || bool_decide (strip token = []) then
    Raise (OtherError (lit "GIST_PAT is required"))
  else
    Ok {| gist_pat := token; mconfig := cfg; repo_dir := None; checkout := ∅ |}.

Inductive action := CheckExists | Create | AddPr.

(** The parsed command line; [--action] and [--gist-pat] are required,
    [--lines-changed] has the default 0. *)
Record args := {
  action_ : action;
  username : option str;
  discord_id : option str;
  wallet : option str;
  pr_number : option Z;
  repo_name : option str;
  pr_title : option str;
  lines_changed : Z;
  labels : option str;
  gist_pat_ : str;
  output_file : option str
}.

(** The line [main] prints at its end. *)
Inductive line :=
| ContributorExists (found : bool)
| Created (name : value)
| CreateFailed
| Added (name : value)
| AddFailed
| Error (e : exn).

(** How a run ends: the exit status, the last line, the output files and
    the manager with its checkout, when one was constructed. *)
Record outcome := {
  exit_code : Z;
  printed : line;
  files : gmap str value;
  final : option manager
}.

(** A method called with [args.username]: without the option the value is
    [None], and [sanitize_filename] fails on it after the clone. *)
Definition with_username {A} (w : env) (name : option str) (k : str -> method A)
  : method A :=
  match name with
  | Some u => k u
  | None =>
      _ ← ensure_cloned w;
      lift (Raise (TypeError "'NoneType' object is not iterable"))
  end.

(** The [pr_data] of the [create] and [add_pr] actions; [json_loads] is
    the library's [json.loads]. *)
Definition pr_data_of (json_loads : str -> res value) (a : args)
  : res (gmap string value) :=
  labels ← match labels a with
           | Some text => if truthy (VStr text) then json_loads text else Ok (VList [])
           | None => Ok (VList [])
           end;
  mret (<["pr_number" := opt_int (pr_number a)]>
       (<["repo_name" := opt_str (repo_name a)]>
       (<["pr_title" := VStr (default [] (pr_title a))]>
       (<["lines_changed" := VInt (lines_changed a)]>
       (<["labels" := labels]> ∅))))).

Definition failed (e : exn) (files : gmap str value) (m : option manager) : outcome :=
  {| exit_code := 1; printed := Error e; files := files; final := m |}.

(** [main] *)
Definition main (w : env) (fmt : formatter) (json_loads : str -> res value)
    (cfg : config) (a : args) (files : gmap str value) : outcome :=
  match init cfg (gist_pat_ a) with
  | Raise e => failed e files None
  | Ok manager =>
      match action_ a with
      | CheckExists =>
          match with_username w (username a) (contributor_exists w fmt) manager with
          | (m, Ok found) =>
              let result := <["exists" := VBool found]>
                            (<["username" := opt_str (username a)]> ∅) in
              let written :=
                match output_file a with
                | Some path =>
                    if truthy (VStr path)
                    then write_output_file (VDict result) (VStr path) files
                    else Ok files
                | None => Ok files
                end in
              match written with
              | Ok files' =>
                  {| exit_code := 0; printed := ContributorExists found;
                     files := files'; final := Some m |}
              | Raise e => failed e files (Some m)
              end
          | (m, Raise e) => failed e files (Some m)
          end
      | Create =>
          match pr_data_of json_loads a with
          | Raise e => failed e files (Some manager)
          | Ok pr_data =>
              match with_username w (username a)
                      (fun u => create_contributor w fmt u (opt_str (discord_id a))
                                  (opt_str (wallet a)) pr_data) manager with
              | (m, Ok true) =>
                  {| exit_code := 0; printed := Created (opt_str (username a));
                     files := files; final := Some m |}
              | (m, Ok false) =>
                  {| exit_code := 1; printed := CreateFailed;
                     files := files; final := Some m |}
              | (m, Raise e) => failed e files (Some m)
              end
          end
      | AddPr =>
          match pr_data_of json_loads a with
          | Raise e => failed e files (Some manager)
          | Ok pr_data =>
              match with_username w (username a)
                      (fun u => add_pr_to_contributor w fmt u pr_data) manager with
              | (m, Ok true) =>
                  {| exit_code := 0; printed := Added (opt_str (username a));
                     files := files; final := Some m |}
              | (m, Ok false) =>
                  {| exit_code := 1; printed := AddFailed;
                     files := files; final := Some m |}
              | (m, Raise e) => failed e files (Some m)
              end
          end
      end
  end.

End ManagerMain.

(** *** [contributor_checker.py]: [main] *)

Module CheckerMain.
Import Py Data World Utils Checker Output.

Inductive action := CheckExists | CheckResponse | CheckPromotion.

(** The parsed command line; [--action] has the default [check_exists]
    and [--output-file] the default [output.json]. *)
Record args := {
  action_ : action;
  pr_author : option str;
  repo_name : option str;
  pr_number : option Z;
  gist_pat : option str;
  github_token : option str;
  output_file : str
}.

(** [not args.x]: the option was not given, or is empty, or is the number 0. *)
Definition absent (v : value) : bool := negb (truthy v).

(** The first [parser.error] of the validation, if any. *)
Definition missing_argument (a : args) : option string :=
  match action_ a with
  | CheckExists =>
      if absent (opt_str (pr_author a))
      then Some "--pr-author is required for check_exists action"
      else if absent (opt_str (gist_pat a))
      then Some "--gist-pat is required for check_exists action"
      else None
  | CheckResponse =>
      if absent (opt_str (repo_name a))
      then Some "--repo-name is required for check_response action"
      else if absent (opt_int (pr_number a))
      then Some "--pr-number is required for check_response action"
      else if absent (opt_str (pr_author a))
      then Some "--pr-author is required for check_response action"
      else if absent (opt_str (github_token a))
      then Some "--github-token is required for check_response action"
      else None
  | CheckPromotion =>
      if absent (opt_str (pr_author a))
      then Some "--pr-author is required for check_promotion action"
      else if absent (opt_str (gist_pat a))
      then Some "--gist-pat is required for check_promotion action"
      else None
  end.

(** How a run ends. *)
Inductive ending :=
| Returned                       (* status 0 *)
| UsageError (message : string)  (* [parser.error]: status 2 *)
| Exit1                          (* [sys.exit(1)] after the error was written *)
| Uncaught (e : exn).            (* an exception left [main]: status 1 *)

Definition exit_code (e : ending) : Z :=
  match e with
  | Returned => 0
  | UsageError _ => 2
  | Exit1 => 1
  | Uncaught _ => 1
  end.

Record outcome := {
  ended : ending;
  files : gmap str value
}.

(** The result of the action chosen. *)
Definition run_action (w : env) (cfg : config) (parse : parser)
    (fetched : res (list comment)) (gist_dir : str) (a : args)
  : res (gmap string value) :=
  let author := default [] (pr_author a) in
  let token := default [] (gist_pat a) in
  match action_ a with
  | CheckExists => Ok (check_contributor_exists w cfg author token gist_dir)
  | CheckResponse => Ok (check_for_response_in_pr cfg parse fetched author)
  | CheckPromotion => check_promotion_eligibility w cfg author token gist_dir
  end.

(** [main].  Both calls are [write_output_file(args.output_file, ...)]: the
    path is passed as the data and the result as the file. *)
Definition main (w : env) (cfg : config) (parse : parser)
    (fetched : res (list comment)) (gist_dir : str) (a : args)
    (files : gmap str value) : outcome :=
  match missing_argument a with
  | Some message => {| ended := UsageError message; files := files |}
  | None =>
      let attempt :=
        result ← run_action w cfg parse fetched gist_dir a;
        write_output_file (VStr (output_file a)) (VDict result) files in
      match attempt with
      | Ok files' => {| ended := Returned; files := files' |}
      | Raise e =>
          let report := <["error" := VStr (exn_message e)]>
                        (<["success" := VBool false]> ∅) in
          match write_output_file (VStr (output_file a)) (VDict report) files with
          | Ok files' => {| ended := Exit1; files := files' |}
          | Raise e' => {| ended := Uncaught e'; files := files |}
          end
      end
  end.

End CheckerMain.

(** *** Command lines of the examples *)

Module CommandLine.
Import Py Data.

(** A command line of the manager with the options of the examples. *)
Definition example_args (act : ManagerMain.action) (token : str) : ManagerMain.args :=
  {| ManagerMain.action_ := act; ManagerMain.username := Some (lit "Alice");
     ManagerMain.discord_id := Some (lit "1"); ManagerMain.wallet := Some (lit "0x");
     ManagerMain.pr_number := Some 3%Z; ManagerMain.repo_name := Some (lit "org/repo");
     ManagerMain.pr_title := Some (lit "Fix"); ManagerMain.lines_changed := 12;
     ManagerMain.labels := None;
     ManagerMain.gist_pat_ := token; ManagerMain.output_file := Some (lit "out.json") |}.

(** A command line of the checker with every option given. *)
Definition checker_args (act : CheckerMain.action) (number : Z) : CheckerMain.args :=
  {| CheckerMain.action_ := act; CheckerMain.pr_author := Some (lit "Alice");
     CheckerMain.repo_name := Some (lit "org/repo");
     CheckerMain.pr_number := Some number;
     CheckerMain.gist_pat := Some Example.secret;
     CheckerMain.github_token := Some Example.secret;
     CheckerMain.output_file := lit "out.json" |}.

End CommandLine.

(* ===================================================================== *)
(** * Part II: properties                                                 *)
(* ===================================================================== *)

(** ** Characters and text *)

(** A fact about every character is checked on the 256 of them. *)
Ltac each_char c :=
  destruct c as [[] [] [] [] [] [] [] []];
  vm_compute; try reflexivity; try discriminate; auto.

Section TextFacts.
Import Py Spec.


Lemma forallb_app_true {A} (p : A -> bool) (l1 l2 : list A) :
  forallb p (l1 ++ l2) = true <-> forallb p l1 = true /\ forallb p l2 = true.
Proof. rewrite forallb_app, andb_true_iff. reflexivity. Qed.

Lemma lower_char_idem (c : ascii) : lower_char (lower_char c) = lower_char c.
Proof. each_char c. Qed.

Lemma lower_idem (s : str) : lower (lower s) = lower s.
Proof.
  unfold lower. rewrite map_map. apply map_ext. intros c. apply lower_char_idem.
Qed.

Lemma lower_app (s t : str) : lower (s ++ t) = lower s ++ lower t.
Proof. apply map_app. Qed.

Lemma lower_length (s : str) : length (lower s) = length s.
Proof. apply length_map. Qed.


Lemma kept_lower (c : ascii) : kept c = true -> kept (lower_char c) = true.
Proof. each_char c. Qed.

Lemma kept_ascii_slug (c : ascii) :
  kept c = true -> is_ascii c = true -> Spec.is_slug_char (lower_char c) = true.
Proof. each_char c. Qed.

Lemma filter_all_true {A} (p : A -> bool) (l : list A) :
  forallb p l = true -> List.filter p l = l.
Proof.
  induction l as [|a l IH]; simpl; [reflexivity|].
  intros H. apply andb_true_iff in H as [Ha Hl]. rewrite Ha, IH; auto.
Qed.

Lemma forallb_filter_same {A} (p : A -> bool) (l : list A) :
  forallb p (List.filter p l) = true.
Proof.
  induction l as [|a l IH]; simpl; [reflexivity|].
  destruct (p a) eqn:E; simpl; [rewrite E|]; auto.
Qed.

Lemma forallb_filter_keep {A} (p q : A -> bool) (l : list A) :
  forallb q l = true -> forallb q (List.filter p l) = true.
Proof.
  induction l as [|a l IH]; simpl; [reflexivity|].
  intros H. apply andb_true_iff in H as [Ha Hl].
  destruct (p a); simpl; [rewrite Ha|]; auto.
Qed.

Lemma sanitize_kept (u : str) : forallb kept (Utils.sanitize_filename u) = true.
Proof.
  unfold Utils.sanitize_filename, lower. fold kept.
  rewrite forallb_forall. intros c Hc.
  apply in_map_iff in Hc as [c0 [<- Hc0]].
  apply filter_In in Hc0 as [_ Hk]. apply kept_lower, Hk.
Qed.

Lemma sanitize_idempotent (u : str) :
  Utils.sanitize_filename (Utils.sanitize_filename u) = Utils.sanitize_filename u.
Proof.
  pose proof (sanitize_kept u) as Hk.
  unfold Utils.sanitize_filename at 1. fold kept.
  rewrite (filter_all_true kept _ Hk).
  unfold Utils.sanitize_filename. apply lower_idem.
Qed.

Lemma sanitize_ascii_slug (u : str) :
  forallb is_ascii u = true ->
  forallb Spec.is_slug_char (Utils.sanitize_filename u) = true.
Proof.
  intros Ha. unfold Utils.sanitize_filename, lower. fold kept.
  rewrite forallb_forall. intros c Hc.
  apply in_map_iff in Hc as [c0 [<- Hc0]].
  apply filter_In in Hc0 as [Hin Hk].
  apply kept_ascii_slug; [exact Hk|].
  rewrite forallb_forall in Ha. apply Ha, Hin.
Qed.

End TextFacts.

(** ** [str.strip] *)

Section StripFacts.
Import Py Spec.

Lemma drop_while_app_all (p : ascii -> bool) (a m : str) :
  forallb p a = true -> drop_while p (a ++ m) = drop_while p m.
Proof.
  induction a as [|c a IH]; simpl; [reflexivity|].
  intros H. apply andb_true_iff in H as [Hc Ha]. rewrite Hc. auto.
Qed.

Lemma drop_while_all (p : ascii -> bool) (a : str) :
  forallb p a = true -> drop_while p a = [].
Proof.
  intros H. rewrite <- (app_nil_r a), drop_while_app_all by exact H. reflexivity.
Qed.

Lemma drop_while_split (p : ascii -> bool) (s : str) :
  exists a, s = a ++ drop_while p s /\ forallb p a = true.
Proof.
  induction s as [|c s [a [Hs Ha]]]; simpl.
  - exists []. auto.
  - destruct (p c) eqn:Hc.
    + exists (c :: a). simpl. rewrite Hc, Ha, <- Hs. auto.
    + exists []. auto.
Qed.

Lemma forallb_rev {A} (p : A -> bool) (l : list A) :
  forallb p (rev l) = forallb p l.
Proof.
  induction l as [|a l IH]; simpl; [reflexivity|].
  rewrite forallb_app, IH. simpl. rewrite andb_true_r. apply andb_comm.
Qed.

(** What [strip] returns sits between two runs of stripped characters. *)
Lemma strip_with_split (p : ascii -> bool) (s : str) :
  exists a b, s = a ++ strip_with p s ++ b
              /\ forallb p a = true /\ forallb p b = true.
Proof.
  unfold strip_with.
  destruct (drop_while_split p s) as [a [Hs Ha]].
  destruct (drop_while_split p (rev (drop_while p s))) as [b [Hr Hb]].
  exists a, (rev b). repeat split; [|exact Ha|rewrite forallb_rev; exact Hb].
  rewrite <- rev_app_distr, <- Hr, rev_involutive. exact Hs.
Qed.

Lemma drop_while_none (p : ascii -> bool) (m b : str) :
  none_of p m = true -> m <> [] -> drop_while p (m ++ b) = m ++ b.
Proof.
  destruct m as [|c m]; [congruence|]. simpl. intros H _.
  apply andb_true_iff in H as [Hc _]. apply negb_true_iff in Hc.
  rewrite Hc. reflexivity.
Qed.

(** A text without stripped characters, between two runs of them, is what
    [strip] returns. *)
Lemma strip_with_sandwich (p : ascii -> bool) (a m b : str) :
  forallb p a = true -> forallb p b = true -> none_of p m = true ->
  strip_with p (a ++ m ++ b) = m.
Proof.
  intros Ha Hb Hm. unfold strip_with.
  rewrite drop_while_app_all by exact Ha.
  destruct m as [|c m].
  - simpl. rewrite (drop_while_all p b Hb). reflexivity.
  - rewrite drop_while_none by (auto; discriminate).
    rewrite rev_app_distr, drop_while_app_all by (rewrite forallb_rev; exact Hb).
    rewrite <- (app_nil_r (rev (c :: m))), drop_while_none.
    + rewrite app_nil_r. apply rev_involutive.
    + unfold none_of. rewrite forallb_rev. exact Hm.
    + intros E. apply (f_equal (@length _)) in E.
      rewrite length_rev in E. discriminate.
Qed.


Lemma forallb_repeat {A} (p : A -> bool) (x : A) (n : nat) :
  p x = true -> forallb p (repeat x n) = true.
Proof. intros H. induction n; simpl; [reflexivity|]. rewrite H. exact IHn. Qed.


Lemma none_of_app (p : ascii -> bool) (s t : str) :
  none_of p (s ++ t) = true <-> none_of p s = true /\ none_of p t = true.
Proof. unfold none_of. apply forallb_app_true. Qed.

Lemma none_of_repeat (p : ascii -> bool) (c : ascii) (n : nat) :
  p c = false -> none_of p (repeat c n) = true.
Proof. intros H. apply forallb_repeat. rewrite H. reflexivity. Qed.

Lemma none_of_weaken (p q : ascii -> bool) (s : str) :
  (forall c, q c = true -> p c = false) ->
  forallb q s = true -> none_of p s = true.
Proof.
  intros Hpq H. unfold none_of. rewrite forallb_forall in *.
  intros c Hc. rewrite (Hpq c); auto.
Qed.

(** A text without white space and without quotes at its ends is left as
    it is by the chain of [strip]s, whatever surrounds it. *)
Lemma unquote_sandwich (ws1 ws2 t : str) (a b b' a' : nat) :
  forallb isspace ws1 = true -> forallb isspace ws2 = true ->
  none_of isspace t = true ->
  none_of (in_chars [dquote]) t = true ->
  none_of (in_chars [squote]) t = true ->
  Utils.unquote (ws1 ++ repeat dquote a ++ repeat squote b ++ t
                    ++ repeat squote b' ++ repeat dquote a' ++ ws2) = t.
Proof.
  intros H1 H2 Hs Hd Hq. unfold Utils.unquote, strip, strip_chars.
  replace (ws1 ++ repeat dquote a ++ repeat squote b ++ t
               ++ repeat squote b' ++ repeat dquote a' ++ ws2)
    with (ws1 ++ (repeat dquote a ++ (repeat squote b ++ t ++ repeat squote b')
                     ++ repeat dquote a') ++ ws2)
    by (repeat rewrite <- app_assoc; reflexivity).
  rewrite strip_with_sandwich; auto.
  - rewrite strip_with_sandwich.
    + apply strip_with_sandwich; auto; apply forallb_repeat; reflexivity.
    + apply forallb_repeat; reflexivity.
    + apply forallb_repeat; reflexivity.
    + repeat (apply none_of_app; split); auto; apply none_of_repeat; reflexivity.
  - repeat (apply none_of_app; split); auto; apply none_of_repeat; reflexivity.
Qed.

End StripFacts.

(** ** [sanitize_filename] *)

Section Sanitize.
Import Py Data Utils Spec.

(** C7, as the specification states it, fails on a non-ASCII letter: the
    one-character username U+00E9 (e with acute accent) is alphanumeric for
    [str.isalnum], so it is kept, and it is not one of [a-z0-9_-]. *)
Lemma sanitize_filename_keeps_e_acute :
  sanitize_filename ["233"%char] = ["233"%char]
  /\ forallb Spec.is_slug_char (sanitize_filename ["233"%char]) = false.
Proof. split; reflexivity. Qed.

(** C7, amended: for every username made of ASCII characters the sanitized
    name contains only [a-z0-9_-]; sanitizing is idempotent (on every text of
    the modelled range); and the record file name is the configured pattern
    with the sanitized name in the place of the placeholder, so two
    usernames with the same sanitized name have the same file name. *)
Theorem sanitize_filename_ascii (u : str) :
  forallb is_ascii u = true ->
  forallb Spec.is_slug_char (sanitize_filename u) = true
  /\ sanitize_filename (sanitize_filename u) = sanitize_filename u
  /\ (forall cfg u',
        sanitize_filename u' = sanitize_filename u ->
        Checker.record_filename cfg u' = Checker.record_filename cfg u).
Proof.
  intros Ha. split; [|split].
  - apply sanitize_ascii_slug, Ha.
  - apply sanitize_idempotent.
  - intros cfg u' E. unfold Checker.record_filename. rewrite E. reflexivity.
Qed.

Lemma sanitize_filename_ascii_witness :
  forallb is_ascii (lit "Alice-B_9!") = true
  /\ sanitize_filename (lit "Alice-B_9!") = lit "alice-b_9"
  /\ forallb Spec.is_slug_char (sanitize_filename (lit "Alice-B_9!")) = true
  /\ sanitize_filename (sanitize_filename (lit "Alice-B_9!"))
     = sanitize_filename (lit "Alice-B_9!").
Proof.
  split; [reflexivity|]. split; [reflexivity|].
  destruct (sanitize_filename_ascii (lit "Alice-B_9!")) as [H1 [H2 _]];
    [reflexivity|].
  split; [exact H1|exact H2].
Defined.

End Sanitize.

(** ** [validate_discord_id] *)

Section ChatId.
Import Py Data Utils Example Spec.




Lemma str_isdigit_spec (t : str) :
  str_isdigit t = true <-> t <> [] /\ forallb isdigit t = true.
Proof.
  unfold str_isdigit. destruct t; [|split; [intros H; split; [discriminate|exact H]|tauto]].
  split; [discriminate|]. intros [H _]. congruence.
Qed.

Lemma validate_discord_id_unfold (cfg : config) (s : str) :
  validate_discord_id cfg (VStr s) = true <->
  s <> [] /\ Utils.unquote s <> [] /\ forallb isdigit (Utils.unquote s) = true
  /\ (discord_id_min_length (onboarding cfg) <= Z.of_nat (length (Utils.unquote s))
      <= discord_id_max_length (onboarding cfg))%Z.
Proof.
  unfold validate_discord_id, truthy.
  destruct s as [|c s].
  - simpl. split; [discriminate|]. intros [H _]. congruence.
  - set (t := Utils.unquote (c :: s)). cbn [negb].
    destruct (str_isdigit t) eqn:Hd; cbn [negb].
    + apply str_isdigit_spec in Hd as [Hn Hd].
      rewrite andb_true_iff, !Z.leb_le. split.
      * intros H. repeat split; try tauto. discriminate.
      * tauto.
    + split; [discriminate|]. intros [_ [Hn [Hd' _]]].
      assert (str_isdigit t = true) by (apply str_isdigit_spec; auto). congruence.
Qed.



End ChatId.

(** ** [int(s, 16)] and [validate_wallet_address] *)

Section Wallet.
Import Py Data Utils Example Spec.

Lemma hex_facts (c : ascii) :
  ishex c = true ->
  c_isspace c = false /\ is_code 43 c = false /\ is_code 45 c = false
  /\ is_code 120 c = false /\ is_code 88 c = false /\ is_underscore c = false
  /\ to_ascii_space c = c.
Proof. each_char c; repeat split; reflexivity. Qed.

Lemma scan_hex_all (n : nat) (h : str) :
  forallb ishex h = true -> scan_hex false n h = Some (n + length h, []).
Proof.
  revert n. induction h as [|c h IH]; intros n H.
  - simpl. rewrite Nat.add_0_r. reflexivity.
  - apply forallb_app_true with (l1 := [c]) in H as [Hc Hh].
    simpl in Hc. rewrite andb_true_r in Hc.
    destruct (hex_facts c Hc) as (_ & _ & _ & _ & _ & Hu & _).
    cbn [scan_hex]. rewrite Hu, Hc, IH by exact Hh.
    simpl. rewrite Nat.add_succ_r. reflexivity.
Qed.

(** A non-empty run of hexadecimal digits is accepted by [int(s, 16)]. *)
Lemma int16_ok_hex (h : str) :
  h <> [] -> forallb ishex h = true -> int16_ok h = true.
Proof.
  intros Hn H. unfold int16_ok.
  assert (map to_ascii_space h = h) as ->.
  { rewrite <- (map_id h) at 2. apply map_ext_in. intros c Hc.
    rewrite forallb_forall in H. apply hex_facts, H, Hc. }
  destruct h as [|c h]; [congruence|].
  pose proof H as H'.
  apply forallb_app_true with (l1 := [c]) in H' as [Hc Hh].
  simpl in Hc. rewrite andb_true_r in Hc.
  destruct (hex_facts c Hc) as (Hs & Hp & Hm & _ & _ & Hu & _).
  cbn [drop_while]. rewrite Hs.
  unfold skip_sign. rewrite Hp, Hm. cbn [orb].
  assert (skip_hex_prefix (c :: h) = c :: h) as ->.
  { unfold skip_hex_prefix. destruct h as [|x r]; [reflexivity|].
    apply forallb_app_true with (l1 := [x]) in Hh as [Hx _].
    simpl in Hx. rewrite andb_true_r in Hx.
    destruct (hex_facts x Hx) as (_ & _ & _ & Hlx & Hux & _ & _).
    rewrite Hlx, Hux, andb_false_r. reflexivity. }
  rewrite Hu, scan_hex_all by exact H. reflexivity.
Qed.

Lemma wallet_char_facts (c : ascii) :
  ishex c || is_code 120 c || is_code 88 c = true ->
  isspace c = false /\ in_chars [dquote] c = false /\ in_chars [squote] c = false.
Proof. each_char c. Qed.

(** A text without white space and without quotes is left as it is. *)
Lemma unquote_clean (t : str) :
  none_of isspace t = true ->
  none_of (in_chars [dquote]) t = true ->
  none_of (in_chars [squote]) t = true ->
  Utils.unquote t = t.
Proof.
  intros Hs Hd Hq.
  pose proof (unquote_sandwich [] [] t 0 0 0 0 eq_refl eq_refl Hs Hd Hq) as H.
  simpl in H. rewrite app_nil_r in H. exact H.
Qed.

Lemma validate_wallet_address_unfold (cfg : config) (s : str) :
  validate_wallet_address cfg (VStr s) = true <->
  s <> []
  /\ startswith (lower (Utils.unquote s)) (wallet_prefix (onboarding cfg)) = true
  /\ Z.of_nat (length (Utils.unquote s)) = wallet_length (onboarding cfg)
  /\ int16_ok (skipn 2 (Utils.unquote s)) = true.
Proof.
  unfold validate_wallet_address, truthy.
  destruct s as [|c s].
  - simpl. split; [discriminate|]. intros [H _]. congruence.
  - set (t := Utils.unquote (c :: s)). cbn [negb].
    destruct (startswith (lower t) (wallet_prefix (onboarding cfg))); cbn [negb];
      [|split; [discriminate|intros (_ & H & _); discriminate]].
    destruct (Z.eqb_spec (Z.of_nat (length t)) (wallet_length (onboarding cfg)));
      cbn [negb]; [|split; [discriminate|intros (_ & _ & H & _); congruence]].
    split; [intros H; repeat split; auto; discriminate|tauto].
Qed.

(** The [0x] address with 40 hexadecimal digits, with either case of the
    [x], passes the validator configured with the prefix [0x] and the
    length 42. *)
Lemma validate_wallet_address_canonical (cfg : config) (x : ascii) (h : str) :
  wallet_prefix (onboarding cfg) = lit "0x" ->
  wallet_length (onboarding cfg) = 42%Z ->
  x = "x"%char \/ x = "X"%char ->
  length h = 40 -> forallb ishex h = true ->
  validate_wallet_address cfg (VStr ("0"%char :: x :: h)) = true.
Proof.
  intros Hp Hl Hx Hlen Hh.
  assert (forallb (fun c => ishex c || is_code 120 c || is_code 88 c)
            ("0"%char :: x :: h) = true) as Hall.
  { cbn [forallb]. rewrite andb_true_iff. split; [reflexivity|].
    rewrite andb_true_iff. split; [destruct Hx; subst x; reflexivity|].
    rewrite forallb_forall in *. intros c Hc. rewrite (Hh c Hc). reflexivity. }
  assert (Utils.unquote ("0"%char :: x :: h) = "0"%char :: x :: h) as Hu.
  { apply unquote_clean;
      apply (none_of_weaken _ (fun c => ishex c || is_code 120 c || is_code 88 c));
      auto; intros c Hc; apply wallet_char_facts in Hc; tauto. }
  apply validate_wallet_address_unfold. rewrite Hu, Hp, Hl.
  repeat split.
  - discriminate.
  - destruct Hx; subst x; vm_compute; reflexivity.
  - simpl length. rewrite Hlen. reflexivity.
  - change (skipn 2 ("0"%char :: x :: h)) with h.
    apply int16_ok_hex; [|exact Hh].
    intros E. subst h. discriminate.
Qed.








(** Inputs with a sign, an inner prefix, an underscore or a blank after
    the prefix, each 42 characters long: [int(., 16)] reads a number in all
    of them. *)
Lemma validate_wallet_address_number_syntax :
  validate_wallet_address example_config
    (VStr (lit "0x-234567890abcdef1234567890abcdef12345678")) = true
  /\ validate_wallet_address example_config
       (VStr (lit "0x0x34567890abcdef1234567890abcdef12345678")) = true
  /\ validate_wallet_address example_config
       (VStr (lit "0x1_34567890abcdef1234567890abcdef12345678")) = true
  /\ validate_wallet_address example_config
       (VStr (lit "0x 234567890abcdef1234567890abcdef12345678")) = true.
Proof. repeat split; vm_compute; reflexivity. Qed.

End Wallet.

(** ** The matcher: what a match is, and that the matcher finds one *)

Section RegexFacts.
Import Py Regex Spec.

Lemma run_length_firstn (p : ascii -> bool) (cap : option nat) (s : str) (k : nat) :
  k <= run_length p cap s ->
  forallb p (firstn k s) = true /\ length (firstn k s) = k.
Proof.
  revert cap k. induction s as [|c s IH]; intros cap k Hk.
  - simpl in Hk. assert (k = 0) as -> by lia. auto.
  - destruct k as [|k]; [auto|].
    cbn [run_length] in Hk.
    destruct cap as [[|n]|]; try (exfalso; lia);
      (destruct (p c) eqn:Hc; [|exfalso; lia]);
      apply le_S_n in Hk; apply IH in Hk as [H1 H2];
      cbn [firstn forallb length]; rewrite Hc, H1, H2; auto.
Qed.

Lemma run_length_cap (p : ascii -> bool) (n : nat) (s : str) :
  run_length p (Some n) s <= n.
Proof.
  revert n. induction s as [|c s IH]; intros n; [simpl; lia|].
  cbn [run_length]. destruct n as [|n]; [lia|].
  destruct (p c); [|lia]. cbn [fmap option_fmap option_map pred].
  specialize (IH n). lia.
Qed.

Lemma run_length_ge (p : ascii -> bool) (cap : option nat) (a r : str) :
  forallb p a = true -> (forall n, cap = Some n -> length a <= n) ->
  length a <= run_length p cap (a ++ r).
Proof.
  revert cap. induction a as [|c a IH]; intros cap Ha Hcap; [simpl; lia|].
  cbn [forallb] in Ha. apply andb_true_iff in Ha as [Hc Ha].
  cbn [app run_length length].
  destruct cap as [[|n]|].
  - specialize (Hcap 0 eq_refl). simpl in Hcap. lia.
  - rewrite Hc. apply le_n_S, IH; [exact Ha|].
    cbn. intros m [= <-]. specialize (Hcap (S n) eq_refl). simpl in Hcap. lia.
  - rewrite Hc. apply le_n_S, IH; [exact Ha|]. cbn. discriminate.
Qed.

Lemma backtrack_sound {A} (f : nat -> option A) (low n k : nat) (r : A) :
  backtrack f low n = Some (k, r) -> f k = Some r /\ low <= k <= n.
Proof.
  induction n as [|n IH]; cbn [backtrack].
  - destruct (Nat.ltb_spec 0 low); [discriminate|].
    destruct (f 0) eqn:E; [|discriminate]. intros [= <- <-]. split; [exact E|lia].
  - destruct (Nat.ltb_spec (S n) low); [discriminate|].
    destruct (f (S n)) eqn:E.
    + intros [= <- <-]. split; [exact E|lia].
    + intros Hb. apply IH in Hb. split; [tauto|lia].
Qed.

Lemma backtrack_complete {A} (f : nat -> option A) (low n k : nat) :
  low <= k <= n -> is_Some (f k) -> is_Some (backtrack f low n).
Proof.
  intros Hk Hf. induction n as [|n IH]; cbn [backtrack].
  - assert (k = 0) as -> by lia.
    destruct (Nat.ltb_spec 0 low); [lia|].
    destruct Hf as [r ->]. eauto.
  - destruct (Nat.ltb_spec (S n) low); [lia|].
    destruct (f (S n)) eqn:E; [eauto|].
    apply IH. destruct (Nat.eq_dec k (S n)) as [->|]; [|lia].
    rewrite E in Hf. destruct Hf. discriminate.
Qed.

(** A match takes, item by item, a text the item allows, from the head of
    the input. *)
Lemma match_here_sound (its : list item) (s : str) (pieces : list str) :
  match_here its s = Some pieces ->
  Forall2 piece_ok its pieces /\ exists rest, s = concat pieces ++ rest.
Proof.
  revert s pieces. induction its as [|it its IH]; intros s pieces; cbn [match_here].
  - intros [= <-]. split; [constructor|]. exists s. reflexivity.
  - destruct (backtrack _ _ _) as [[k ps]|] eqn:Hb; [|discriminate].
    intros [= <-]. apply backtrack_sound in Hb as [Hm Hk].
    apply IH in Hm as [Hps [rest Hrest]].
    destruct (run_length_firstn (cls it) (hi it) s k) as [Hc Hl]; [lia|].
    split.
    + constructor; [|exact Hps]. unfold piece_ok. rewrite Hl.
      repeat split; [exact Hc|lia|].
      intros n Hn. rewrite Hn in Hk. pose proof (run_length_cap (cls it) n s). lia.
    + exists rest. cbn [concat]. rewrite <- app_assoc, <- Hrest.
      symmetry. apply firstn_skipn.
Qed.

(** Where the input starts with texts the items allow, the matcher finds a
    match (the one of its greedy search, which may split the input in
    another way). *)
Lemma match_here_complete (its : list item) (pieces : list str) (rest : str) :
  Forall2 piece_ok its pieces -> is_Some (match_here its (concat pieces ++ rest)).
Proof.
  intros H. revert rest. induction H as [|it p its ps Hp Hps IH]; intros rest.
  - cbn. eauto.
  - cbn [match_here concat]. destruct Hp as (Hc & Hlo & Hhi).
    assert (is_Some (backtrack (fun k => match_here its (skipn k ((p ++ concat ps) ++ rest)))
                       (lo it) (run_length (cls it) (hi it) ((p ++ concat ps) ++ rest))))
      as [[k r] ->]; [|eauto].
    apply (backtrack_complete _ _ _ (length p)).
    + split; [exact Hlo|]. rewrite <- app_assoc. apply run_length_ge; assumption.
    + rewrite <- app_assoc, drop_app_length. apply IH.
Qed.

Lemma search_items_sound (its : list item) (s : str) (pieces : list str) :
  search_items its s = Some pieces ->
  Forall2 piece_ok its pieces /\ exists pre rest, s = pre ++ concat pieces ++ rest.
Proof.
  induction s as [|c s IH]; cbn [search_items].
  - destruct (match_here its []) eqn:E; [|discriminate]. intros [= <-].
    apply match_here_sound in E as [H [rest Hr]]. split; [exact H|].
    exists [], rest. exact Hr.
  - destruct (match_here its (c :: s)) eqn:E.
    + intros [= <-]. apply match_here_sound in E as [H [rest Hr]].
      split; [exact H|]. exists [], rest. exact Hr.
    + intros Hs. apply IH in Hs as [H [pre [rest Hr]]]. split; [exact H|].
      exists (c :: pre), rest. rewrite Hr. reflexivity.
Qed.

Lemma search_items_complete (its : list item) (pre rest : str) (pieces : list str) :
  Forall2 piece_ok its pieces ->
  is_Some (search_items its (pre ++ concat pieces ++ rest)).
Proof.
  intros H. induction pre as [|c pre IH].
  - cbn [app]. destruct (match_here_complete its pieces rest H) as [r Hr].
    destruct (concat pieces ++ rest); cbn [search_items]; rewrite Hr; eauto.
  - cbn [app search_items]. destruct (match_here its _); eauto.
Qed.

End RegexFacts.

(** ** [parse_contributor_comment] *)

Section CommentParser.
Import Py Data Regex Utils Spec.

Lemma concat_singles (l : str) : concat (map (fun x => [x]) l) = l.
Proof. induction l as [|c l IH]; simpl; [reflexivity|]. rewrite IH. reflexivity. Qed.

Lemma piece_char_ci (c : ascii) (p : str) :
  piece_ok (char_ci c) p <-> exists x, p = [x] /\ lower_char x = lower_char c.
Proof.
  unfold piece_ok. cbn [cls lo hi char_ci]. split.
  - intros (Hc & Hlo & Hhi). specialize (Hhi 1 eq_refl).
    destruct p as [|x [|y p]]; simpl in *; try lia.
    exists x. split; [reflexivity|].
    rewrite andb_true_r in Hc. apply Ascii.eqb_eq, Hc.
  - intros (x & -> & Hx). simpl. rewrite Hx, Ascii.eqb_refl.
    repeat split; auto. intros n [= <-]. lia.
Qed.

Lemma pieces_literal (l : str) (ps : list str) :
  Forall2 piece_ok (map char_ci l) ps <->
  exists lab, ps = map (fun x => [x]) lab /\ lower lab = lower l.
Proof.
  revert ps. induction l as [|c l IH]; intros ps; cbn [map].
  - split.
    + intros H. apply Forall2_nil_inv_l in H. exists []. auto.
    + intros (lab & -> & Hl). destruct lab; [constructor|discriminate].
  - split.
    + intros H. apply Forall2_cons_inv_l in H as (p & ps' & Hp & Hps & ->).
      apply piece_char_ci in Hp as (x & -> & Hx).
      apply IH in Hps as (lab & -> & Hl).
      exists (x :: lab). split; [reflexivity|].
      unfold lower in *. cbn [map]. rewrite Hx, Hl. reflexivity.
    + intros (lab & -> & Hl). destruct lab as [|x lab]; [discriminate|].
      cbn in Hl. injection Hl as Hx Hl. cbn [map]. constructor.
      * apply piece_char_ci. eauto.
      * apply IH. eauto.
Qed.

Lemma piece_opt_quote (q : str) : piece_ok (opt is_quote) q <-> optional_quote q.
Proof.
  unfold piece_ok, optional_quote. cbn [cls lo hi opt]. split.
  - intros (Hc & _ & Hhi). specialize (Hhi 1 eq_refl).
    destruct q as [|x [|y q]]; simpl in *; try lia; [auto|].
    rewrite andb_true_r in Hc. unfold is_quote, in_chars in Hc. simpl in Hc.
    rewrite orb_false_r in Hc. apply orb_true_iff in Hc as [H|H];
      apply Ascii.eqb_eq in H; subst x; auto.
  - intros [-> | [-> | ->]]; repeat split; simpl; try lia; intros n [= <-]; lia.
Qed.

Lemma piece_star (p : ascii -> bool) (s : str) :
  piece_ok (star p) s <-> forallb p s = true.
Proof.
  unfold piece_ok. cbn [cls lo hi star]. split; [tauto|].
  intros H. repeat split; [exact H|lia|discriminate].
Qed.

Lemma piece_rep (p : ascii -> bool) (m n : nat) (s : str) :
  piece_ok (rep p m n) s <-> forallb p s = true /\ m <= length s <= n.
Proof.
  unfold piece_ok. cbn [cls lo hi rep]. split.
  - intros (H & Hlo & Hhi). specialize (Hhi n eq_refl). auto.
  - intros (H & Hlo & Hhi). repeat split; auto. intros k [= <-]. exact Hhi.
Qed.

(** The shape of a match of the discord pattern. *)
Lemma discord_pieces (pieces : list str) :
  Forall2 piece_ok (items discord_pattern) pieces <->
  exists lab ws q d q',
    pieces = map (fun x => [x]) lab ++ [ws; q; d; q']
    /\ lower lab = lit "discord:"
    /\ forallb isspace ws = true /\ optional_quote q
    /\ (forallb isdecimal d = true /\ 17 <= length d <= 20)
    /\ optional_quote q'.
Proof.
  cbn [items discord_pattern]. unfold lit_ci.
  rewrite Forall2_app_inv_l. split.
  - intros (k1 & k2 & H1 & H2 & ->).
    apply pieces_literal in H1 as (lab & -> & Hl).
    apply Forall2_cons_inv_l in H2 as (ws & k & Hws & H2 & ->).
    apply Forall2_cons_inv_l in H2 as (q & k' & Hq & H2 & ->).
    apply Forall2_cons_inv_l in H2 as (d & k'' & Hd & H2 & ->).
    apply Forall2_cons_inv_l in H2 as (q' & k''' & Hq' & H2 & ->).
    apply Forall2_nil_inv_l in H2 as ->.
    exists lab, ws, q, d, q'.
    rewrite piece_star in Hws. rewrite piece_opt_quote in Hq, Hq'.
    rewrite piece_rep in Hd. auto 10.
  - intros (lab & ws & q & d & q' & -> & Hl & Hws & Hq & Hd & Hq').
    exists (map (fun x => [x]) lab), [ws; q; d; q'].
    split; [apply pieces_literal; eauto|]. split; [|reflexivity].
    constructor; [apply piece_star; assumption|].
    constructor; [apply piece_opt_quote; assumption|].
    constructor; [apply piece_rep; assumption|].
    constructor; [apply piece_opt_quote; assumption|constructor].
Qed.

(** The shape of a match of the wallet pattern. *)
Lemma wallet_pieces (pieces : list str) :
  Forall2 piece_ok (items wallet_pattern) pieces <->
  exists lab ws q zx hs q',
    pieces = map (fun x => [x]) lab ++ [ws; q] ++ map (fun x => [x]) zx ++ [hs; q']
    /\ lower lab = lit "wallet:"
    /\ forallb isspace ws = true /\ optional_quote q
    /\ lower zx = lit "0x"
    /\ (forallb ishex hs = true /\ 40 <= length hs <= 40)
    /\ optional_quote q'.
Proof.
  cbn [items wallet_pattern]. unfold lit_ci.
  rewrite Forall2_app_inv_l. split.
  - intros (k1 & k2 & H1 & H2 & ->).
    apply pieces_literal in H1 as (lab & -> & Hl).
    cbn [app] in H2.
    apply Forall2_cons_inv_l in H2 as (ws & k & Hws & H2 & ->).
    apply Forall2_cons_inv_l in H2 as (q & k' & Hq & H2 & ->).
    apply Forall2_app_inv_l in H2 as (k3 & k4 & H3 & H4 & ->).
    apply pieces_literal in H3 as (zx & -> & Hzx).
    cbn [app] in H4.
    apply Forall2_cons_inv_l in H4 as (hs & k'' & Hhs & H4 & ->).
    apply Forall2_cons_inv_l in H4 as (q' & k''' & Hq' & H4 & ->).
    apply Forall2_nil_inv_l in H4 as ->.
    exists lab, ws, q, zx, hs, q'.
    rewrite piece_star in Hws. rewrite piece_opt_quote in Hq, Hq'.
    rewrite piece_rep in Hhs. auto 10.
  - intros (lab & ws & q & zx & hs & q' & -> & Hl & Hws & Hq & Hzx & Hhs & Hq').
    exists (map (fun x => [x]) lab), ([ws; q] ++ map (fun x => [x]) zx ++ [hs; q']).
    split; [apply pieces_literal; eauto|]. split; [|reflexivity].
    cbn [app]. constructor; [apply piece_star; assumption|].
    constructor; [apply piece_opt_quote; assumption|].
    apply Forall2_app; [apply pieces_literal; eauto|].
    constructor; [apply piece_rep; assumption|].
    constructor; [apply piece_opt_quote; assumption|constructor].
Qed.

(** A text whose lower case is a given literal has the literal's length;
    the tactic lists its characters. *)
Ltac spell lab H :=
  repeat (destruct lab as [|? lab]; [discriminate H|]);
  destruct lab; [|discriminate H].

Lemma discord_group (lab ws q d q' : str) :
  lower lab = lit "discord:" ->
  group1 discord_pattern (map (fun x => [x]) lab ++ [ws; q; d; q']) = d.
Proof. intros H. spell lab H. cbn. apply app_nil_r. Qed.

Lemma wallet_group (lab ws q zx hs q' : str) :
  lower lab = lit "wallet:" -> lower zx = lit "0x" ->
  group1 wallet_pattern
    (map (fun x => [x]) lab ++ [ws; q] ++ map (fun x => [x]) zx ++ [hs; q'])
  = zx ++ hs.
Proof.
  intros H Hz. spell lab H. spell zx Hz. cbn. rewrite app_nil_r. reflexivity.
Qed.

Lemma search_discord_sound (body d : str) :
  search discord_pattern body = Some d -> has_discord_claim body d.
Proof.
  unfold search. destruct (search_items _ body) as [pieces|] eqn:E; [|discriminate].
  cbn [fmap option_fmap option_map]. intros [= <-].
  apply search_items_sound in E as [H (pre & rest & Hb)].
  apply discord_pieces in H as (lab & ws & q & d & q' & -> & Hl & Hws & Hq & Hd & Hq').
  rewrite discord_group by exact Hl.
  exists pre, lab, ws, q, q', rest. repeat split; try tauto.
  rewrite Hb, concat_app, concat_singles. cbn. rewrite app_nil_r.
  repeat rewrite <- app_assoc. reflexivity.
Qed.

Lemma search_discord_complete (body d : str) :
  has_discord_claim body d -> is_Some (search discord_pattern body).
Proof.
  intros (pre & lab & ws & q & q' & rest & -> & Hl & Hws & Hq & Hq' & Hd & Hlen).
  unfold search. apply fmap_is_Some.
  assert (Forall2 piece_ok (items discord_pattern)
            (map (fun x => [x]) lab ++ [ws; q; d; q'])) as H.
  { apply discord_pieces. exists lab, ws, q, d, q'. tauto. }
  pose proof (search_items_complete _ pre rest _ H) as Hs.
  rewrite concat_app, concat_singles in Hs. cbn in Hs. rewrite app_nil_r in Hs.
  repeat rewrite <- app_assoc in Hs. exact Hs.
Qed.

Lemma search_wallet_sound (body w : str) :
  search wallet_pattern body = Some w -> has_wallet_claim body w.
Proof.
  unfold search. destruct (search_items _ body) as [pieces|] eqn:E; [|discriminate].
  cbn [fmap option_fmap option_map]. intros [= <-].
  apply search_items_sound in E as [H (pre & rest & Hb)].
  apply wallet_pieces in H
    as (lab & ws & q & zx & hs & q' & -> & Hl & Hws & Hq & Hzx & Hhs & Hq').
  rewrite wallet_group by assumption.
  exists pre, lab, ws, q, q', rest. repeat split; try tauto.
  - rewrite Hb, !concat_app, !concat_singles. cbn. rewrite app_nil_r.
    repeat rewrite <- app_assoc. reflexivity.
  - exists zx, hs. repeat split; try tauto. lia.
Qed.

Lemma search_wallet_complete (body w : str) :
  has_wallet_claim body w -> is_Some (search wallet_pattern body).
Proof.
  intros (pre & lab & ws & q & q' & rest & -> & Hl & Hws & Hq & Hq'
          & zx & hs & -> & Hzx & Hhs & Hlen).
  unfold search. apply fmap_is_Some.
  assert (Forall2 piece_ok (items wallet_pattern)
            (map (fun x => [x]) lab ++ [ws; q] ++ map (fun x => [x]) zx ++ [hs; q']))
    as H.
  { apply wallet_pieces. exists lab, ws, q, zx, hs, q'. repeat split; auto; lia. }
  pose proof (search_items_complete _ pre rest _ H) as Hs.
  rewrite !concat_app, !concat_singles in Hs. cbn in Hs. rewrite app_nil_r in Hs.
  repeat rewrite <- app_assoc in Hs. repeat rewrite <- app_assoc. exact Hs.
Qed.


(** A comment with both lines, the wallet first and inside other text,
    gives the claim. *)
Lemma parse_contributor_comment_example :
  parse_contributor_comment
    (lit "Here you go! WALLET: 0x1234567890abcdef1234567890abcdef12345678, "
     ++ lit "Discord:  '123456789012345678' thanks")
  = Some (<["discord_id" := VStr (lit "123456789012345678")]>
         (<["wallet" := VStr (lit "0x1234567890abcdef1234567890abcdef12345678")]> ∅)).
Proof. vm_compute. reflexivity. Qed.

End CommentParser.

(** ** Acquiring the checkout *)

Section Acquire.
Import Py Data World Example.

Lemma clone_gist_message (w : env) (m : Manager.manager) (stderr : str) :
  run_git w (GitClone (auth_url (registry_url (gist (Manager.mconfig m)))
                                (Manager.gist_pat m))
                      (path_join (tempdir w) (lit "contributor_gist_repo")))
    = CalledProcessError stderr ->
  snd (Manager.clone_gist w m)
    = Raise (RuntimeError (lit "Failed to clone Gist: " ++ stderr)).
Proof.
  intros H. unfold Manager.clone_gist, Manager.set_checkout, Manager.gets,
    Manager.lift, mbind, Manager.method_bind.
  cbn [Manager.mconfig Manager.gist_pat]. rewrite H. reflexivity.
Qed.

(** The message of [clone_gist_repo] does not depend on the credential nor
    on what [git] printed. *)
Lemma clone_gist_repo_message (w : env) (cfg : config) (gist_pat temp_dir stderr : str) :
  run_git w (GitClone (auth_url (registry_url (gist cfg)) gist_pat) temp_dir)
    = CalledProcessError stderr ->
  Checker.clone_gist_repo w cfg gist_pat temp_dir
    = Raise (RuntimeError (lit "Failed to clone gist repository")).
Proof. intros H. unfold Checker.clone_gist_repo. rewrite H. reflexivity. Qed.

(** C1 fails for the manager: when [git clone] is rejected and its error
    output quotes the address, [ContributorManager.clone_gist] raises a
    [RuntimeError] whose message, and so the line that [main] prints,
    contains the credential, while [clone_gist_repo] raises its fixed
    message in the same situation. *)
Theorem clone_gist_surfaces_credential :
  exists msg,
    snd (Manager.clone_gist rejecting_world fresh_manager) = Raise (RuntimeError msg)
    /\ contains msg secret = true
    /\ contains (Manager.error_line (RuntimeError msg)) secret = true
    /\ Checker.clone_gist_repo rejecting_world example_config secret (lit "/tmp/gist")
       = Raise (RuntimeError (lit "Failed to clone gist repository"))
    /\ contains (lit "Failed to clone gist repository") secret = false.
Proof.
  eexists. split; [|split; [|split; [|split]]].
  - apply clone_gist_message. reflexivity.
  - vm_compute. reflexivity.
  - vm_compute. reflexivity.
  - reflexivity.
  - reflexivity.
Qed.

End Acquire.

(** ** The record documents the manager writes *)

Section ManagerFacts.
Import Py Data World Manager Spec.

Lemma getitem_ok (d : gmap string value) (key : string) (v : value) :
  getitem d key = Ok v <-> d !! key = Some v.
Proof.
  unfold getitem. destruct (d !! key); split; intros H; congruence.
Qed.

Lemma res_bind_ok {A B} (c : res A) (k : A -> res B) (b : B) :
  c ≫= k = Ok b <-> exists a, c = Ok a /\ k a = Ok b.
Proof.
  destruct c as [a|e]; cbn; split.
  - eauto.
  - intros (a' & [= <-] & H). exact H.
  - discriminate.
  - intros (a' & [=] & _).
Qed.

Lemma pr_entry_ok (pr_data : gmap string value) :
  is_Some (pr_data !! "pr_number") -> is_Some (pr_data !! "repo_name") ->
  exists entry, pr_entry pr_data = Ok entry.
Proof.
  intros [n Hn] [r Hr]. unfold pr_entry, getitem. rewrite Hn, Hr. cbn. eauto.
Qed.

Lemma new_contributor_data_spec (cfg : config) (username : str)
    (discord_id wallet : value) (pr_data doc : gmap string value) :
  new_contributor_data cfg username discord_id wallet pr_data = Ok doc ->
  exists entry c,
    pr_entry pr_data = Ok entry
    /\ doc !! "pull_requests" = Some (VList [VDict entry])
    /\ doc !! "contributor" = Some (VDict c)
    /\ c !! "total_prs" = Some (VInt 1)
    /\ doc !! "stats" = None /\ doc !! "status" = None /\ doc !! "discord" = None.
Proof.
  unfold new_contributor_data. intros H.
  apply res_bind_ok in H as (entry & He & H). cbn in H. injection H as <-.
  exists entry. eexists. split; [exact He|]. repeat split; reflexivity.
Qed.

Lemma append_pr_spec (doc new_pr doc' : gmap string value) :
  append_pr doc new_pr = Ok doc' <->
  exists l c,
    doc !! "pull_requests" = Some (VList l)
    /\ doc !! "contributor" = Some (VDict c)
    /\ doc' = <["contributor" :=
                  VDict (<["total_prs" := VInt (Z.of_nat (length (l ++ [VDict new_pr])))]> c)]>
              (<["pull_requests" := VList (l ++ [VDict new_pr])]> doc).
Proof.
  unfold append_pr, getitem. split.
  - destruct (doc !! "pull_requests") as [[| | | | |l| |]|] eqn:Hp; cbn; try discriminate.
    rewrite lookup_insert_ne by discriminate.
    destruct (doc !! "contributor") as [[| | | | | |c|]|] eqn:Hc; cbn; try discriminate.
    intros [= <-]. eauto.
  - intros (l & c & Hp & Hc & ->). rewrite Hp. cbn.
    rewrite lookup_insert_ne by discriminate. rewrite Hc. reflexivity.
Qed.

(** Whatever the counter was, after the append it is the length of the
    list. *)
Lemma append_pr_counter (doc new_pr doc' : gmap string value) :
  append_pr doc new_pr = Ok doc' -> counter_matches doc'.
Proof.
  intros H. apply append_pr_spec in H as (l & c & Hp & Hc & ->).
  exists (l ++ [VDict new_pr]). eexists. split; [|split].
  - rewrite lookup_insert_ne by discriminate. apply lookup_insert_eq.
  - apply lookup_insert_eq.
  - apply lookup_insert_eq.
Qed.

Lemma new_contributor_data_counter (cfg : config) (username : str)
    (discord_id wallet : value) (pr_data doc : gmap string value) :
  new_contributor_data cfg username discord_id wallet pr_data = Ok doc ->
  counter_matches doc.
Proof.
  intros H. apply new_contributor_data_spec in H
    as (entry & c & _ & Hp & Hc & Ht & _).
  exists [VDict entry], c. auto.
Qed.

(** Cloning leaves the fields of the manager alone and makes the checkout
    empty or the registry. *)
Lemma ensure_cloned_frame (w : env) (m : manager) :
  let m1 := fst (ensure_cloned w m) in
  mconfig m1 = mconfig m
  /\ (checkout m1 = checkout m \/ checkout m1 = ∅ \/ checkout m1 = registry w).
Proof.
  unfold ensure_cloned, clone_gist, set_checkout, gets, lift, mbind, method_bind,
    mret, method_ret.
  cbn [mconfig gist_pat repo_dir checkout fst snd].
  destruct (repo_dir m) as [d|]; [destruct (truthy (VStr d)); [cbn; auto|]|];
    destruct (run_git w _); cbn; auto.
Qed.

Lemma only_written_cloned (w : env) (m : manager) (written : gmap string value -> Prop) :
  only_written w m (fst (ensure_cloned w m)) written.
Proof.
  intros f doc H. destruct (ensure_cloned_frame w m) as [_ [E|[E|E]]];
    rewrite E in H; auto. rewrite lookup_empty in H. discriminate.
Qed.

End ManagerFacts.

(** ** The counter after a mutation *)

(** One step of a method: the combinators are unfolded and the fields of
    the updated manager are read. *)
Ltac run_method :=
  unfold Manager.record_filename, Manager.write_file, Manager.commit_and_push,
    Manager.set_checkout, Manager.gets, Manager.lift,
    mbind, Manager.method_bind, mret, Manager.method_ret;
  cbn [Manager.mconfig Manager.gist_pat Manager.repo_dir Manager.checkout fst snd].

Section ManagerMutations.
Import Py Data World Manager Spec Example.

Lemma only_written_insert (w : env) (m m1 : manager) (gp : str) (cfg : config)
    (dir : option str) (filename : str) (doc : gmap string value)
    (written : gmap string value -> Prop) :
  only_written w m m1 written -> written doc ->
  only_written w m
    {| gist_pat := gp; mconfig := cfg; repo_dir := dir;
       checkout := <[filename := Toml doc]> (checkout m1) |} written.
Proof.
  intros Hc Hd f doc'. cbn [checkout]. rewrite lookup_insert.
  destruct (decide (filename = f)) as [->|Hne].
  - intros [= <-]. auto.
  - apply Hc.
Qed.

Lemma create_contributor_only_written (w : env) (fmt : formatter) (username : str)
    (discord_id wallet : value) (pr_data : gmap string value) (m : manager) :
  only_written w m
    (fst (create_contributor w fmt username discord_id wallet pr_data m))
    counter_matches.
Proof.
  pose proof (only_written_cloned w m counter_matches) as Hc.
  unfold create_contributor. run_method.
  destruct (ensure_cloned w m) as [m1 [[]|e]]; cbn [fst] in *; [|exact Hc].
  destruct (fmt _ _) as [filename|e]; [|exact Hc].
  destruct (new_contributor_data _ _ _ _ _) as [doc|e] eqn:Hd; [|exact Hc].
  apply new_contributor_data_counter in Hd.
  cbn [fst]. apply only_written_insert; assumption.
Qed.

Lemma add_pr_only_written (w : env) (fmt : formatter) (username : str)
    (pr_data : gmap string value) (m : manager) :
  only_written w m (fst (add_pr_to_contributor w fmt username pr_data m))
    counter_matches.
Proof.
  pose proof (only_written_cloned w m counter_matches) as Hc.
  unfold add_pr_to_contributor. run_method.
  destruct (ensure_cloned w m) as [m1 [[]|e]]; cbn [fst] in *; [|exact Hc].
  destruct (fmt _ _) as [filename|e]; [|exact Hc].
  destruct (checkout m1 !! filename) as [[doc0|]|]; run_method; try exact Hc.
  destruct (pr_entry pr_data) as [new_pr|e]; [|exact Hc].
  destruct (append_pr doc0 new_pr) as [doc|e] eqn:Hd; [|exact Hc].
  apply append_pr_counter in Hd.
  cbn [fst]. apply only_written_insert; assumption.
Qed.

Lemma create_contributor_writes (w : env) (fmt : formatter) (username : str)
    (discord_id wallet : value) (pr_data entry : gmap string value)
    (m : manager) (filename : str) :
  snd (ensure_cloned w m) = Ok tt ->
  fmt (contributor_file_pattern (gist (mconfig m))) (Utils.sanitize_filename username)
    = Ok filename ->
  pr_entry pr_data = Ok entry ->
  exists doc,
    checkout (fst (create_contributor w fmt username discord_id wallet pr_data m))
      !! filename = Some (Toml doc)
    /\ doc !! "pull_requests" = Some (VList [VDict entry])
    /\ counter_matches doc.
Proof.
  intros Hc Hf He.
  destruct (ensure_cloned_frame w m) as [Hcfg _].
  unfold create_contributor. run_method.
  destruct (ensure_cloned w m) as [m1 r]. cbn [fst snd] in *. subst r.
  rewrite Hcfg, Hf.
  destruct (new_contributor_data _ _ _ _ _) as [doc|e] eqn:Hd.
  - exists doc. cbn [fst checkout]. split; [apply lookup_insert_eq|].
    pose proof (new_contributor_data_counter _ _ _ _ _ _ Hd) as Hk.
    apply new_contributor_data_spec in Hd as (entry' & c & He' & Hp & _).
    rewrite He in He'. injection He' as <-. auto.
  - unfold new_contributor_data in Hd. rewrite He in Hd. discriminate.
Qed.

Lemma add_pr_writes (w : env) (fmt : formatter) (username : str)
    (pr_data entry : gmap string value) (m : manager) (filename : str)
    (doc0 : gmap string value) (l0 : list value) (c0 : gmap string value) :
  snd (ensure_cloned w m) = Ok tt ->
  fmt (contributor_file_pattern (gist (mconfig m))) (Utils.sanitize_filename username)
    = Ok filename ->
  checkout (fst (ensure_cloned w m)) !! filename = Some (Toml doc0) ->
  doc0 !! "pull_requests" = Some (VList l0) ->
  doc0 !! "contributor" = Some (VDict c0) ->
  pr_entry pr_data = Ok entry ->
  exists doc c,
    checkout (fst (add_pr_to_contributor w fmt username pr_data m))
      !! filename = Some (Toml doc)
    /\ doc !! "pull_requests" = Some (VList (l0 ++ [VDict entry]))
    /\ doc !! "contributor" = Some (VDict c)
    /\ c !! "total_prs" = Some (VInt (Z.of_nat (length l0) + 1))
    /\ counter_matches doc.
Proof.
  intros Hc Hf Hfile Hp Hcon He.
  destruct (ensure_cloned_frame w m) as [Hcfg _].
  unfold add_pr_to_contributor. run_method.
  destruct (ensure_cloned w m) as [m1 r]. cbn [fst snd] in *. subst r.
  rewrite Hcfg, Hf, Hfile. run_method. rewrite He.
  assert (exists doc, append_pr doc0 entry = Ok doc) as [doc Hd].
  { eexists. apply append_pr_spec. eauto. }
  rewrite Hd. cbn [fst checkout].
  pose proof (append_pr_counter _ _ _ Hd) as Hk.
  apply append_pr_spec in Hd as (l & c & Hp' & Hcon' & ->).
  rewrite Hp in Hp'. injection Hp' as <-.
  eexists. eexists. split; [apply lookup_insert_eq|].
  split; [rewrite lookup_insert_ne by discriminate; apply lookup_insert_eq|].
  split; [apply lookup_insert_eq|]. split; [|exact Hk].
  rewrite lookup_insert_eq, length_app. cbn [length].
  do 2 f_equal. lia.
Qed.

(** C3: every record document that [create_contributor] or
    [add_pr_to_contributor] leaves in the checkout, other than the files
    that were already there or came with the clone, has its [total_prs]
    equal to the length of its [pull_requests].  Creation, once the
    registry is cloned and the entry of the pull request is built, writes
    a document with one entry and the counter 1.  The append, on a document
    with a list [pull_requests] and a table [contributor], writes the list
    with the new entry at its end and sets the counter to the new length,
    whatever the counter was. *)
Theorem total_prs_matches_pull_requests (w : env) (fmt : formatter)
    (username : str) (pr_data : gmap string value) (m : manager) :
  (forall discord_id wallet,
     only_written w m
       (fst (create_contributor w fmt username discord_id wallet pr_data m))
       counter_matches)
  /\ only_written w m (fst (add_pr_to_contributor w fmt username pr_data m))
       counter_matches
  /\ (forall discord_id wallet entry filename,
        snd (ensure_cloned w m) = Ok tt ->
        fmt (contributor_file_pattern (gist (mconfig m)))
            (Utils.sanitize_filename username) = Ok filename ->
        pr_entry pr_data = Ok entry ->
        exists doc,
          checkout (fst (create_contributor w fmt username discord_id wallet pr_data m))
            !! filename = Some (Toml doc)
          /\ doc !! "pull_requests" = Some (VList [VDict entry])
          /\ counter_matches doc)
  /\ (forall entry filename doc0 l0 c0,
        snd (ensure_cloned w m) = Ok tt ->
        fmt (contributor_file_pattern (gist (mconfig m)))
            (Utils.sanitize_filename username) = Ok filename ->
        checkout (fst (ensure_cloned w m)) !! filename = Some (Toml doc0) ->
        doc0 !! "pull_requests" = Some (VList l0) ->
        doc0 !! "contributor" = Some (VDict c0) ->
        pr_entry pr_data = Ok entry ->
        exists doc c,
          checkout (fst (add_pr_to_contributor w fmt username pr_data m))
            !! filename = Some (Toml doc)
          /\ doc !! "pull_requests" = Some (VList (l0 ++ [VDict entry]))
          /\ doc !! "contributor" = Some (VDict c)
          /\ c !! "total_prs" = Some (VInt (Z.of_nat (length l0) + 1))
          /\ counter_matches doc).
Proof.
  split; [|split; [|split]].
  - intros. apply create_contributor_only_written.
  - apply add_pr_only_written.
  - intros. eapply create_contributor_writes; eassumption.
  - intros. eapply add_pr_writes; eassumption.
Qed.

Lemma total_prs_matches_pull_requests_witness :
  let w := working_world (<[lit "alice.toml" := Toml drifted_record]> ∅) in
  drifted_record !! "contributor"
    = Some (VDict (<["github_username" := VStr (lit "Alice")]>
                  (<["total_prs" := VInt 7]> ∅)))
  /\ exists doc c,
       checkout (fst (add_pr_to_contributor w simple_format (lit "Alice!")
                        (example_pr 8) fresh_manager))
         !! lit "alice.toml" = Some (Toml doc)
       /\ doc !! "pull_requests"
          = Some (VList ([VDict (example_entry 3)] ++ [VDict (example_entry 8)]))
       /\ doc !! "contributor" = Some (VDict c)
       /\ c !! "total_prs" = Some (VInt 2)
       /\ counter_matches doc.
Proof.
  intros w. split; [reflexivity|].
  destruct (total_prs_matches_pull_requests w simple_format (lit "Alice!")
              (example_pr 8) fresh_manager) as (_ & _ & _ & H).
  apply (H (example_entry 8) (lit "alice.toml") drifted_record [VDict (example_entry 3)]
           (<["github_username" := VStr (lit "Alice")]> (<["total_prs" := VInt 7]> ∅)));
    vm_compute; reflexivity.
Defined.

End ManagerMutations.

(** ** The promotion check *)

Section Promotion.
Import Py Data World Checker Spec Example.

Lemma eq_str_true (v : value) (s : str) : eq_str v s = true <-> v = VStr s.
Proof.
  destruct v; cbn; try (split; [discriminate|intros [=]]).
  rewrite bool_decide_eq_true. split; [intros ->; reflexivity|intros [= ->]; reflexivity].
Qed.

Lemma table_get (doc : gmap string value) (key : string)
    (fields_ok : gmap string value -> Prop) :
  table_or_absent doc key fields_ok ->
  dict_get doc key (VDict ∅) = VDict (table doc key).
Proof.
  unfold table_or_absent, dict_get, table.
  destruct (doc !! key) as [[| | | | | |d|]|]; cbn; tauto.
Qed.

Lemma field_table (doc : gmap string value) (t key : string) (dflt : value) :
  field doc t key dflt = dict_get (table doc t) key dflt.
Proof.
  unfold field, table, dict_get.
  destruct (doc !! t) as [[| | | | | |d|]|]; cbn; try reflexivity;
    rewrite lookup_empty; reflexivity.
Qed.

Lemma ge_number (v : value) (n : number) :
  is_number v -> exists b, ge v n = Ok b.
Proof.
  destruct v; cbn; try tauto; intros _; destruct n; cbn; eauto.
Qed.

(** The verdict on a shaped document, in terms of the fields read. *)
Lemma promotion_verdict_shaped (cfg : config) (doc : gmap string value) :
  record_shaped doc ->
  let current_role := field doc "status" "current_role" (VStr (lit "Apprentice")) in
  let is_blocked := field doc "status" "blocked" (VBool false) in
  let total_prs := field doc "stats" "total_prs" (VInt 0) in
  let avg_lines := field doc "stats" "avg_lines_changed" (VInt 0) in
  let discord_id := field doc "discord" "user_id" (VStr []) in
  exists eligible,
    promotion_verdict cfg (VDict doc)
    = Ok (<["exists" := VBool true]>
         (<["eligible_for_promotion" := VBool eligible]>
         (<["current_role" := current_role]>
         (<["total_prs" := total_prs]>
         (<["avg_lines" := avg_lines]>
         (<["discord_id" := discord_id]>
         (<["is_blocked" := is_blocked]> ∅)))))))
    /\ (eligible = true <->
        current_role = VStr (lit "Apprentice")
        /\ is_blocked = VBool false
        /\ at_least total_prs (threshold (promotion cfg))
        /\ at_least avg_lines (min_avg_lines (promotion cfg))).
Proof.
  intros (Hstatus & Hstats & Hdiscord). cbv zeta.
  rewrite !field_table.
  unfold promotion_verdict, value_get.
  cbn [mbind res_bind].
  rewrite (table_get _ _ _ Hstatus), (table_get _ _ _ Hstats), (table_get _ _ _ Hdiscord).
  set (role := dict_get (table doc "status") "current_role" _).
  set (blocked := dict_get (table doc "status") "blocked" _).
  set (total := dict_get (table doc "stats") "total_prs" _).
  set (avg := dict_get (table doc "stats") "avg_lines_changed" _).
  set (did := dict_get (table doc "discord") "user_id" _).
  assert (exists b, blocked = VBool b) as [b Hb].
  { unfold blocked, dict_get, table.
    unfold table_or_absent, field_ok in Hstatus.
    destruct (doc !! "status") as [[| | | | | |d|]|]; try tauto;
      [destruct (d !! "blocked"); cbn; eauto|rewrite lookup_empty; cbn; eauto]. }
  assert (is_number total /\ is_number avg) as [Ht Ha].
  { unfold total, avg, dict_get, table.
    unfold table_or_absent, field_ok in Hstats.
    destruct (doc !! "stats") as [[| | | | | |d|]|];
      rewrite ?lookup_empty; cbn; try tauto.
    destruct Hstats as [H1 H2].
    destruct (d !! "total_prs"), (d !! "avg_lines_changed"); cbn; tauto. }
  destruct (ge_number total (threshold (promotion cfg)) Ht) as [b1 H1].
  destruct (ge_number avg (min_avg_lines (promotion cfg)) Ha) as [b2 H2].
  unfold at_least, mbind, res_bind, mret, res_ret. rewrite H1, H2, Hb.
  cbn [truthy].
  exists (eq_str role (lit "Apprentice") && (negb b && (b1 && b2))).
  split.
  - destruct (eq_str role _), b, b1, b2; reflexivity.
  - rewrite !andb_true_iff, eq_str_true, negb_true_iff.
    split.
    + intros (-> & -> & -> & ->). auto.
    + intros (-> & [= ->] & [= ->] & [= ->]). auto.
Qed.

(** With the record file in the cloned registry, the check is the verdict
    on its document. *)
Lemma check_promotion_eligibility_found (w : env) (cfg : config)
    (pr_author gist_pat gist_dir : str) (doc : gmap string value) :
  run_git w (GitClone (auth_url (registry_url (gist cfg)) gist_pat) gist_dir) = Completed ->
  registry w !! record_filename cfg pr_author = Some (Toml doc) ->
  check_promotion_eligibility w cfg pr_author gist_pat gist_dir
  = promotion_verdict cfg (VDict doc).
Proof.
  intros Hc Hf.
  unfold check_promotion_eligibility, check_contributor_exists, clone_gist_repo.
  rewrite Hc. cbn [mbind res_bind]. rewrite Hf. cbn [mret res_ret].
  reflexivity.
Qed.

(** Without the record file, the check gives the "not onboarded"
    outcome, whether the clone succeeds or not. *)
Lemma check_promotion_eligibility_absent (w : env) (cfg : config)
    (pr_author gist_pat gist_dir : str) :
  registry w !! record_filename cfg pr_author = None ->
  check_promotion_eligibility w cfg pr_author gist_pat gist_dir = Ok not_onboarded.
Proof.
  intros Hf.
  unfold check_promotion_eligibility, check_contributor_exists, clone_gist_repo.
  destruct (run_git w _); cbn [mbind res_bind]; [rewrite Hf|..]; reflexivity.
Qed.

End Promotion.

(** ** Eligibility *)

Section Eligibility.
Import Py Data World Checker Spec Example.

(** C4: for a record document of the expected shape, found in the cloned
    registry, the check reports the values it read, with [Apprentice] and
    [False] for an absent role and blocked flag and 0 for absent statistics,
    and reports the contributor eligible exactly when the role is
    [Apprentice], the record is not blocked, [total_prs] is at least the
    promotion threshold and [avg_lines_changed] is at least the minimum
    average. *)
Theorem check_promotion_eligibility_iff (w : env) (cfg : config)
    (pr_author gist_pat gist_dir : str) (doc : gmap string value) :
  run_git w (GitClone (auth_url (registry_url (gist cfg)) gist_pat) gist_dir) = Completed ->
  registry w !! record_filename cfg pr_author = Some (Toml doc) ->
  record_shaped doc ->
  let current_role := field doc "status" "current_role" (VStr (lit "Apprentice")) in
  let is_blocked := field doc "status" "blocked" (VBool false) in
  let total_prs := field doc "stats" "total_prs" (VInt 0) in
  let avg_lines := field doc "stats" "avg_lines_changed" (VInt 0) in
  exists r eligible,
    check_promotion_eligibility w cfg pr_author gist_pat gist_dir = Ok r
    /\ r !! "exists" = Some (VBool true)
    /\ r !! "eligible_for_promotion" = Some (VBool eligible)
    /\ r !! "current_role" = Some current_role
    /\ r !! "is_blocked" = Some is_blocked
    /\ r !! "total_prs" = Some total_prs
    /\ r !! "avg_lines" = Some avg_lines
    /\ (eligible = true <->
        current_role = VStr (lit "Apprentice")
        /\ is_blocked = VBool false
        /\ at_least total_prs (threshold (promotion cfg))
        /\ at_least avg_lines (min_avg_lines (promotion cfg)))
    /\ (doc !! "status" = None ->
        current_role = VStr (lit "Apprentice") /\ is_blocked = VBool false)
    /\ (forall status, doc !! "status" = Some (VDict status) ->
        (status !! "current_role" = None -> current_role = VStr (lit "Apprentice"))
        /\ (status !! "blocked" = None -> is_blocked = VBool false)).
Proof.
  intros Hc Hf Hs. cbv zeta.
  destruct (promotion_verdict_shaped cfg doc Hs) as (eligible & Hv & Hiff).
  rewrite (check_promotion_eligibility_found w cfg _ _ _ doc Hc Hf), Hv.
  eexists. exists eligible. split; [reflexivity|].
  repeat (split; [reflexivity|]).
  split; [exact Hiff|]. unfold field. split.
  - intros ->. auto.
  - intros status ->. split; intros ->; reflexivity.
Qed.

Lemma check_promotion_eligibility_iff_witness :
  let w := working_world (<[lit "alice.toml" := Toml (example_record "Apprentice" false)]> ∅) in
  record_shaped (example_record "Apprentice" false)
  /\ exists r,
       check_promotion_eligibility w example_config (lit "Alice") secret (lit "/tmp/gist")
       = Ok r
       /\ r !! "eligible_for_promotion" = Some (VBool true).
Proof.
  intros w.
  assert (record_shaped (example_record "Apprentice" false)) as Hs.
  { unfold record_shaped, table_or_absent, field_ok. vm_compute. eauto. }
  split; [exact Hs|].
  destruct (check_promotion_eligibility_iff w example_config (lit "Alice") secret
              (lit "/tmp/gist") (example_record "Apprentice" false)
              eq_refl eq_refl Hs)
    as (r & eligible & Hr & _ & He & _ & _ & _ & _ & Hiff & _).
  exists r. split; [exact Hr|]. rewrite He. do 2 f_equal.
  apply Hiff. repeat split; vm_compute; reflexivity.
Defined.

(** A document of another shape makes the check raise: here [status] is
    a string, which has no [get]. *)
Lemma promotion_verdict_misshaped :
  promotion_verdict example_config
    (VDict (<["status" := VStr (lit "Apprentice")]>
            (example_record "Apprentice" false)))
  = Raise (AttributeError "object has no attribute 'get'").
Proof. vm_compute. reflexivity. Qed.

(** The eligibility examples of the specification. *)
Lemma eligibility_examples :
  let verdict doc :=
    r ← promotion_verdict example_config (VDict doc);
    mret (r !! "eligible_for_promotion") in
  verdict (example_record "Apprentice" false) = Ok (Some (VBool true))
  /\ verdict (example_record "Apprentice" true) = Ok (Some (VBool false))
  /\ verdict (example_record "Sentinel" false) = Ok (Some (VBool false)).
Proof. repeat split; vm_compute; reflexivity. Qed.

(** C6: when the record file of the author is absent the check returns
    the "not onboarded" outcome, in which [exists] is false; for a record
    that is present the check reports [exists] true, eligible or not, so the
    two outcomes are distinct. *)
Theorem absent_record_is_not_onboarded (w : env) (cfg : config)
    (pr_author gist_pat gist_dir : str) :
  registry w !! record_filename cfg pr_author = None ->
  check_promotion_eligibility w cfg pr_author gist_pat gist_dir = Ok not_onboarded
  /\ not_onboarded !! "exists" = Some (VBool false)
  /\ (forall w' gist_pat' gist_dir' doc r,
        run_git w' (GitClone (auth_url (registry_url (gist cfg)) gist_pat') gist_dir')
          = Completed ->
        registry w' !! record_filename cfg pr_author = Some (Toml doc) ->
        check_promotion_eligibility w' cfg pr_author gist_pat' gist_dir' = Ok r ->
        r !! "exists" = Some (VBool true) /\ r <> not_onboarded).
Proof.
  intros Hf. split; [apply check_promotion_eligibility_absent, Hf|].
  split; [reflexivity|].
  intros w' gist_pat' gist_dir' doc r Hc Hd Hr.
  rewrite (check_promotion_eligibility_found _ _ _ _ _ doc Hc Hd) in Hr.
  assert (r !! "exists" = Some (VBool true)) as He.
  { unfold promotion_verdict in Hr.
    repeat (apply res_bind_ok in Hr as (? & _ & Hr)).
    cbn in Hr. injection Hr as <-. reflexivity. }
  split; [exact He|]. intros ->. discriminate He.
Qed.

Lemma absent_record_is_not_onboarded_witness :
  let w := working_world ∅ in
  let w' := working_world (<[lit "bob.toml" := Toml (example_record "Sentinel" false)]> ∅) in
  registry w !! record_filename example_config (lit "Bob") = None
  /\ check_promotion_eligibility w example_config (lit "Bob") secret (lit "/tmp/gist")
     = Ok not_onboarded
  /\ exists r,
       check_promotion_eligibility w' example_config (lit "Bob") secret (lit "/tmp/gist")
       = Ok r
       /\ r !! "eligible_for_promotion" = Some (VBool false)
       /\ r !! "exists" = Some (VBool true) /\ r <> not_onboarded.
Proof.
  intros w w'. split; [reflexivity|].
  destruct (absent_record_is_not_onboarded w example_config (lit "Bob") secret
              (lit "/tmp/gist") eq_refl) as (H1 & _ & H2).
  split; [exact H1|].
  eexists. split; [vm_compute; reflexivity|]. split; [reflexivity|].
  apply (H2 w' secret (lit "/tmp/gist") (example_record "Sentinel" false));
    vm_compute; reflexivity.
Defined.

End Eligibility.

(** ** Records that come from the manager alone *)

Section Produced.
Import Py Data World Manager Spec Example.

(** What [create_contributor] writes is a produced record. *)
Lemma create_contributor_writes_produced (w : env) (fmt : formatter) (username : str)
    (discord_id wallet : value) (pr_data : gmap string value) (m : manager) :
  only_written w m
    (fst (create_contributor w fmt username discord_id wallet pr_data m))
    (produced (mconfig m)).
Proof.
  pose proof (only_written_cloned w m (produced (mconfig m))) as Hc.
  destruct (ensure_cloned_frame w m) as [Hcfg _].
  unfold create_contributor. run_method.
  destruct (ensure_cloned w m) as [m1 [[]|e]]; cbn [fst] in *; [|exact Hc].
  destruct (fmt _ _) as [filename|e]; [|exact Hc].
  destruct (new_contributor_data _ _ _ _ _) as [doc|e] eqn:Hd; [|exact Hc].
  cbn [fst]. apply only_written_insert; [exact Hc|].
  rewrite Hcfg in Hd. eapply produced_create, Hd.
Qed.

(** Where every record of the registry and of the checkout is a produced
    one, so is every record after [add_pr_to_contributor]. *)
Lemma add_pr_keeps_produced (w : env) (fmt : formatter) (username : str)
    (pr_data : gmap string value) (m : manager) (cfg : config) :
  (forall f doc, checkout m !! f = Some (Toml doc) -> produced cfg doc) ->
  (forall f doc, registry w !! f = Some (Toml doc) -> produced cfg doc) ->
  forall f doc,
    checkout (fst (add_pr_to_contributor w fmt username pr_data m)) !! f
      = Some (Toml doc) ->
    produced cfg doc.
Proof.
  intros Hm Hw.
  assert (forall f doc, checkout (fst (ensure_cloned w m)) !! f = Some (Toml doc) ->
                        produced cfg doc) as Hc.
  { intros f doc H.
    destruct (only_written_cloned w m (fun _ => False) f doc H) as [[]|[H'|H']]; eauto. }
  unfold add_pr_to_contributor. run_method.
  destruct (ensure_cloned w m) as [m1 [[]|e]]; cbn [fst] in *; [|exact Hc].
  destruct (fmt _ _) as [filename|e]; [|exact Hc].
  destruct (checkout m1 !! filename) as [[doc0|]|] eqn:Hf; run_method; try exact Hc.
  destruct (pr_entry pr_data) as [new_pr|e] eqn:He; [|exact Hc].
  destruct (append_pr doc0 new_pr) as [doc|e] eqn:Hd; [|exact Hc].
  cbn [fst checkout]. intros f doc'. rewrite lookup_insert.
  destruct (decide (filename = f)) as [->|Hne]; [|apply Hc].
  intros [= <-]. eapply produced_append; eauto.
Qed.

Lemma produced_shape (cfg : config) (doc : gmap string value) :
  produced cfg doc ->
  doc !! "stats" = None /\ doc !! "status" = None /\ doc !! "discord" = None
  /\ exists l c,
       doc !! "pull_requests" = Some (VList l) /\ l <> []
       /\ doc !! "contributor" = Some (VDict c)
       /\ c !! "total_prs" = Some (VInt (Z.of_nat (length l))).
Proof.
  induction 1 as [username discord_id wallet pr_data doc Hd
                 |doc pr_data new_pr doc' Hp IH He Ha].
  - apply new_contributor_data_spec in Hd
      as (entry & c & _ & Hl & Hc & Ht & H1 & H2 & H3).
    split; [exact H1|]. split; [exact H2|]. split; [exact H3|].
    exists [VDict entry], c. split; [exact Hl|]. split; [discriminate|]. auto.
  - destruct IH as (H1 & H2 & H3 & _).
    pose proof (append_pr_counter _ _ _ Ha) as (l' & c' & Hl' & Hc' & Ht').
    apply append_pr_spec in Ha as (l & c & Hl & Hc & ->).
    split; [rewrite !lookup_insert_ne by discriminate; exact H1|].
    split; [rewrite !lookup_insert_ne by discriminate; exact H2|].
    split; [rewrite !lookup_insert_ne by discriminate; exact H3|].
    exists l', c'. split; [exact Hl'|]. split; [|auto].
    rewrite lookup_insert_ne, lookup_insert_eq in Hl' by discriminate.
    injection Hl' as <-. destruct l; discriminate.
Qed.

Lemma zero_below_positive (n : number) : positive n -> ge (VInt 0) n = Ok false.
Proof.
  destruct n as [z|[q|[]|]]; cbn; try tauto; try discriminate.
  - intros Hz. f_equal. unfold QArith_base.Qle_bool. cbn. apply Z.leb_gt. lia.
  - unfold QArith_base.Qlt, QArith_base.Qle_bool. cbn. intros Hq. f_equal.
    apply Z.leb_gt. lia.
Qed.

(** C2: a record that comes from [create_contributor] and
    [add_pr_to_contributor] alone has no [stats] table, and its count of
    pull requests, which is positive, is stored under [contributor]; the
    promotion check of such a record therefore reads [total_prs] = 0 and
    [avg_lines] = 0, and reports it not eligible whenever the promotion
    threshold or the minimum average is positive. *)
Theorem produced_record_never_eligible (cfg : config) (doc : gmap string value) :
  produced cfg doc ->
  doc !! "stats" = None
  /\ (exists c n, doc !! "contributor" = Some (VDict c)
                  /\ c !! "total_prs" = Some (VInt n) /\ (0 < n)%Z)
  /\ (forall w cfg' pr_author gist_pat gist_dir,
        run_git w (GitClone (auth_url (registry_url (gist cfg')) gist_pat) gist_dir)
          = Completed ->
        registry w !! Checker.record_filename cfg' pr_author = Some (Toml doc) ->
        exists r eligible,
          Checker.check_promotion_eligibility w cfg' pr_author gist_pat gist_dir = Ok r
          /\ r !! "total_prs" = Some (VInt 0)
          /\ r !! "avg_lines" = Some (VInt 0)
          /\ r !! "eligible_for_promotion" = Some (VBool eligible)
          /\ (positive (threshold (promotion cfg'))
              \/ positive (min_avg_lines (promotion cfg')) ->
              eligible = false)).
Proof.
  intros Hp.
  destruct (produced_shape cfg doc Hp) as (Hstats & Hstatus & Hdiscord & l & c & Hl & Hn & Hc & Ht).
  split; [exact Hstats|]. split.
  - exists c, (Z.of_nat (length l)). repeat split; auto.
    destruct l; [congruence|]. cbn [length]. lia.
  - intros w cfg' pr_author gist_pat gist_dir Hclone Hfile.
    assert (record_shaped doc) as Hs.
    { unfold record_shaped, table_or_absent. rewrite Hstats, Hstatus, Hdiscord. auto. }
    destruct (promotion_verdict_shaped cfg' doc Hs) as (eligible & Hv & Hiff).
    rewrite (check_promotion_eligibility_found w cfg' _ _ _ doc Hclone Hfile), Hv.
    unfold field in Hiff |- *. rewrite Hstats in Hiff |- *.
    eexists. exists eligible. split; [reflexivity|].
    repeat (split; [reflexivity|]).
    intros Hpos. destruct eligible; [|reflexivity].
    destruct Hiff as [Hiff _]. destruct (Hiff eq_refl) as (_ & _ & H1 & H2).
    unfold at_least in H1, H2.
    destruct Hpos as [Hpos|Hpos]; apply zero_below_positive in Hpos; congruence.
Qed.

Lemma produced_record_never_eligible_witness :
  let w := working_world (<[lit "alice.toml" := Toml created_record]> ∅) in
  produced example_config created_record
  /\ created_record !! "stats" = None
  /\ exists r,
       Checker.check_promotion_eligibility w example_config (lit "Alice") secret
         (lit "/tmp/gist") = Ok r
       /\ r !! "total_prs" = Some (VInt 0)
       /\ r !! "avg_lines" = Some (VInt 0)
       /\ r !! "eligible_for_promotion" = Some (VBool false).
Proof.
  intros w.
  assert (produced example_config created_record) as Hp.
  { apply (produced_create example_config (lit "Alice")
             (VStr (lit "123456789012345678"))
             (VStr (lit "0x1234567890abcdef1234567890abcdef12345678"))
             (example_pr 3)).
    reflexivity. }
  split; [exact Hp|].
  destruct (produced_record_never_eligible example_config created_record Hp)
    as (Hs & _ & H).
  split; [exact Hs|].
  destruct (H w example_config (lit "Alice") secret (lit "/tmp/gist") eq_refl eq_refl)
    as (r & eligible & Hr & Ht & Ha & He & Hpos).
  exists r. repeat (split; [assumption|]).
  rewrite He, Hpos; [reflexivity|]. left. cbn. lia.
Defined.

End Produced.

(** ** The response scanner *)

Section Scanner.
Import Py Data Utils Checker Spec Example.

Lemma truthy_dict (d : gmap string value) : truthy (VDict d) = true <-> d <> ∅.
Proof.
  cbn. rewrite negb_true_iff, bool_decide_eq_false. reflexivity.
Qed.

Lemma response_of_answer (cfg : config) (parse : parser) (pr_author : str)
    (c : comment) (parsed : gmap string value) :
  answers parse pr_author c parsed ->
  response_of cfg parse pr_author c = Some (found_response cfg parsed c).
Proof.
  intros (Hl & Hp & Hn). unfold response_of.
  rewrite bool_decide_eq_true_2 by exact Hl. rewrite Hp.
  apply truthy_dict in Hn. rewrite Hn. reflexivity.
Qed.

Lemma response_of_no_answer (cfg : config) (parse : parser) (pr_author : str)
    (c : comment) :
  no_answer parse pr_author c -> response_of cfg parse pr_author c = None.
Proof.
  intros Hn. unfold response_of.
  destruct (bool_decide_reflect (lower (user_login c) = lower pr_author)) as [Hl|];
    [|reflexivity].
  destruct (parse (body c)) as [parsed|] eqn:Hp; [|reflexivity].
  destruct (truthy (VDict parsed)) eqn:Ht; [|reflexivity].
  exfalso. apply (Hn parsed). repeat split; auto. apply truthy_dict, Ht.
Qed.

(** A comment answers for the author or it does not. *)
Lemma answers_or_not (parse : parser) (pr_author : str) (c : comment) :
  (exists parsed, answers parse pr_author c parsed) \/ no_answer parse pr_author c.
Proof.
  unfold no_answer, answers.
  destruct (decide (lower (user_login c) = lower pr_author)) as [Hl|Hl];
    [|right; intros parsed (H & _); contradiction].
  destruct (parse (body c)) as [parsed|] eqn:Hp;
    [|right; intros parsed (_ & H & _); discriminate].
  destruct (decide (parsed = ∅)) as [He|He].
  - right. intros parsed' (_ & [= <-] & H). contradiction.
  - left. exists parsed. auto.
Qed.

Lemma first_response_app (cfg : config) (parse : parser) (pr_author : str)
    (l1 l2 : list comment) :
  first_response cfg parse pr_author (l1 ++ l2)
  = match first_response cfg parse pr_author l1 with
    | Some r => Some r
    | None => first_response cfg parse pr_author l2
    end.
Proof.
  induction l1 as [|c l1 IH]; cbn [app first_response]; [reflexivity|].
  destruct (response_of cfg parse pr_author c); [reflexivity|exact IH].
Qed.

Lemma first_response_none (cfg : config) (parse : parser) (pr_author : str)
    (l : list comment) :
  Forall (no_answer parse pr_author) l -> first_response cfg parse pr_author l = None.
Proof.
  induction 1 as [|c l Hc Hl IH]; cbn [first_response]; [reflexivity|].
  rewrite response_of_no_answer by exact Hc. exact IH.
Qed.

(** The latest answer of the author is the one returned. *)
Lemma check_for_response_latest (cfg : config) (parse : parser) (pr_author : str)
    (older newer : list comment) (c : comment) (parsed : gmap string value) :
  answers parse pr_author c parsed ->
  Forall (no_answer parse pr_author) newer ->
  check_for_response_in_pr cfg parse (Ok (older ++ c :: newer)) pr_author
  = found_response cfg parsed c.
Proof.
  intros Ha Hn. unfold check_for_response_in_pr.
  rewrite rev_app_distr. cbn [rev]. rewrite <- app_assoc, first_response_app.
  rewrite first_response_none by (apply Forall_rev; exact Hn).
  cbn [app first_response]. rewrite (response_of_answer _ _ _ _ _ Ha). reflexivity.
Qed.

Lemma check_for_response_nothing (cfg : config) (parse : parser) (pr_author : str)
    (comments : list comment) :
  Forall (no_answer parse pr_author) comments ->
  check_for_response_in_pr cfg parse (Ok comments) pr_author
  = <["has_response" := VBool false]> ∅.
Proof.
  intros Hn. unfold check_for_response_in_pr.
  rewrite first_response_none by (apply Forall_rev; exact Hn). reflexivity.
Qed.

(** A thread has a latest answer of the author, or none at all. *)
Lemma latest_answer_or_none (parse : parser) (pr_author : str) (comments : list comment) :
  (exists older c newer parsed,
     comments = older ++ c :: newer
     /\ answers parse pr_author c parsed
     /\ Forall (no_answer parse pr_author) newer)
  \/ Forall (no_answer parse pr_author) comments.
Proof.
  induction comments as [|c cs IH]; [right; constructor|].
  destruct IH as [(older & c' & newer & parsed & -> & Ha & Hn)|Hn].
  - left. exists (c :: older), c', newer, parsed. auto.
  - destruct (answers_or_not parse pr_author c) as [[parsed Ha]|Hc].
    + left. exists [], c, cs, parsed. auto.
    + right. constructor; assumption.
Qed.

(** The walk of the scanner, for every parser: the result is that of the
    most recent comment that is by the author of the pull request, the case
    of the login apart, and in which the parser finds a non-empty claim;
    later comments that are by other users, or hold no claim, are passed
    over.  The result has [has_response] true, what the claim holds under
    the keys [discord_id] and [wallet_address], a validity flag for each and
    for both, and the identifier of the comment.  When no comment answers,
    the result is [has_response] false; and every thread is in one of the
    two cases. *)
Lemma check_for_response_latest_answer (cfg : config) (parse : parser)
    (pr_author : str) (comments : list comment) :
  (forall older c newer parsed,
     comments = older ++ c :: newer ->
     answers parse pr_author c parsed ->
     Forall (no_answer parse pr_author) newer ->
     let r := check_for_response_in_pr cfg parse (Ok comments) pr_author in
     let discord_id := dict_get parsed "discord_id" (VStr []) in
     let wallet_address := dict_get parsed "wallet_address" (VStr []) in
     r !! "has_response" = Some (VBool true)
     /\ r !! "comment_id" = Some (VInt (comment_id c))
     /\ r !! "discord_id" = Some discord_id
     /\ r !! "wallet_address" = Some wallet_address
     /\ r !! "discord_valid" = Some (VBool (validate_discord_id cfg discord_id))
     /\ r !! "wallet_valid" = Some (VBool (validate_wallet_address cfg wallet_address))
     /\ r !! "valid" = Some (VBool (validate_discord_id cfg discord_id
                                    && validate_wallet_address cfg wallet_address)))
  /\ (Forall (no_answer parse pr_author) comments ->
      check_for_response_in_pr cfg parse (Ok comments) pr_author
      = <["has_response" := VBool false]> ∅)
  /\ ((exists older c newer parsed,
         comments = older ++ c :: newer
         /\ answers parse pr_author c parsed
         /\ Forall (no_answer parse pr_author) newer)
      \/ Forall (no_answer parse pr_author) comments).
Proof.
  split; [|split].
  - intros older c newer parsed -> Ha Hn. cbv zeta.
    rewrite (check_for_response_latest cfg parse pr_author older newer c parsed Ha Hn).
    unfold found_response. repeat split; reflexivity.
  - apply check_for_response_nothing.
  - apply latest_answer_or_none.
Qed.

Lemma check_for_response_latest_answer_witness :
  let r := check_for_response_in_pr example_config example_parser
             (Ok example_thread) (lit "ALICE") in
  r !! "has_response" = Some (VBool true)
  /\ r !! "comment_id" = Some (VInt 102)
  /\ r !! "discord_id" = Some (VStr (lit "123456789012345678"))
  /\ r !! "valid" = Some (VBool true).
Proof.
  pose (c := {| comment_id := 102; user_login := lit "Alice"; body := lit "second" |}).
  pose (parsed := <["discord_id" := VStr (lit "123456789012345678")]>
                  (<["wallet_address" :=
                       VStr (lit "0x1234567890abcdef1234567890abcdef12345678")]> ∅)
                  : gmap string value).
  destruct (check_for_response_latest_answer example_config example_parser
              (lit "ALICE") example_thread) as (H & _ & _).
  destruct (H [ {| comment_id := 101; user_login := lit "alice"; body := lit "first" |} ]
              c
              [ {| comment_id := 103; user_login := lit "mallory"; body := lit "second" |} ]
              parsed)
    as (H1 & H2 & H3 & _ & _ & _ & H7).
  - reflexivity.
  - repeat split; try reflexivity. vm_compute. discriminate.
  - constructor; [|constructor]. intros p (Hl & _). vm_compute in Hl. discriminate.
  - cbv zeta. repeat split; assumption.
Defined.

(** With the parser that [utils] defines, whose claim has the keys
    [discord_id] and [wallet], the scanner finds no [wallet_address]: the
    value it reports is empty and its flag is false. *)
Lemma scanner_with_parse_contributor_comment (cfg : config) (c : comment)
    (parsed : gmap string value) :
  parse_contributor_comment (body c) = Some parsed ->
  found_response cfg parsed c !! "wallet_address" = Some (VStr [])
  /\ found_response cfg parsed c !! "wallet_valid" = Some (VBool false)
  /\ found_response cfg parsed c !! "valid" = Some (VBool false).
Proof.
  unfold parse_contributor_comment.
  destruct (Regex.search discord_pattern (body c)) as [d|]; [|discriminate].
  destruct (Regex.search wallet_pattern (body c)) as [w|]; [|discriminate].
  intros [= <-]. unfold found_response.
  assert (dict_get (<["discord_id" := VStr d]> (<["wallet" := VStr w]> ∅))
            "wallet_address" (VStr []) = VStr []) as E by reflexivity.
  rewrite !E. cbn [validate_wallet_address truthy negb]. rewrite andb_false_r.
  repeat split; reflexivity.
Qed.

(** C5 fails for the wallet.  The scanner calls a parser that [utils] does
    not define; run with the parser [utils] does define, the one of the
    comment format, it walks the thread as the claim says (the latest
    answer of the author, comment 102, is the one reported, and the later
    answer of another user is skipped), but the result does not carry the
    wallet that was extracted: the parser returns it under the key [wallet],
    the scanner reads the key [wallet_address], so the reported wallet is
    empty, its flag is false and the response is never valid, although the
    extracted address passes the validator. *)
Theorem check_for_response_loses_wallet :
  let address := lit "0x1234567890abcdef1234567890abcdef12345678" in
  let answer :=
    lit "discord: 123456789012345678 wallet: 0x1234567890abcdef1234567890abcdef12345678" in
  let r := check_for_response_in_pr example_config parse_contributor_comment
             (Ok answer_thread) (lit "ALICE") in
  parse_contributor_comment answer
    = Some (<["discord_id" := VStr (lit "123456789012345678")]>
           (<["wallet" := VStr address]> ∅))
  /\ validate_wallet_address example_config (VStr address) = true
  /\ r !! "has_response" = Some (VBool true)
  /\ r !! "comment_id" = Some (VInt 102)
  /\ r !! "discord_id" = Some (VStr (lit "123456789012345678"))
  /\ r !! "discord_valid" = Some (VBool true)
  /\ r !! "wallet_address" = Some (VStr [])
  /\ r !! "wallet_valid" = Some (VBool false)
  /\ r !! "valid" = Some (VBool false).
Proof.
  cbv zeta.
  split; [vm_compute; reflexivity|]. split; [vm_compute; reflexivity|].
  pose (c := {| comment_id := 102; user_login := lit "Alice";
                body := lit "discord: 123456789012345678 wallet: 0x1234567890abcdef1234567890abcdef12345678" |}).
  pose (parsed := <["discord_id" := VStr (lit "123456789012345678")]>
                  (<["wallet" := VStr (lit "0x1234567890abcdef1234567890abcdef12345678")]> ∅)
                  : gmap string value).
  assert (parse_contributor_comment (body c) = Some parsed) as Hp
    by (vm_compute; reflexivity).
  assert (check_for_response_in_pr example_config parse_contributor_comment
            (Ok answer_thread) (lit "ALICE") = found_response example_config parsed c)
    as ->.
  { apply (check_for_response_latest example_config parse_contributor_comment (lit "ALICE")
             [ {| comment_id := 101; user_login := lit "alice";
                  body := lit "discord: 111111111111111111 wallet: 0x1111111111111111111111111111111111111111" |} ]
             [ {| comment_id := 103; user_login := lit "mallory";
                  body := lit "discord: 999999999999999999 wallet: 0x9999999999999999999999999999999999999999" |} ]
             c parsed).
    - split; [reflexivity|]. split; [exact Hp|]. vm_compute. discriminate.
    - constructor; [|constructor]. intros q (Hl & _). vm_compute in Hl. discriminate. }
  destruct (scanner_with_parse_contributor_comment example_config c parsed Hp)
    as (H1 & H2 & H3).
  split; [reflexivity|]. split; [reflexivity|].
  split; [vm_compute; reflexivity|]. split; [vm_compute; reflexivity|].
  split; [exact H1|]. split; [exact H2|exact H3].
Qed.

End Scanner.

(* ===================================================================== *)
(** * Part III: further properties of the scripts                         *)
(* ===================================================================== *)

(** ** [sanitize_filename]: what a record file name can be *)

Section SanitizeMore.
Import Py Data Utils Spec Example.

Lemma kept_path_safe (c : ascii) :
  kept c = true ->
  negb (in_chars (lit "/\.") c) && negb (isspace c) && negb (is_code 0 c) = true.
Proof. each_char c. Qed.

Lemma kept_lower_same (c : ascii) : kept (lower_char c) = kept c.
Proof. each_char c. Qed.

Lemma sanitize_app (u v : str) :
  sanitize_filename (u ++ v) = sanitize_filename u ++ sanitize_filename v.
Proof.
  unfold sanitize_filename, lower. rewrite List.filter_app, map_app. reflexivity.
Qed.

Lemma sanitize_dropped (w : str) : none_of kept w = true -> sanitize_filename w = [].
Proof.
  unfold sanitize_filename, none_of. fold kept.
  induction w as [|c w IH]; cbn [forallb List.filter]; [reflexivity|].
  intros H. apply andb_true_iff in H as [Hc Hw]. apply negb_true_iff in Hc.
  rewrite Hc. apply IH, Hw.
Qed.

(** On the range of the model, where [str.lower] maps one character to
    one, lowering a username first does not change its sanitized name. *)
Lemma sanitize_lower (u : str) : sanitize_filename (lower u) = sanitize_filename u.
Proof.
  unfold sanitize_filename. fold kept.
  induction u as [|c u IH]; [reflexivity|].
  cbn [lower map List.filter]. rewrite kept_lower_same.
  destruct (kept c); [|exact IH].
  cbn [lower map] in *. rewrite lower_char_idem. f_equal. exact IH.
Qed.

(** Whatever the username, the sanitized name has no slash, backslash,
    dot, NUL or white space, and no upper-case letter: it cannot leave the
    directory of the checkout nor name a hidden file. *)
Theorem sanitize_filename_stays_in_directory (u : str) :
  forallb (fun c => negb (in_chars (lit "/\.") c) && negb (isspace c)
                    && negb (is_code 0 c) && Ascii.eqb (lower_char c) c)
          (sanitize_filename u) = true.
Proof.
  rewrite forallb_forall. intros c Hc.
  pose proof (sanitize_kept u) as Hk. rewrite forallb_forall in Hk.
  rewrite (kept_path_safe c (Hk c Hc)). cbn [andb].
  unfold sanitize_filename, lower in Hc.
  apply in_map_iff in Hc as (c0 & <- & _).
  rewrite lower_char_idem. apply Ascii.eqb_refl.
Qed.

(** Two usernames of ASCII characters that differ only by the case of
    their letters, or by characters that are neither alphanumeric nor [-]
    nor [_], have the same sanitized name and so the same record file. *)
Theorem sanitize_filename_collisions (u v w : str) (cfg : config) :
  forallb is_ascii (u ++ w ++ v) = true ->
  none_of kept w = true ->
  sanitize_filename (u ++ w ++ v) = sanitize_filename (u ++ v)
  /\ sanitize_filename (lower (u ++ w ++ v)) = sanitize_filename (u ++ v)
  /\ Checker.record_filename cfg (lower (u ++ w ++ v))
     = Checker.record_filename cfg (u ++ v).
Proof.
  intros _ Hw.
  assert (sanitize_filename (u ++ w ++ v) = sanitize_filename (u ++ v)) as E.
  { rewrite !sanitize_app, (sanitize_dropped w Hw). reflexivity. }
  assert (sanitize_filename (lower (u ++ w ++ v)) = sanitize_filename (u ++ v)) as E'.
  { rewrite sanitize_lower. exact E. }
  split; [exact E|]. split; [exact E'|].
  unfold Checker.record_filename. rewrite E'. reflexivity.
Qed.

Lemma sanitize_filename_collisions_witness :
  forallb is_ascii (lit "Al" ++ lit "!." ++ lit "ice") = true
  /\ none_of kept (lit "!.") = true
  /\ sanitize_filename (lit "Al" ++ lit "!." ++ lit "ice") = sanitize_filename (lit "Alice")
  /\ Checker.record_filename example_config (lit "al!.ice") = lit "alice.toml".
Proof.
  split; [reflexivity|]. split; [reflexivity|].
  destruct (sanitize_filename_collisions (lit "Al") (lit "ice") (lit "!.")
              example_config eq_refl eq_refl) as (H1 & _ & H3).
  split; [exact H1|]. exact H3.
Defined.

End SanitizeMore.

(** ** [parse_contributor_comment] and the validators together *)

Section ParserMore.
Import Py Data Regex Utils Spec Example.

Lemma decimal_facts (c : ascii) :
  isdecimal c = true ->
  isdigit c = true /\ isspace c = false /\ is_quote c = false
  /\ in_chars [dquote] c = false /\ in_chars [squote] c = false.
Proof. each_char c. Qed.

(** A run of 17 to 20 decimal digits passes [validate_discord_id] when the
    configured bounds allow its length. *)
Lemma validate_discord_id_digits (cfg : config) (d : str) :
  forallb isdecimal d = true -> d <> [] ->
  (discord_id_min_length (onboarding cfg) <= Z.of_nat (length d)
   <= discord_id_max_length (onboarding cfg))%Z ->
  validate_discord_id cfg (VStr d) = true.
Proof.
  intros Hd Hn Hlen.
  assert (Utils.unquote d = d) as Hu.
  { apply unquote_clean; apply (none_of_weaken _ isdecimal); auto;
      intros c Hc; apply decimal_facts in Hc; tauto. }
  apply validate_discord_id_unfold. rewrite Hu.
  repeat split; try tauto.
  rewrite forallb_forall in *. intros c Hc. apply decimal_facts, Hd, Hc.
Qed.

(** Every claim the parser returns passes both validators, for a
    configuration whose bounds admit 17 to 20 digits and whose wallet shape
    is [0x] and 42 characters. *)
Theorem parsed_claim_passes_validators (cfg : config) (body : str)
    (claim : gmap string value) :
  (discord_id_min_length (onboarding cfg) <= 17)%Z ->
  (20 <= discord_id_max_length (onboarding cfg))%Z ->
  wallet_prefix (onboarding cfg) = lit "0x" ->
  wallet_length (onboarding cfg) = 42%Z ->
  parse_contributor_comment body = Some claim ->
  validate_discord_id cfg (dict_get claim "discord_id" (VStr [])) = true
  /\ validate_wallet_address cfg (dict_get claim "wallet" (VStr [])) = true.
Proof.
  intros Hmin Hmax Hp Hl. unfold parse_contributor_comment.
  destruct (search discord_pattern body) as [d|] eqn:Ed; [|discriminate].
  destruct (search wallet_pattern body) as [w|] eqn:Ew; [|discriminate].
  intros [= <-].
  apply search_discord_sound in Ed
    as (_ & _ & _ & _ & _ & _ & _ & _ & _ & _ & _ & Hd & Hlen).
  apply search_wallet_sound in Ew
    as (_ & _ & _ & _ & _ & _ & _ & _ & _ & _ & _ & zx & hs & -> & Hzx & Hhs & Hh).
  split.
  - change (validate_discord_id cfg (VStr d) = true).
    apply validate_discord_id_digits; [exact Hd| |lia].
    intros ->. simpl in Hlen. lia.
  - change (validate_wallet_address cfg (VStr (zx ++ hs)) = true).
    destruct zx as [|z [|x [|y zx]]]; try discriminate Hzx.
    cbn in Hzx. injection Hzx as Hz Hx.
    assert (z = "0"%char) as -> by (revert Hz; each_char z).
    assert (x = "x"%char \/ x = "X"%char) as Hx' by (revert Hx; each_char x).
    apply validate_wallet_address_canonical; auto.
Qed.

Lemma parsed_claim_passes_validators_witness :
  let body := lit "wallet: 0X1234567890abcdef1234567890abcdef12345678 discord: 12345678901234567" in
  exists claim,
    parse_contributor_comment body = Some claim
    /\ validate_discord_id example_config (dict_get claim "discord_id" (VStr [])) = true
    /\ validate_wallet_address example_config (dict_get claim "wallet" (VStr [])) = true.
Proof.
  intros body.
  destruct (parse_contributor_comment body) as [claim|] eqn:E;
    [|vm_compute in E; discriminate E].
  exists claim. split; [reflexivity|].
  apply (parsed_claim_passes_validators example_config body claim);
    [vm_compute; discriminate|vm_compute; discriminate|reflexivity|reflexivity|exact E].
Defined.

Lemma has_discord_claim_embedded (pre body post d : str) :
  has_discord_claim body d -> has_discord_claim (pre ++ body ++ post) d.
Proof.
  intros (p & lab & ws & q & q' & rest & -> & H).
  exists (pre ++ p), lab, ws, q, q', (rest ++ post). split; [|exact H].
  repeat rewrite <- app_assoc. reflexivity.
Qed.

Lemma has_wallet_claim_embedded (pre body post w : str) :
  has_wallet_claim body w -> has_wallet_claim (pre ++ body ++ post) w.
Proof.
  intros (p & lab & ws & q & q' & rest & -> & H).
  exists (pre ++ p), lab, ws, q, q', (rest ++ post). split; [|exact H].
  repeat rewrite <- app_assoc. reflexivity.
Qed.

(** A comment in which the parser finds a claim still gives a claim when
    other text is put before and after it. *)
Theorem parse_contributor_comment_embedded (pre body post : str) :
  is_Some (parse_contributor_comment body) ->
  is_Some (parse_contributor_comment (pre ++ body ++ post)).
Proof.
  unfold parse_contributor_comment.
  destruct (search discord_pattern body) as [d|] eqn:Ed; [|intros [? [=]]].
  destruct (search wallet_pattern body) as [w|] eqn:Ew; [|intros [? [=]]].
  intros _.
  apply search_discord_sound, (has_discord_claim_embedded pre _ post),
    search_discord_complete in Ed as [d' ->].
  apply search_wallet_sound, (has_wallet_claim_embedded pre _ post),
    search_wallet_complete in Ew as [w' ->].
  eauto.
Qed.

Lemma parse_contributor_comment_embedded_witness :
  is_Some (parse_contributor_comment
             (lit "Hi! " ++
              lit "discord: 123456789012345678 wallet: 0x1234567890abcdef1234567890abcdef12345678"
              ++ lit " Thanks.")).
Proof.
  apply parse_contributor_comment_embedded. vm_compute. eauto.
Defined.

End ParserMore.

(** ** The greedy match: an id of more than 20 digits *)

Section GreedyMatch.
Import Py Data Regex Utils Spec Example.

Lemma backtrack_greedy {A} (f : nat -> option A) (low n : nat) (r : A) :
  low <= n -> f n = Some r -> backtrack f low n = Some (n, r).
Proof.
  intros Hl Hf. destruct n as [|n]; cbn [backtrack].
  - destruct (Nat.ltb_spec 0 low); [lia|]. rewrite Hf. reflexivity.
  - destruct (Nat.ltb_spec (S n) low); [lia|]. rewrite Hf. reflexivity.
Qed.

Lemma run_length_zero (p : ascii -> bool) (s : str) : run_length p (Some 0) s = 0.
Proof. destruct s; reflexivity. Qed.

(** A run ends at the first character outside the class. *)
Lemma run_length_stop (p : ascii -> bool) (cap : option nat) (a s : str) :
  forallb p a = true ->
  match s with [] => True | c :: _ => p c = false end ->
  (forall n, cap = Some n -> length a <= n) ->
  run_length p cap (a ++ s) = length a.
Proof.
  revert cap. induction a as [|c a IH]; intros cap Ha Hs Hcap.
  - cbn [app length]. destruct s as [|c s]; [reflexivity|].
    cbn [run_length]. rewrite Hs. destruct cap as [[|n]|]; reflexivity.
  - cbn [forallb] in Ha. apply andb_true_iff in Ha as [Hc Ha].
    cbn [app run_length length]. destruct cap as [[|n]|].
    + specialize (Hcap 0 eq_refl). simpl in Hcap. lia.
    + rewrite Hc. f_equal. apply IH; auto. cbn. intros m [= <-].
      specialize (Hcap (S n) eq_refl). simpl in Hcap. lia.
    + rewrite Hc. f_equal. apply IH; auto. cbn. discriminate.
Qed.

(** A run ends when it has reached the upper bound. *)
Lemma run_length_capped (p : ascii -> bool) (a s : str) :
  forallb p a = true -> run_length p (Some (length a)) (a ++ s) = length a.
Proof.
  induction a as [|c a IH]; intros Ha.
  - apply run_length_zero.
  - cbn [forallb] in Ha. apply andb_true_iff in Ha as [Hc Ha].
    cbn [app run_length length]. rewrite Hc. f_equal. apply IH, Ha.
Qed.

(** An item that takes the longest run, when the rest matches after it. *)
Lemma match_here_greedy (it : item) (its : list item) (a s : str) (ps : list str) :
  forallb (cls it) a = true -> lo it <= length a ->
  run_length (cls it) (hi it) (a ++ s) = length a ->
  match_here its s = Some ps ->
  match_here (it :: its) (a ++ s) = Some (a :: ps).
Proof.
  intros Ha Hlo Hrun Hm. cbn [match_here]. rewrite Hrun.
  rewrite (backtrack_greedy _ _ _ ps); [| exact Hlo | rewrite drop_app_length; exact Hm].
  rewrite take_app_length. reflexivity.
Qed.

Lemma match_here_literal (l lab : str) (its : list item) (s : str) (ps : list str) :
  lower lab = lower l ->
  match_here its s = Some ps ->
  match_here (map char_ci l ++ its) (lab ++ s) = Some (map (fun x => [x]) lab ++ ps).
Proof.
  revert lab. induction l as [|c l IH]; intros lab Hl Hm.
  - destruct lab; [exact Hm|discriminate].
  - destruct lab as [|x lab]; [discriminate|].
    cbn in Hl. injection Hl as Hx Hl.
    cbn [map app].
    apply (match_here_greedy (char_ci c) _ [x] (lab ++ s)).
    + cbn. rewrite Hx, Ascii.eqb_refl. reflexivity.
    + cbn. lia.
    + cbn [app run_length char_ci cls hi]. rewrite Hx, Ascii.eqb_refl.
      cbn. rewrite run_length_zero. reflexivity.
    + apply IH; assumption.
Qed.

(** The last item of both patterns, an optional quote, always matches. *)
Lemma match_here_optional_last (p : ascii -> bool) (s : str) :
  exists q, match_here [opt p] s = Some [q].
Proof.
  cbn [match_here]. eexists.
  rewrite (backtrack_greedy _ _ _ []); [reflexivity|cbn; lia|reflexivity].
Qed.

Lemma search_items_here (its : list item) (s : str) (ps : list str) :
  match_here its s = Some ps -> search_items its s = Some ps.
Proof. intros H. destruct s; cbn [search_items]; rewrite H; reflexivity. Qed.

(** After the label, a run of more than 20 digits is not rejected: the id
    the parser reports is its first 20 digits. *)
Theorem discord_id_cut_at_20_digits (lab ws ds rest : str) :
  lower lab = lit "discord:" ->
  forallb isspace ws = true ->
  forallb isdecimal ds = true ->
  20 <= length ds ->
  search discord_pattern (lab ++ ws ++ ds ++ rest) = Some (firstn 20 ds)
  /\ (forall w,
        search wallet_pattern (lab ++ ws ++ ds ++ rest) = Some w ->
        parse_contributor_comment (lab ++ ws ++ ds ++ rest)
        = Some (<["discord_id" := VStr (firstn 20 ds)]> (<["wallet" := VStr w]> ∅))).
Proof.
  intros Hl Hws Hds Hlen.
  assert (search discord_pattern (lab ++ ws ++ ds ++ rest) = Some (firstn 20 ds)) as E.
  { set (d := firstn 20 ds). set (more := skipn 20 ds).
    assert (ds = d ++ more) as Hsplit by (symmetry; apply firstn_skipn).
    assert (length d = 20) as Hd20 by (unfold d; rewrite length_firstn; lia).
    assert (forallb isdecimal d = true) as Hd.
    { rewrite Hsplit in Hds. apply forallb_app_true in Hds. tauto. }
    assert (match ds ++ rest with [] => True | c :: _ => isspace c = false end
            /\ match ds ++ rest with [] => True | c :: _ => is_quote c = false end)
      as [Hhead Hheadq].
    { destruct ds as [|c ds']; [simpl in Hlen; lia|].
      cbn [forallb] in Hds. apply andb_true_iff in Hds as [Hc _].
      apply decimal_facts in Hc. cbn. tauto. }
    destruct (match_here_optional_last is_quote (more ++ rest)) as [q' Hq'].
    unfold search.
    assert (match_here (items discord_pattern) (lab ++ ws ++ ds ++ rest)
            = Some (map (fun x => [x]) lab ++ [ws; []; d; q'])) as Hm.
    { cbn [items discord_pattern]. unfold lit_ci.
      apply match_here_literal; [rewrite Hl; reflexivity|].
      apply (match_here_greedy (star isspace)); [exact Hws|cbn; lia| |].
      { apply run_length_stop; [exact Hws|exact Hhead|discriminate]. }
      apply (match_here_greedy (opt is_quote) _ [] (ds ++ rest));
        [reflexivity|cbn; lia| |].
      { apply (run_length_stop is_quote (Some 1) [] (ds ++ rest));
          [reflexivity|exact Hheadq|cbn; lia]. }
      rewrite Hsplit, <- app_assoc.
      apply (match_here_greedy (rep isdecimal 17 20)); [exact Hd|cbn; lia| |exact Hq'].
      cbn [rep cls hi]. rewrite <- Hd20. apply run_length_capped, Hd. }
    rewrite (search_items_here _ _ _ Hm). cbn [fmap option_fmap option_map].
    rewrite discord_group by exact Hl. reflexivity. }
  split; [exact E|].
  intros w Hw. unfold parse_contributor_comment. rewrite E, Hw. reflexivity.
Qed.

Lemma discord_id_cut_at_20_digits_witness :
  search discord_pattern (lit "Discord:" ++ lit " " ++ lit "1234567890123456789012345" ++ lit "!")
  = Some (lit "12345678901234567890")
  /\ validate_discord_id example_config (VStr (lit "1234567890123456789012345")) = false.
Proof.
  split; [|reflexivity].
  apply (discord_id_cut_at_20_digits (lit "Discord:") (lit " ")
           (lit "1234567890123456789012345") (lit "!"));
    [reflexivity|reflexivity|reflexivity|vm_compute; lia].
Defined.

End GreedyMatch.

(** ** The manager: one clone per session, and how its methods compose *)

Section ManagerSession.
Import Py Data World Utils Manager Spec Example.

Lemma path_join_repo_dir (dir : str) :
  truthy (VStr (path_join dir (lit "contributor_gist_repo"))) = true.
Proof.
  unfold path_join. cbn [startswith lit list_ascii_of_string].
  assert (forall a b : str, b <> [] -> truthy (VStr (a ++ b)) = true) as H.
  { intros a b Hb. destruct a; [destruct b; [congruence|reflexivity]|reflexivity]. }
  cbn. destruct (rev dir) as [|c r]; [reflexivity|].
  destruct (Ascii.eqb c "/"); apply H; discriminate.
Qed.

(** After a successful [ensure_cloned] the directory is set. *)
Lemma ensure_cloned_dir (w : env) (m : manager) :
  snd (ensure_cloned w m) = Ok tt ->
  exists d, repo_dir (fst (ensure_cloned w m)) = Some d /\ truthy (VStr d) = true.
Proof.
  unfold ensure_cloned, clone_gist. run_method.
  destruct (repo_dir m) as [d|] eqn:Hd.
  - destruct (truthy (VStr d)) eqn:Ht.
    + cbn. intros _. eauto.
    + destruct (run_git w _); cbn; try discriminate. intros _.
      eexists. split; [reflexivity|apply path_join_repo_dir].
  - destruct (run_git w _); cbn; try discriminate. intros _.
    eexists. split; [reflexivity|apply path_join_repo_dir].
Qed.

(** A manager that holds a checkout does not clone again: whatever the
    registry has become, the later methods of the session work on the
    checkout of the first clone. *)
Theorem ensure_cloned_once (w w' : env) (fmt : formatter) (username : str) (m : manager) :
  snd (ensure_cloned w m) = Ok tt ->
  let m1 := fst (ensure_cloned w m) in
  ensure_cloned w' m1 = (m1, Ok tt)
  /\ (forall filename,
        fmt (contributor_file_pattern (gist (mconfig m1))) (sanitize_filename username)
          = Ok filename ->
        contributor_exists w' fmt username m1
        = (m1, Ok (bool_decide (is_Some (checkout m1 !! filename))))).
Proof.
  intros Hc m1. destruct (ensure_cloned_dir w m Hc) as (d & Hd & Ht). fold m1 in Hd.
  assert (ensure_cloned w' m1 = (m1, Ok tt)) as E.
  { unfold ensure_cloned. run_method. rewrite Hd, Ht. reflexivity. }
  split; [exact E|].
  intros filename Hf. unfold contributor_exists. run_method.
  rewrite E. cbn [fst snd]. rewrite Hf. reflexivity.
Qed.

Lemma ensure_cloned_once_witness :
  let w := working_world (<[lit "alice.toml" := Toml created_record]> ∅) in
  let m1 := fst (ensure_cloned w fresh_manager) in
  snd (ensure_cloned w fresh_manager) = Ok tt
  /\ contributor_exists (working_world ∅) simple_format (lit "Alice") m1 = (m1, Ok true).
Proof.
  intros w m1. split; [reflexivity|].
  destruct (ensure_cloned_once w (working_world ∅) simple_format (lit "Alice")
              fresh_manager eq_refl) as [_ H].
  apply (H (lit "alice.toml")). reflexivity.
Defined.

(** The run of [create_contributor] once the registry is cloned and the
    document is built: the file is written, then published. *)
Lemma create_contributor_run (w : env) (fmt : formatter) (username : str)
    (discord_id wallet : value) (pr_data doc : gmap string value)
    (m : manager) (filename : str) :
  snd (ensure_cloned w m) = Ok tt ->
  fmt (contributor_file_pattern (gist (mconfig m))) (sanitize_filename username)
    = Ok filename ->
  new_contributor_data (mconfig m) username discord_id wallet pr_data = Ok doc ->
  let m1 := fst (ensure_cloned w m) in
  create_contributor w fmt username discord_id wallet pr_data m
  = commit_and_push w filename (AddContributor username)
      {| gist_pat := gist_pat m1; mconfig := mconfig m1; repo_dir := repo_dir m1;
         checkout := <[filename := Toml doc]> (checkout m1) |}.
Proof.
  intros Hc Hf Hd m1. subst m1.
  destruct (ensure_cloned_frame w m) as [Hcfg _].
  unfold create_contributor. run_method.
  destruct (ensure_cloned w m) as [m1 r]. cbn [fst snd] in *. subst r.
  rewrite Hcfg, Hf, Hd. reflexivity.
Qed.

Lemma commit_and_push_state (w : env) (filename : str) (msg : commit_message)
    (m : manager) :
  fst (commit_and_push w filename msg m) = m.
Proof. unfold commit_and_push. run_method. reflexivity. Qed.

Lemma new_contributor_data_ok (cfg : config) (username : str)
    (discord_id wallet : value) (pr_data entry : gmap string value) :
  pr_entry pr_data = Ok entry ->
  exists doc c,
    new_contributor_data cfg username discord_id wallet pr_data = Ok doc
    /\ doc !! "pull_requests" = Some (VList [VDict entry])
    /\ doc !! "contributor" = Some (VDict c).
Proof.
  intros He. unfold new_contributor_data. rewrite He. cbn.
  eexists. eexists. split; [reflexivity|]. split; reflexivity.
Qed.

(** A contributor that was created exists: in the same session
    [contributor_exists] answers [True] for the username, and for every
    username with the same sanitized name, whether or not the push
    succeeded and whatever the registry holds. *)
Theorem created_contributor_exists (w w' : env) (fmt : formatter)
    (username username' : str) (discord_id wallet : value)
    (pr_data entry : gmap string value) (m : manager) (filename : str) :
  snd (ensure_cloned w m) = Ok tt ->
  fmt (contributor_file_pattern (gist (mconfig m))) (sanitize_filename username)
    = Ok filename ->
  pr_entry pr_data = Ok entry ->
  sanitize_filename username' = sanitize_filename username ->
  let m' := fst (create_contributor w fmt username discord_id wallet pr_data m) in
  contributor_exists w' fmt username' m' = (m', Ok true).
Proof.
  intros Hc Hf He Hu m'.
  destruct (new_contributor_data_ok (mconfig m) username discord_id wallet _ _ He)
    as (doc & c & Hd & _).
  destruct (ensure_cloned_frame w m) as [Hcfg _].
  destruct (ensure_cloned_dir w m Hc) as (d & Hdir & Ht).
  subst m'. rewrite (create_contributor_run w fmt _ _ _ _ doc m filename Hc Hf Hd).
  rewrite commit_and_push_state. cbv zeta.
  generalize dependent (fst (ensure_cloned w m)). intros m1 Hcfg Hdir.
  unfold contributor_exists, ensure_cloned. run_method.
  rewrite Hdir, Ht. cbn [mconfig checkout]. rewrite Hcfg, Hu, Hf.
  rewrite lookup_insert_eq. reflexivity.
Qed.

Lemma created_contributor_exists_witness :
  let m' := fst (create_contributor (working_world ∅) simple_format (lit "Alice")
                   (VStr (lit "1")) (VStr (lit "0x")) (example_pr 3) fresh_manager) in
  contributor_exists rejecting_world simple_format (lit "alice!") m' = (m', Ok true).
Proof.
  apply (created_contributor_exists (working_world ∅) rejecting_world simple_format
           (lit "Alice") (lit "alice!") (VStr (lit "1")) (VStr (lit "0x"))
           (example_pr 3) (example_entry 3) fresh_manager (lit "alice.toml"));
    reflexivity.
Defined.

End ManagerSession.

(** ** The manager: publishing, and what a mutation leaves alone *)

Section ManagerPublish.
Import Py Data World Utils Manager Spec Example.

(** Creating a contributor and then adding a pull request, in one
    session, gives a record with the two entries in order and the counter
    2, whether or not the first push succeeded. *)
Theorem create_then_add_pr (w w' : env) (fmt : formatter) (username : str)
    (discord_id wallet : value) (pr1 pr2 entry1 entry2 : gmap string value)
    (m : manager) (filename : str) :
  snd (ensure_cloned w m) = Ok tt ->
  fmt (contributor_file_pattern (gist (mconfig m))) (sanitize_filename username)
    = Ok filename ->
  pr_entry pr1 = Ok entry1 ->
  pr_entry pr2 = Ok entry2 ->
  let m' := fst (create_contributor w fmt username discord_id wallet pr1 m) in
  exists doc c,
    checkout (fst (add_pr_to_contributor w' fmt username pr2 m')) !! filename
      = Some (Toml doc)
    /\ doc !! "pull_requests" = Some (VList [VDict entry1; VDict entry2])
    /\ doc !! "contributor" = Some (VDict c)
    /\ c !! "total_prs" = Some (VInt 2).
Proof.
  intros Hc Hf He1 He2 m'.
  destruct (new_contributor_data_ok (mconfig m) username discord_id wallet _ _ He1)
    as (doc1 & c1 & Hd & Hp1 & Hc1).
  destruct (ensure_cloned_frame w m) as [Hcfg _].
  destruct (ensure_cloned_dir w m Hc) as (d & Hdir & Ht).
  subst m'. rewrite (create_contributor_run w fmt _ _ _ _ doc1 m filename Hc Hf Hd).
  rewrite commit_and_push_state. cbv zeta.
  generalize dependent (fst (ensure_cloned w m)). intros m1 Hcfg Hdir.
  set (m2 := {| gist_pat := gist_pat m1; mconfig := mconfig m1; repo_dir := repo_dir m1;
                checkout := <[filename := Toml doc1]> (checkout m1) |}).
  assert (ensure_cloned w' m2 = (m2, Ok tt)) as E.
  { unfold ensure_cloned, m2. run_method. rewrite Hdir, Ht. reflexivity. }
  destruct (add_pr_writes w' fmt username pr2 entry2 m2 filename doc1 [VDict entry1] c1)
    as (doc & c & H1 & H2 & H3 & H4 & _).
  - rewrite E. reflexivity.
  - cbn [m2 mconfig]. rewrite Hcfg. exact Hf.
  - rewrite E. cbn [fst m2 checkout]. apply lookup_insert_eq.
  - exact Hp1.
  - exact Hc1.
  - exact He2.
  - exists doc, c. auto.
Qed.

Lemma create_then_add_pr_witness :
  let m' := fst (create_contributor rejecting_world simple_format (lit "Alice")
                   (VStr (lit "1")) (VStr (lit "0x")) (example_pr 3)
                   (fst (ensure_cloned (working_world ∅) fresh_manager))) in
  exists doc c,
    checkout (fst (add_pr_to_contributor (working_world ∅) simple_format (lit "Alice")
                     (example_pr 8) m')) !! lit "alice.toml" = Some (Toml doc)
    /\ doc !! "pull_requests" = Some (VList [VDict (example_entry 3); VDict (example_entry 8)])
    /\ doc !! "contributor" = Some (VDict c)
    /\ c !! "total_prs" = Some (VInt 2).
Proof.
  apply (create_then_add_pr rejecting_world (working_world ∅) simple_format (lit "Alice")
           (VStr (lit "1")) (VStr (lit "0x")) (example_pr 3) (example_pr 8));
    reflexivity.
Defined.

(** The result of the three [git] calls after a write. *)
Lemma commit_and_push_result (w : env) (filename : str) (msg : commit_message)
    (m : manager) :
  let dir := default [] (repo_dir m) in
  (snd (commit_and_push w filename msg m) = Ok true <->
   run_git w (GitAdd dir filename) = Completed
   /\ run_git w (GitCommit dir msg) = Completed
   /\ run_git w (GitPush dir) = Completed)
  /\ (forall stderr,
        run_git w (GitAdd dir filename) = Completed ->
        run_git w (GitCommit dir msg) = Completed ->
        run_git w (GitPush dir) = CalledProcessError stderr ->
        snd (commit_and_push w filename msg m) = Ok false).
Proof.
  unfold commit_and_push. run_method. cbv zeta. split.
  - destruct (run_git w (GitAdd _ _)); [|split; [discriminate|intros (H & _); discriminate]..].
    destruct (run_git w (GitCommit _ _));
      [|split; [discriminate|intros (_ & H & _); discriminate]..].
    destruct (run_git w (GitPush _));
      [tauto|split; [discriminate|intros (_ & _ & H); discriminate]..].
  - intros stderr -> -> ->. reflexivity.
Qed.

(** [create_contributor] returns [True] exactly when [git add], [git
    commit] and [git push] all succeeded; when the push is rejected it
    returns [False] and the record stays written in the checkout, not
    published. *)
Theorem create_contributor_true_iff_pushed (w : env) (fmt : formatter) (username : str)
    (discord_id wallet : value) (pr_data entry : gmap string value)
    (m : manager) (filename : str) :
  snd (ensure_cloned w m) = Ok tt ->
  fmt (contributor_file_pattern (gist (mconfig m))) (sanitize_filename username)
    = Ok filename ->
  pr_entry pr_data = Ok entry ->
  let dir := default [] (repo_dir (fst (ensure_cloned w m))) in
  let run := create_contributor w fmt username discord_id wallet pr_data m in
  (snd run = Ok true <->
   run_git w (GitAdd dir filename) = Completed
   /\ run_git w (GitCommit dir (AddContributor username)) = Completed
   /\ run_git w (GitPush dir) = Completed)
  /\ (forall stderr,
        run_git w (GitAdd dir filename) = Completed ->
        run_git w (GitCommit dir (AddContributor username)) = Completed ->
        run_git w (GitPush dir) = CalledProcessError stderr ->
        snd run = Ok false
        /\ exists doc, checkout (fst run) !! filename = Some (Toml doc)
                       /\ doc !! "pull_requests" = Some (VList [VDict entry])).
Proof.
  intros Hc Hf He dir run.
  destruct (new_contributor_data_ok (mconfig m) username discord_id wallet _ _ He)
    as (doc & c & Hd & Hp & _).
  subst run dir. rewrite (create_contributor_run w fmt _ _ _ _ doc m filename Hc Hf Hd).
  cbv zeta.
  set (m2 := {| gist_pat := _; mconfig := _; repo_dir := _; checkout := _ |}).
  destruct (commit_and_push_result w filename (AddContributor username) m2) as [H1 H2].
  split; [exact H1|].
  intros stderr Ha Hcm Hp'. split; [apply (H2 stderr Ha Hcm Hp')|].
  rewrite commit_and_push_state. exists doc. split; [apply lookup_insert_eq|exact Hp].
Qed.

Lemma create_contributor_true_iff_pushed_witness :
  let run := create_contributor (working_world ∅) simple_format (lit "Alice")
               (VStr (lit "1")) (VStr (lit "0x")) (example_pr 3) fresh_manager in
  snd run = Ok true.
Proof.
  destruct (create_contributor_true_iff_pushed (working_world ∅) simple_format
              (lit "Alice") (VStr (lit "1")) (VStr (lit "0x")) (example_pr 3)
              (example_entry 3) fresh_manager (lit "alice.toml")
              eq_refl eq_refl eq_refl) as [H _].
  apply H. repeat split; reflexivity.
Defined.

(** Neither mutation touches the record of anybody else: every file of
    the checkout other than the file of the username is as the clone left
    it. *)
Theorem mutations_leave_other_records (w : env) (fmt : formatter) (username : str)
    (pr_data : gmap string value) (m : manager) (f : str) :
  fmt (contributor_file_pattern (gist (mconfig m))) (sanitize_filename username)
    <> Ok f ->
  (forall discord_id wallet,
     checkout (fst (create_contributor w fmt username discord_id wallet pr_data m)) !! f
     = checkout (fst (ensure_cloned w m)) !! f)
  /\ checkout (fst (add_pr_to_contributor w fmt username pr_data m)) !! f
     = checkout (fst (ensure_cloned w m)) !! f.
Proof.
  intros Hne.
  destruct (ensure_cloned_frame w m) as [Hcfg _].
  split; [intros discord_id wallet; unfold create_contributor
         |unfold add_pr_to_contributor];
    run_method;
    destruct (ensure_cloned w m) as [m1 [[]|e]]; cbn [fst] in *; try reflexivity;
    rewrite Hcfg;
    destruct (fmt _ _) as [filename|e] eqn:Hf; try reflexivity.
  - destruct (new_contributor_data _ _ _ _ _) as [doc|e]; [|reflexivity].
    cbn [fst checkout]. apply lookup_insert_ne. congruence.
  - destruct (checkout m1 !! filename) as [[doc0|]|]; run_method; try reflexivity.
    destruct (pr_entry pr_data) as [new_pr|e]; [|reflexivity].
    destruct (append_pr doc0 new_pr) as [doc|e]; [|reflexivity].
    cbn [fst checkout]. apply lookup_insert_ne. congruence.
Qed.

Lemma mutations_leave_other_records_witness :
  let w := working_world (<[lit "bob.toml" := Toml drifted_record]> ∅) in
  checkout (fst (add_pr_to_contributor w simple_format (lit "Alice") (example_pr 8)
                   fresh_manager)) !! lit "bob.toml"
  = Some (Toml drifted_record).
Proof.
  intros w.
  destruct (mutations_leave_other_records w simple_format (lit "Alice") (example_pr 8)
              fresh_manager (lit "bob.toml")) as [_ H].
  - vm_compute. discriminate.
  - rewrite H. reflexivity.
Defined.

End ManagerPublish.

(** ** The address of the clone *)

Section AuthUrl.
Import Py Data World Example.

Lemma replace_from_absent (old new s : str) :
  contains s old = false -> replace_from old new 0 s = s.
Proof.
  induction s as [|c s IH]; [reflexivity|].
  cbn [contains replace_from]. intros H.
  apply orb_false_iff in H as [H1 H2]. rewrite H1, IH by exact H2. reflexivity.
Qed.

Lemma replace_absent (s old new : str) :
  contains s old = false -> replace s old new = s.
Proof.
  intros H. unfold replace. destruct old as [|o old].
  - destruct s; discriminate H.
  - apply replace_from_absent, H.
Qed.

Lemma replace_from_skip (old new a s : str) :
  replace_from old new (length a) (a ++ s) = replace_from old new 0 s.
Proof. induction a as [|c a IH]; [reflexivity|]. cbn. exact IH. Qed.

Lemma startswith_app (p s : str) : startswith (p ++ s) p = true.
Proof.
  induction p as [|c p IH]; [reflexivity|].
  cbn. rewrite Ascii.eqb_refl. exact IH.
Qed.

Lemma replace_prefix (old new s : str) :
  old <> [] -> replace (old ++ s) old new = new ++ replace s old new.
Proof.
  destruct old as [|o old]; [congruence|]. intros _.
  unfold replace. cbn [app replace_from].
  change (o :: old ++ s) with ((o :: old) ++ s).
  rewrite startswith_app.
  replace (length (o :: old) - 1) with (length old) by (cbn [length]; lia).
  rewrite replace_from_skip. reflexivity.
Qed.

(** The credential is put into the address of the clone only through the
    scheme [https://]: a registry address without it is cloned as it is,
    without the credential, and an address that starts with it gets the
    credential as its user part. *)
Theorem auth_url_only_for_https (url rest token : str) :
  (contains url (lit "https://") = false -> auth_url url token = url)
  /\ (contains rest (lit "https://") = false ->
      auth_url (lit "https://" ++ rest) token
      = lit "https://" ++ token ++ lit "@" ++ rest).
Proof.
  unfold auth_url. split; intros H.
  - apply replace_absent, H.
  - rewrite replace_prefix by discriminate.
    rewrite (replace_absent _ _ _ H). repeat rewrite <- app_assoc. reflexivity.
Qed.

Lemma auth_url_only_for_https_witness :
  auth_url (lit "http://gist.example/registry.git") secret
  = lit "http://gist.example/registry.git"
  /\ auth_url (lit "https://" ++ lit "gist.github.com/registry.git") secret
     = lit "https://" ++ secret ++ lit "@" ++ lit "gist.github.com/registry.git".
Proof.
  destruct (auth_url_only_for_https (lit "http://gist.example/registry.git")
              (lit "gist.github.com/registry.git") secret) as [H1 H2].
  split; [apply H1|apply H2]; reflexivity.
Defined.

End AuthUrl.

(** ** The checker: failures of the clone and unreadable records *)

Section CheckerFailures.
Import Py Data World Utils Checker Spec Example.

(** When [git clone] fails or runs out of time, [check_contributor_exists]
    reports [exists] false with one of two fixed texts: neither the error
    output of [git] nor the credential is in the result. *)
Theorem check_contributor_exists_hides_git_output (w : env) (cfg : config)
    (pr_author gist_pat gist_dir : str) :
  let clone := GitClone (auth_url (registry_url (gist cfg)) gist_pat) gist_dir in
  (forall stderr,
     run_git w clone = CalledProcessError stderr ->
     check_contributor_exists w cfg pr_author gist_pat gist_dir
     = <["exists" := VBool false]>
       (<["error" := VStr (lit "Failed to clone gist repository")]> ∅))
  /\ (run_git w clone = TimeoutExpired ->
      check_contributor_exists w cfg pr_author gist_pat gist_dir
      = <["exists" := VBool false]>
        (<["error" := VStr (lit "Git clone operation timed out")]> ∅)).
Proof.
  cbv zeta. unfold check_contributor_exists, clone_gist_repo.
  split; [intros stderr H|intros H]; rewrite H; reflexivity.
Qed.

Lemma check_contributor_exists_hides_git_output_witness :
  check_contributor_exists rejecting_world example_config (lit "Alice") secret
    (lit "/tmp/gist")
  = <["exists" := VBool false]>
    (<["error" := VStr (lit "Failed to clone gist repository")]> ∅).
Proof.
  destruct (check_contributor_exists_hides_git_output rejecting_world example_config
              (lit "Alice") secret (lit "/tmp/gist")) as [H _].
  eapply H. reflexivity.
Defined.

(** A record file that cannot be parsed, and a clone that fails, are
    reported by the promotion check exactly as an absent record is: "not
    onboarded". *)
Theorem unreadable_record_is_not_onboarded (w : env) (cfg : config)
    (pr_author gist_pat gist_dir : str) :
  run_git w (GitClone (auth_url (registry_url (gist cfg)) gist_pat) gist_dir)
    <> Completed
  \/ registry w !! record_filename cfg pr_author = Some Malformed ->
  check_promotion_eligibility w cfg pr_author gist_pat gist_dir = Ok not_onboarded.
Proof.
  unfold check_promotion_eligibility, check_contributor_exists, clone_gist_repo.
  intros [H|H].
  - destruct (run_git w _); [congruence|reflexivity..].
  - destruct (run_git w _); [|reflexivity..].
    cbn [mbind res_bind]. rewrite H. reflexivity.
Qed.

Lemma unreadable_record_is_not_onboarded_witness :
  check_promotion_eligibility (working_world (<[lit "alice.toml" := Malformed]> ∅))
    example_config (lit "Alice") secret (lit "/tmp/gist") = Ok not_onboarded
  /\ check_promotion_eligibility rejecting_world example_config (lit "Alice") secret
       (lit "/tmp/gist") = Ok not_onboarded.
Proof.
  split; apply unreadable_record_is_not_onboarded.
  - right. reflexivity.
  - left. vm_compute. discriminate.
Defined.

End CheckerFailures.

(** ** The scanner: comments of other users, and the parser of [utils] *)

Section ScannerMore.
Import Py Data Utils Checker Spec Example.

Lemma first_response_by_author (cfg : config) (parse : parser) (pr_author : str)
    (l : list comment) :
  first_response cfg parse pr_author (List.filter (by_author pr_author) l)
  = first_response cfg parse pr_author l.
Proof.
  induction l as [|c l IH]; [reflexivity|].
  cbn [List.filter first_response]. unfold by_author at 1.
  destruct (bool_decide_reflect (lower (user_login c) = lower pr_author)) as [Hl|Hl].
  - cbn [first_response]. rewrite IH. reflexivity.
  - rewrite IH. unfold response_of. rewrite bool_decide_eq_false_2 by exact Hl.
    reflexivity.
Qed.

Lemma filter_rev {A} (p : A -> bool) (l : list A) :
  List.filter p (rev l) = rev (List.filter p l).
Proof.
  induction l as [|a l IH]; [reflexivity|].
  cbn [rev List.filter]. rewrite List.filter_app, IH. cbn [List.filter].
  destruct (p a); [reflexivity|]. cbn. apply app_nil_r.
Qed.

(** The comments of other users have no effect at all: the result is the
    same as on the thread with only the comments of the author. *)
Theorem check_for_response_ignores_others (cfg : config) (parse : parser)
    (pr_author : str) (comments : list comment) :
  check_for_response_in_pr cfg parse (Ok comments) pr_author
  = check_for_response_in_pr cfg parse
      (Ok (List.filter (by_author pr_author) comments)) pr_author.
Proof.
  unfold check_for_response_in_pr.
  rewrite <- filter_rev, first_response_by_author. reflexivity.
Qed.

Lemma first_response_found (cfg : config) (parse : parser) (pr_author : str)
    (l : list comment) (r : gmap string value) :
  first_response cfg parse pr_author l = Some r ->
  exists c parsed,
    In c l /\ parse (body c) = Some parsed /\ r = found_response cfg parsed c.
Proof.
  induction l as [|c l IH]; [discriminate|].
  cbn [first_response]. destruct (response_of cfg parse pr_author c) as [r'|] eqn:E.
  - intros [= <-]. unfold response_of in E.
    destruct (bool_decide _); [|discriminate].
    destruct (parse (body c)) as [parsed|] eqn:Hp; [|discriminate].
    destruct (truthy (VDict parsed)); [|discriminate].
    injection E as <-. exists c, parsed. cbn. auto.
  - intros H. apply IH in H as (c' & parsed & Hin & Hp & Hr).
    exists c', parsed. cbn. auto.
Qed.

(** If the scanner is run with the parser that [utils] defines,
    [parse_contributor_comment], it never reports a valid response: the
    claim has the key [wallet] and the scanner reads [wallet_address], so
    every response has an empty wallet and [wallet_valid] false. *)
Theorem scanner_with_utils_parser_never_valid (cfg : config)
    (fetched : res (list comment)) (pr_author : str) :
  let r := check_for_response_in_pr cfg parse_contributor_comment fetched pr_author in
  r !! "valid" <> Some (VBool true)
  /\ (r !! "has_response" = Some (VBool true) ->
      r !! "wallet_address" = Some (VStr [])
      /\ r !! "wallet_valid" = Some (VBool false)).
Proof.
  cbv zeta. unfold check_for_response_in_pr.
  destruct fetched as [comments|e]; [|split; [discriminate|intros [=]]].
  destruct (first_response _ _ _ _) as [r|] eqn:E;
    [|split; [discriminate|intros [=]]].
  apply first_response_found in E as (c & parsed & _ & Hp & ->).
  destruct (scanner_with_parse_contributor_comment cfg c parsed Hp) as (H1 & H2 & H3).
  split; [rewrite H3; discriminate|]. intros _. auto.
Qed.

Lemma scanner_with_utils_parser_never_valid_witness :
  let thread :=
    [ {| comment_id := 7; user_login := lit "alice";
         body := lit "discord: 123456789012345678 wallet: 0x1234567890abcdef1234567890abcdef12345678" |} ] in
  let r := check_for_response_in_pr example_config parse_contributor_comment
             (Ok thread) (lit "Alice") in
  r !! "discord_valid" = Some (VBool true)
  /\ r !! "wallet_address" = Some (VStr [])
  /\ r !! "wallet_valid" = Some (VBool false).
Proof.
  intros thread r. split; [vm_compute; reflexivity|].
  destruct (scanner_with_utils_parser_never_valid example_config (Ok thread) (lit "Alice"))
    as [_ H].
  apply H. vm_compute. reflexivity.
Defined.

End ScannerMore.

(** ** The promotion check: what it reads and what it skips *)

Section PromotionMore.
Import Py Data World Utils Manager Checker Spec Example.

(** A contributor whose role is not [Apprentice], or whose [blocked] field
    is truthy, is reported not eligible whatever the statistics are, even
    when they are not numbers: the comparisons are not evaluated. *)
Theorem promotion_verdict_short_circuit (cfg : config) (doc : gmap string value) :
  table_or_absent doc "status" (fun _ => True) ->
  table_or_absent doc "stats" (fun _ => True) ->
  table_or_absent doc "discord" (fun _ => True) ->
  field doc "status" "current_role" (VStr (lit "Apprentice")) <> VStr (lit "Apprentice")
  \/ truthy (field doc "status" "blocked" (VBool false)) = true ->
  exists r, promotion_verdict cfg (VDict doc) = Ok r
            /\ r !! "eligible_for_promotion" = Some (VBool false)
            /\ r !! "total_prs" = Some (field doc "stats" "total_prs" (VInt 0)).
Proof.
  intros Hstatus Hstats Hdiscord Hcase. rewrite !field_table in *.
  unfold promotion_verdict, value_get. cbn [mbind res_bind].
  rewrite (table_get _ _ _ Hstatus), (table_get _ _ _ Hstats), (table_get _ _ _ Hdiscord).
  set (role := dict_get (table doc "status") "current_role" _) in *.
  set (blocked := dict_get (table doc "status") "blocked" _) in *.
  set (total := dict_get (table doc "stats") "total_prs" _).
  set (avg := dict_get (table doc "stats") "avg_lines_changed" _).
  unfold mbind, res_bind, mret, res_ret.
  assert (and_then (eq_str role (lit "Apprentice"))
            (and_then (negb (truthy blocked))
               match ge total (threshold (promotion cfg)) with
               | Ok a => and_then a (ge avg (min_avg_lines (promotion cfg)))
               | Raise e => Raise e
               end) = Ok false) as ->.
  { destruct Hcase as [Hr|Hb].
    - destruct (eq_str role (lit "Apprentice")) eqn:E; [|reflexivity].
      apply eq_str_true in E. contradiction.
    - rewrite Hb. destruct (eq_str role (lit "Apprentice")); reflexivity. }
  eexists. split; [reflexivity|]. split; reflexivity.
Qed.

Lemma promotion_verdict_short_circuit_witness :
  let doc : gmap string value :=
    <["status" := VDict (<["current_role" := VStr (lit "Sentinel")]> ∅)]>
    (<["stats" := VDict (<["total_prs" := VStr (lit "many")]> ∅)]> ∅) in
  exists r, promotion_verdict example_config (VDict doc) = Ok r
            /\ r !! "eligible_for_promotion" = Some (VBool false)
            /\ r !! "total_prs" = Some (VStr (lit "many")).
Proof.
  intros doc.
  apply (promotion_verdict_short_circuit example_config doc).
  - exact I.
  - exact I.
  - exact I.
  - left. vm_compute. discriminate.
Defined.

(** For an apprentice who is not blocked the comparison is evaluated: a
    [total_prs] that is not a number (a text, a list, a table, a date)
    makes the check raise a [TypeError] instead of giving a verdict. *)
Theorem promotion_verdict_type_error (cfg : config) (doc : gmap string value) :
  table_or_absent doc "status" (fun _ => True) ->
  table_or_absent doc "stats" (fun _ => True) ->
  table_or_absent doc "discord" (fun _ => True) ->
  field doc "status" "current_role" (VStr (lit "Apprentice")) = VStr (lit "Apprentice") ->
  truthy (field doc "status" "blocked" (VBool false)) = false ->
  (forall b, ge (field doc "stats" "total_prs" (VInt 0)) (threshold (promotion cfg)) <> Ok b) ->
  exists e, promotion_verdict cfg (VDict doc) = Raise e.
Proof.
  intros Hstatus Hstats Hdiscord Hrole Hblocked Hge. rewrite !field_table in *.
  unfold promotion_verdict, value_get. cbn [mbind res_bind].
  rewrite (table_get _ _ _ Hstatus), (table_get _ _ _ Hstats), (table_get _ _ _ Hdiscord).
  cbn [mbind res_bind]. rewrite Hrole, Hblocked.
  destruct (ge _ (threshold (promotion cfg))) as [b|e] eqn:E.
  - destruct (Hge b). reflexivity.
  - exists e. reflexivity.
Qed.

Lemma promotion_verdict_type_error_witness :
  let doc : gmap string value :=
    <["stats" := VDict (<["total_prs" := VStr (lit "many")]> ∅)]> ∅ in
  exists e, promotion_verdict example_config (VDict doc) = Raise e.
Proof.
  intros doc.
  apply (promotion_verdict_type_error example_config doc).
  - exact I.
  - exact I.
  - exact I.
  - reflexivity.
  - reflexivity.
  - intros b. vm_compute. discriminate.
Defined.

End PromotionMore.

(** ** [contributor_manager.py]: the command line *)

Section ManagerCommandLine.
Import Py Data World Utils Manager Output ManagerMain Spec Example CommandLine.

Lemma strip_empty (s : str) : strip s = [] <-> forallb isspace s = true.
Proof.
  split.
  - intros H. destruct (strip_with_split isspace s) as (a & b & Hs & Ha & Hb).
    fold (strip s) in Hs. rewrite H in Hs. cbn [app] in Hs.
    rewrite Hs, forallb_app, Ha, Hb. reflexivity.
  - intros H. unfold strip, strip_with. rewrite (drop_while_all _ _ H). reflexivity.
Qed.

Lemma init_blank (cfg : config) (token : str) :
  init cfg token
  = if forallb isspace token
    then Raise (OtherError (lit "GIST_PAT is required"))
    else Ok {| gist_pat := token; mconfig := cfg; repo_dir := None; checkout := ∅ |}.
Proof.
  unfold init. destruct (forallb isspace token) eqn:E.
  - apply strip_empty in E. rewrite E. rewrite bool_decide_eq_true_2 by reflexivity.
    rewrite orb_true_r. reflexivity.
  - destruct (bool_decide_reflect (strip token = [])) as [H|H].
    + apply strip_empty in H. congruence.
    + destruct token; [discriminate|reflexivity].
Qed.

(** A token that is empty or made of white space only stops [main]
    before anything else happens, whatever the action: no [git] command is
    run, no output file is written, and the exit status is 1; any other
    token is accepted by the constructor as it is, not stripped. *)
Theorem main_blank_token (w : env) (fmt : formatter) (json_loads : str -> res value)
    (cfg : config) (a : args) (files : gmap str value) :
  (forallb isspace (gist_pat_ a) = true ->
   main w fmt json_loads cfg a files
   = {| exit_code := 1; printed := Error (OtherError (lit "GIST_PAT is required"));
        files := files; final := None |})
  /\ (forallb isspace (gist_pat_ a) = false ->
      init cfg (gist_pat_ a)
      = Ok {| gist_pat := gist_pat_ a; mconfig := cfg; repo_dir := None;
              checkout := ∅ |}).
Proof.
  split; intros H.
  - unfold main. rewrite init_blank, H. reflexivity.
  - rewrite init_blank, H. reflexivity.
Qed.

Lemma main_blank_token_witness :
  main (working_world ∅) simple_format (fun _ => Ok (VList [])) example_config
    (example_args Create (lit "  ")) ∅
  = {| exit_code := 1; printed := Error (OtherError (lit "GIST_PAT is required"));
       files := ∅; final := None |}
  /\ init example_config (lit " x ")
     = Ok {| gist_pat := lit " x "; mconfig := example_config; repo_dir := None;
             checkout := ∅ |}.
Proof.
  split.
  - destruct (main_blank_token (working_world ∅) simple_format (fun _ => Ok (VList []))
                example_config (example_args Create (lit "  ")) ∅) as [H _].
    apply H. reflexivity.
  - destruct (main_blank_token (working_world ∅) simple_format (fun _ => Ok (VList []))
                example_config (example_args Create (lit " x ")) ∅) as [_ H].
    apply H. reflexivity.
Defined.

(** The [check_exists] action from end to end: with a token that is not
    blank and a clone that succeeds, [main] exits with status 0 and the
    output file holds [exists], which tells whether the registry has the
    file of the sanitized username, and the username as it was given. *)
Theorem main_check_exists_output (w : env) (fmt : formatter)
    (json_loads : str -> res value) (cfg : config) (a : args)
    (files : gmap str value) (u filename path : str) :
  action_ a = CheckExists ->
  username a = Some u ->
  output_file a = Some path ->
  path <> [] ->
  forallb isspace (gist_pat_ a) = false ->
  run_git w (GitClone (auth_url (registry_url (gist cfg)) (gist_pat_ a))
                      (path_join (tempdir w) (lit "contributor_gist_repo")))
    = Completed ->
  fmt (contributor_file_pattern (gist cfg)) (sanitize_filename u) = Ok filename ->
  let found := bool_decide (is_Some (registry w !! filename)) in
  let out := main w fmt json_loads cfg a files in
  exit_code out = 0%Z
  /\ printed out = ContributorExists found
  /\ ManagerMain.files out
     = <[path := VDict (<["exists" := VBool found]>
                       (<["username" := VStr u]> ∅))]> files.
Proof.
  intros Ha Hu Ho Hp Ht Hc Hf found out. subst found out.
  unfold main. rewrite init_blank, Ht, Ha, Hu, Ho.
  unfold with_username, contributor_exists, ensure_cloned, clone_gist. run_method.
  rewrite Hc. cbn [fst snd mconfig checkout]. rewrite Hf.
  destruct path as [|c path]; [congruence|].
  cbn. auto.
Qed.

Lemma main_check_exists_output_witness :
  let w := working_world (<[lit "alice.toml" := Toml created_record]> ∅) in
  let out := main w simple_format (fun _ => Ok (VList [])) example_config
               (example_args CheckExists secret) ∅ in
  exit_code out = 0%Z
  /\ printed out = ContributorExists true
  /\ ManagerMain.files out
     = <[lit "out.json" := VDict (<["exists" := VBool true]>
                                 (<["username" := VStr (lit "Alice")]> ∅))]> ∅.
Proof.
  intros w.
  apply (main_check_exists_output w simple_format (fun _ => Ok (VList [])) example_config
           (example_args CheckExists secret) ∅ (lit "Alice") (lit "alice.toml")
           (lit "out.json")); try reflexivity.
  discriminate.
Defined.

End ManagerCommandLine.

(** ** The [create] action, and what [add_pr] keeps *)

Section ManagerRecords.
Import Py Data World Utils Manager Output ManagerMain Spec Example CommandLine.

(** What a [True] of [create_contributor] tells. *)
Lemma create_contributor_true (w : env) (fmt : formatter) (username : str)
    (discord_id wallet : value) (pr_data : gmap string value) (m m' : manager) :
  create_contributor w fmt username discord_id wallet pr_data m = (m', Ok true) ->
  exists filename doc,
    fmt (contributor_file_pattern (gist (mconfig m))) (sanitize_filename username)
      = Ok filename
    /\ new_contributor_data (mconfig m) username discord_id wallet pr_data = Ok doc
    /\ checkout m' !! filename = Some (Toml doc)
    /\ run_git w (GitPush (default [] (repo_dir m'))) = Completed.
Proof.
  destruct (ensure_cloned_frame w m) as [Hcfg _].
  unfold create_contributor. run_method.
  destruct (ensure_cloned w m) as [m1 [[]|e]]; cbn [fst snd] in *; [|discriminate].
  rewrite Hcfg. destruct (fmt _ _) as [filename|e]; [|discriminate].
  destruct (new_contributor_data _ _ _ _ _) as [doc|e]; [|discriminate].
  destruct (run_git w (GitAdd _ _)); try discriminate.
  destruct (run_git w (GitCommit _ _)); try discriminate.
  destruct (run_git w (GitPush _)) eqn:Hp; try discriminate.
  intros [= <-]. exists filename, doc. cbn [checkout repo_dir].
  split; [reflexivity|]. split; [reflexivity|]. split; [apply lookup_insert_eq|exact Hp].
Qed.

(** An exit status 0 of the [create] action means that the record is in
    the checkout under the file of the sanitized username, that it holds
    the identifier and the wallet exactly as they were given on the command
    line, whatever they are (the manager calls no validator), and that the
    push completed; no output file is written. *)
Theorem main_create_exit_zero (w : env) (fmt : formatter)
    (json_loads : str -> res value) (cfg : config) (a : args)
    (files : gmap str value) (d x : str) :
  action_ a = Create ->
  discord_id a = Some d ->
  wallet a = Some x ->
  let out := main w fmt json_loads cfg a files in
  exit_code out = 0%Z ->
  exists u m filename doc c,
    username a = Some u
    /\ final out = Some m
    /\ fmt (contributor_file_pattern (gist cfg)) (sanitize_filename u) = Ok filename
    /\ checkout m !! filename = Some (Toml doc)
    /\ doc !! "contributor" = Some (VDict c)
    /\ c !! "github_username" = Some (VStr u)
    /\ c !! "discord_id" = Some (VStr d)
    /\ c !! "wallet_address" = Some (VStr x)
    /\ c !! "total_prs" = Some (VInt 1)
    /\ run_git w (GitPush (default [] (repo_dir m))) = Completed
    /\ ManagerMain.files out = files.
Proof.
  intros Ha Hd Hx out. subst out. unfold main. rewrite init_blank, Ha, Hd, Hx.
  destruct (forallb isspace (gist_pat_ a)); [discriminate|].
  destruct (pr_data_of json_loads a) as [pr_data|e]; [|discriminate].
  destruct (username a) as [u|]; cbn [with_username opt_str].
  - destruct (create_contributor w fmt u (VStr d) (VStr x) pr_data _)
      as [m [[]|e]] eqn:E; try discriminate.
    intros _. apply create_contributor_true in E as (filename & doc & Hf & Hdoc & Hc & Hp).
    cbn [mconfig] in Hf, Hdoc.
    unfold new_contributor_data in Hdoc.
    apply res_bind_ok in Hdoc as (entry & _ & Hdoc). cbn in Hdoc. injection Hdoc as <-.
    exists u, m, filename. eexists. eexists.
    split; [reflexivity|]. split; [reflexivity|]. split; [exact Hf|].
    split; [exact Hc|]. split; [reflexivity|].
    split; [reflexivity|]. split; [reflexivity|]. split; [reflexivity|].
    split; [reflexivity|]. split; [exact Hp|reflexivity].
  - run_method.
    destruct (ensure_cloned w _) as [m [[]|e]]; discriminate.
Qed.

Lemma main_create_exit_zero_witness :
  let out := main (working_world ∅) simple_format (fun _ => Ok (VList [])) example_config
               (example_args Create secret) ∅ in
  exists m doc c,
    final out = Some m
    /\ checkout m !! lit "alice.toml" = Some (Toml doc)
    /\ doc !! "contributor" = Some (VDict c)
    /\ c !! "discord_id" = Some (VStr (lit "1"))
    /\ c !! "wallet_address" = Some (VStr (lit "0x")).
Proof.
  intros out.
  destruct (main_create_exit_zero (working_world ∅) simple_format
              (fun _ => Ok (VList [])) example_config (example_args Create secret) ∅
              (lit "1") (lit "0x") eq_refl eq_refl eq_refl eq_refl)
    as (u & m & filename & doc & c & Hu & Hm & Hf & Hc & Hdoc & _ & Hd & Hx & _).
  injection Hu as <-. injection Hf as <-.
  exists m, doc, c. auto.
Defined.

(** [add_pr_to_contributor] changes two things of a record and nothing
    else: the list [pull_requests], whose earlier entries stay in place,
    and the counter [total_prs].  Every other key of the document and every
    other field of [contributor], such as the chat identifier and the wallet,
    is as it was, whether or not the push succeeds. *)
Theorem add_pr_keeps_the_rest (w : env) (fmt : formatter) (username : str)
    (pr_data entry : gmap string value) (m : manager) (filename : str)
    (doc0 : gmap string value) (l0 : list value) (c0 : gmap string value) :
  snd (ensure_cloned w m) = Ok tt ->
  fmt (contributor_file_pattern (gist (mconfig m))) (sanitize_filename username)
    = Ok filename ->
  checkout (fst (ensure_cloned w m)) !! filename = Some (Toml doc0) ->
  doc0 !! "pull_requests" = Some (VList l0) ->
  doc0 !! "contributor" = Some (VDict c0) ->
  pr_entry pr_data = Ok entry ->
  exists doc c,
    checkout (fst (add_pr_to_contributor w fmt username pr_data m)) !! filename
      = Some (Toml doc)
    /\ doc !! "pull_requests" = Some (VList (l0 ++ [VDict entry]))
    /\ doc !! "contributor" = Some (VDict c)
    /\ (forall key, key <> "total_prs" -> c !! key = c0 !! key)
    /\ (forall key, key <> "pull_requests" -> key <> "contributor" ->
                    doc !! key = doc0 !! key).
Proof.
  intros Hc Hf Hfile Hp Hcon He.
  destruct (ensure_cloned_frame w m) as [Hcfg _].
  unfold add_pr_to_contributor. run_method.
  destruct (ensure_cloned w m) as [m1 r]. cbn [fst snd] in *. subst r.
  rewrite Hcfg, Hf, Hfile. run_method. rewrite He.
  assert (exists doc, append_pr doc0 entry = Ok doc) as [doc Hd].
  { eexists. apply append_pr_spec. eauto. }
  rewrite Hd. cbn [fst checkout].
  apply append_pr_spec in Hd as (l & c & Hp' & Hcon' & ->).
  rewrite Hp in Hp'. injection Hp' as <-.
  rewrite Hcon in Hcon'. injection Hcon' as <-.
  eexists. eexists. split; [apply lookup_insert_eq|].
  split; [rewrite lookup_insert_ne by discriminate; apply lookup_insert_eq|].
  split; [apply lookup_insert_eq|].
  split.
  - intros key Hk. apply lookup_insert_ne. congruence.
  - intros key H1 H2. rewrite !lookup_insert_ne by congruence. reflexivity.
Qed.

Lemma add_pr_keeps_the_rest_witness :
  let w := {| run_git := fun c => match c with
                                  | GitPush _ => CalledProcessError (lit "rejected")
                                  | _ => Completed
                                  end;
              registry := <[lit "alice.toml" := Toml created_record]> ∅;
              tempdir := lit "/tmp" |} in
  exists doc c,
    checkout (fst (add_pr_to_contributor w simple_format (lit "Alice") (example_pr 8)
                     fresh_manager)) !! lit "alice.toml" = Some (Toml doc)
    /\ doc !! "contributor" = Some (VDict c)
    /\ c !! "discord_id" = Some (VStr (lit "123456789012345678"))
    /\ doc !! "schema_version" = Some (VInt 1).
Proof.
  intros w.
  destruct (add_pr_keeps_the_rest w simple_format (lit "Alice") (example_pr 8)
              (example_entry 8) fresh_manager (lit "alice.toml") created_record
              [VDict (example_entry 3)]
              (<["github_username" := VStr (lit "Alice")]>
               (<["discord_id" := VStr (lit "123456789012345678")]>
               (<["wallet_address" := VStr (lit "0x1234567890abcdef1234567890abcdef12345678")]>
               (<["total_prs" := VInt 1]> ∅))))
              eq_refl eq_refl eq_refl eq_refl eq_refl eq_refl)
    as (doc & c & H1 & _ & H3 & H4 & H5).
  exists doc, c. split; [exact H1|]. split; [exact H3|]. split.
  - rewrite H4 by discriminate. reflexivity.
  - rewrite H5 by discriminate. reflexivity.
Defined.

(** The promotion check cannot tell two records of the manager apart: for
    every record that comes from [create_contributor] and
    [add_pr_to_contributor] the verdict is the same, with the role
    [Apprentice], an empty chat identifier and no block, because the check
    reads none of the keys the manager writes. *)
Theorem produced_records_same_verdict (cfg cfg' : config)
    (doc doc' : gmap string value) :
  produced cfg doc ->
  produced cfg doc' ->
  Checker.promotion_verdict cfg' (VDict doc) = Checker.promotion_verdict cfg' (VDict doc')
  /\ exists r,
       Checker.promotion_verdict cfg' (VDict doc) = Ok r
       /\ r !! "current_role" = Some (VStr (lit "Apprentice"))
       /\ r !! "discord_id" = Some (VStr [])
       /\ r !! "is_blocked" = Some (VBool false).
Proof.
  intros Hp Hp'.
  assert (forall d, produced cfg d ->
            Checker.promotion_verdict cfg' (VDict d)
            = Checker.promotion_verdict cfg' (VDict ∅)) as Hsame.
  { intros d Hd.
    destruct (produced_shape cfg d Hd) as (H1 & H2 & H3 & _).
    unfold Checker.promotion_verdict, value_get, dict_get.
    rewrite H1, H2, H3, !lookup_empty. reflexivity. }
  split; [rewrite (Hsame doc Hp), (Hsame doc' Hp'); reflexivity|].
  rewrite (Hsame doc Hp).
  assert (record_shaped ∅) as Hs.
  { unfold record_shaped, table_or_absent. rewrite !lookup_empty. auto. }
  destruct (promotion_verdict_shaped cfg' ∅ Hs) as (eligible & Hv & _).
  rewrite Hv. eexists. split; [reflexivity|].
  split; [reflexivity|]. split; reflexivity.
Qed.

Lemma produced_records_same_verdict_witness :
  exists doc',
    Manager.append_pr created_record (example_entry 8) = Ok doc'
    /\ Checker.promotion_verdict example_config (VDict created_record)
       = Checker.promotion_verdict example_config (VDict doc').
Proof.
  assert (produced example_config created_record) as Hp.
  { apply (produced_create example_config (lit "Alice")
             (VStr (lit "123456789012345678"))
             (VStr (lit "0x1234567890abcdef1234567890abcdef12345678"))
             (example_pr 3)).
    reflexivity. }
  destruct (Manager.append_pr created_record (example_entry 8)) as [doc'|] eqn:E;
    [|vm_compute in E; discriminate].
  exists doc'. split; [reflexivity|].
  apply (produced_records_same_verdict example_config example_config created_record doc').
  - exact Hp.
  - apply (produced_append example_config created_record (example_pr 8) (example_entry 8));
      [exact Hp|reflexivity|exact E].
Defined.

End ManagerRecords.

(** ** [contributor_checker.py]: the command line *)

Section CheckerCommandLine.
Import Py Data World Utils Checker Output CheckerMain Spec Example CommandLine.

(** [write_output_file] called with a document where the path belongs
    raises a [TypeError] and writes nothing. *)
Lemma write_output_file_swapped (path : str) (result : gmap string value)
    (files : gmap str value) :
  write_output_file (VStr path) (VDict result) files
  = Raise (TypeError "expected str, bytes or os.PathLike object").
Proof. reflexivity. Qed.

(** [main] of the checker never writes its output file and never ends
    with status 0: both calls of [write_output_file] pass the path as the
    data and the result as the path.  A run either stops at the validation
    of the options, or computes its result and then ends with the
    [TypeError] of the second call, which nothing catches. *)
Theorem checker_main_never_writes (w : env) (cfg : config) (parse : parser)
    (fetched : res (list comment)) (gist_dir : str) (a : args)
    (files : gmap str value) :
  let out := main w cfg parse fetched gist_dir a files in
  CheckerMain.files out = files
  /\ ended out
     = match missing_argument a with
       | Some message => UsageError message
       | None => Uncaught (TypeError "expected str, bytes or os.PathLike object")
       end
  /\ exit_code (ended out) <> 0%Z.
Proof.
  cbv zeta. unfold main.
  destruct (missing_argument a) as [message|].
  - split; [reflexivity|]. split; [reflexivity|]. discriminate.
  - destruct (run_action w cfg parse fetched gist_dir a) as [result|e];
      cbn [mbind res_bind]; rewrite ?write_output_file_swapped;
      (split; [reflexivity|]; split; [reflexivity|]; discriminate).
Qed.

(** The [check_response] action cannot be used on a pull request with the
    number 0: the validation takes the number for a missing option and
    ends the run with a usage error, although every option was given. *)
Theorem check_response_rejects_number_zero (w : env) (cfg : config) (parse : parser)
    (fetched : res (list comment)) (gist_dir : str) (a : args)
    (files : gmap str value) (repo : str) :
  action_ a = CheckResponse ->
  repo_name a = Some repo ->
  repo <> [] ->
  pr_number a = Some 0%Z ->
  ended (main w cfg parse fetched gist_dir a files)
  = UsageError "--pr-number is required for check_response action".
Proof.
  intros Ha Hr Hne Hn. unfold main, missing_argument. rewrite Ha, Hr, Hn.
  destruct repo; [congruence|]. reflexivity.
Qed.

Lemma check_response_rejects_number_zero_witness :
  ended (main (working_world ∅) example_config Utils.parse_contributor_comment
           (Ok example_thread) (lit "/tmp/gist") (checker_args CheckResponse 0) ∅)
  = UsageError "--pr-number is required for check_response action".
Proof.
  apply (check_response_rejects_number_zero (working_world ∅) example_config
           Utils.parse_contributor_comment (Ok example_thread) (lit "/tmp/gist")
           (checker_args CheckResponse 0) ∅ (lit "org/repo")).
  - reflexivity.
  - reflexivity.
  - discriminate.
  - reflexivity.
Defined.

End CheckerCommandLine.
